(** * IntelliPatent Q&A engine: query router, metadata adapter and ingestion

    A shallow embedding of [backend/api_server.py], [backend/gemini_helper.py],
    [backend/pinecone_helper.py], [backend/sqlite_helper.py] and
    [backend/data_loader.py], with the properties of the specification that
    concern them.

    Conventions of the model.
    - A Python [str] is a [string]; its characters are the code points below
      256.  [lower], [strip] and the [in] operator are written out for them.
    - The external services (text generation, dense and sparse embedding,
      vector index, SQLite, uuid, text splitter) are the fields of a [World].
      Every call is recorded in the trace of the state, newest call first, and
      the answer of a service may depend on all the calls made before it.
    - A Python function that can raise runs in the monad [M]: a state
      transformer whose result is a value or an exception.
    - A prompt is kept as the template that builds it together with the values
      put into its holes; [print] is not modelled.
    - The database file of the ingestion ([patent_data.db] beside the
      [backend] directory) and the file that the router opens
      ([SQLITE_DB_PATH]) are taken to be one file.  The state keeps the rows
      of [patent_chunks] in that file apart from the rows as changed by the
      statements that the connection of the ingestion has executed and not
      yet committed: the router opens a connection of its own for every
      fetch and reads the file. *)

From Stdlib Require Import String Ascii List Bool Arith ZArith Lia DecimalString
  Permutation Sorted.
Import ListNotations.
Local Open Scope string_scope.
Local Open Scope list_scope.
Local Open Scope nat_scope.

(** ** Python strings *)
Module PyStr.

(** [str.isspace] for one character below 256. *)
Definition isspace (c : ascii) : bool :=
  let n := nat_of_ascii c in
  ((9 <=? n) && (n <=? 13)) || ((28 <=? n) && (n <=? 32))
  || (n =? 133) || (n =? 160).

(** [str.lower] for one character below 256. *)
Definition lower_char (c : ascii) : ascii :=
  let n := nat_of_ascii c in
  if ((65 <=? n) && (n <=? 90))
     || ((192 <=? n) && (n <=? 222) && negb (n =? 215))
  then ascii_of_nat (n + 32) else c.

Fixpoint lower (s : string) : string :=
  match s with
  | EmptyString => EmptyString
  | String c s' => String (lower_char c) (lower s')
  end.

Fixpoint lstrip (s : string) : string :=
  match s with
  | EmptyString => EmptyString
  | String c s' => if isspace c then lstrip s' else s
  end.

Fixpoint rstrip (s : string) : string :=
  match s with
  | EmptyString => EmptyString
  | String c s' =>
      match rstrip s' with
      | EmptyString => if isspace c then EmptyString else String c EmptyString
      | r => String c r
      end
  end.

Definition strip (s : string) : string := rstrip (lstrip s).

Definition startswith (s p : string) : bool := String.prefix p s.

(** [needle in hay]. *)
Fixpoint contains (needle hay : string) : bool :=
  String.prefix needle hay ||
  match hay with
  | EmptyString => false
  | String _ hay' => contains needle hay'
  end.

(** Truth value of a string: [bool(s)]. *)
Definition truthy (s : string) : bool :=
  match s with EmptyString => false | _ => true end.

(** [x in xs] for a list of strings. *)
Definition mem (x : string) (xs : list string) : bool :=
  existsb (String.eqb x) xs.

(** [sep.join(xs)]. *)
Fixpoint join (sep : string) (xs : list string) : string :=
  match xs with
  | [] => EmptyString
  | [x] => x
  | x :: rest => (x ++ sep ++ join sep rest)%string
  end.

(** [str(n)] for a natural number. *)
Definition of_nat (n : nat) : string := NilEmpty.string_of_uint (Nat.to_uint n).

End PyStr.

Arguments PyStr.mem : simpl never.
Arguments PyStr.strip : simpl never.
Arguments PyStr.lower : simpl never.
Arguments PyStr.contains : simpl never.

(** ** The outside world and the effect monad *)

(** The four prompt templates of the code base with the values of their holes. *)
Inductive Prompt : Type :=
| SummaryPrompt (query result : string)
| ClassifyPrompt (query : string)
| GenericAnswerPrompt (query : string)
| FollowupPrompt (prev_question prev_answer new_question : string).

(** What [gemini_model.generate_content] followed by reading [.text] can do:
    raise, give a response that is falsy or has no [text], or give a text. *)
Inductive GenOutcome : Type :=
| GenRaise (msg : string)
| GenNoText
| GenText (text : string).

Record SparseEmbedding : Type := mkSparse {
  indices : list Z;
  values : list Z
}.

Record VectorData : Type := mkVectorData {
  vd_id : string;
  vd_values : list Z;
  vd_metadata : list (string * string);
  vd_sparse_values : option SparseEmbedding
}.

(** A row of the table [patent_chunks]. *)
Record StoredRow : Type := mkRow {
  vector_id : string;
  patent_number : string;
  title : string;
  description : string;
  abstract : string;
  claims_text : string;
  detailed_summary : string
}.

Inductive Event : Type :=
| GenerateContent (p : Prompt)
| EmbedContent (text : string)
| InferenceEmbed (text : string)
| IndexQuery (vector : list Z) (sparse_vector : option (option SparseEmbedding)) (top_k : Z)
| IndexUpsert (v : VectorData)
| SqliteSelect (ids : list string)
| SqliteInsert (r : StoredRow)
| SqliteCreateTable
| SqliteCommit
| Uuid4.

Definition Trace := list Event.

Record World : Type := mkWorld {
  (** the text generation provider *)
  w_generate : Trace -> Prompt -> GenOutcome;
  (** the dense embedding provider: [None] when the call raises or the answer
      has no usable [embeddings[0].values] *)
  w_embed : Trace -> string -> option (list Z);
  (** the sparse embedding provider: [None] when the call raises or the
      answer holds no extractable sparse data *)
  w_sparse : Trace -> string -> option SparseEmbedding;
  (** the vector index query: an exception message or the identifiers of the
      matches *)
  w_query : Trace -> list Z -> option (option SparseEmbedding) -> Z -> string + list string;
  (** the vector index upsert: [Some msg] when it raises *)
  w_upsert : Trace -> VectorData -> option string;
  (** SQLite: [Some msg] when connecting or executing raises *)
  w_sqlite_error : Trace -> option string;
  (** [str(uuid.uuid4())[:8]] *)
  w_uuid : Trace -> string;
  (** [RecursiveCharacterTextSplitter(chunk_size, chunk_overlap).split_text] *)
  w_split : nat -> nat -> string -> list string
}.

Record State : Type := mkState {
  trace : Trace;
  (** the rows of [patent_chunks] in the database file *)
  table : list StoredRow;
  vectors : list VectorData;
  (** the rows as the open transaction of the ingestion's connection has
      changed them; [None] when that connection has nothing to commit *)
  pending : option (list StoredRow)
}.

(** The rows of [patent_chunks] as the connection of the ingestion sees
    them. *)
Definition view (s : State) : list StoredRow :=
  match pending s with
  | Some rows => rows
  | None => table s
  end.

(** The outcome of a call: a value, or an exception (an instance of
    [Exception]) of which the message [str(e)] is kept. *)
Inductive Result (A : Type) : Type :=
| Ok (a : A)
| Raise (msg : string).
Arguments Ok {A} a.
Arguments Raise {A} msg.

Definition M (A : Type) : Type := State -> Result A * State.

Definition ret {A} (a : A) : M A := fun s => (Ok a, s).

Definition raise {A} (msg : string) : M A := fun s => (Raise msg, s).

Definition bind {A B} (m : M A) (k : A -> M B) : M B :=
  fun s =>
    match m s with
    | (Ok a, s') => k a s'
    | (Raise msg, s') => (Raise msg, s')
    end.

(** [try: m except Exception as e: h(str(e))]. *)
Definition try_except {A} (m : M A) (h : string -> M A) : M A :=
  fun s =>
    match m s with
    | (Ok a, s') => (Ok a, s')
    | (Raise msg, s') => h msg s'
    end.

Declare Scope py_scope.
Delimit Scope py_scope with py.
Notation "x <- m ;; k" := (bind m (fun x => k))
  (at level 61, m at next level, right associativity) : py_scope.
Notation "m ;;; k" := (bind m (fun _ => k))
  (at level 61, right associativity) : py_scope.
Local Open Scope py_scope.

Definition log (e : Event) : M unit :=
  fun s => (Ok tt, mkState (e :: trace s) (table s) (vectors s) (pending s)).

Definition get_trace : M Trace := fun s => (Ok (trace s), s).

(** A Python dict with string keys, in insertion order. *)
Definition dict_get {V} (k : string) (d : list (string * V)) : option V :=
  match find (fun kv => String.eqb (fst kv) k) d with
  | Some kv => Some (snd kv)
  | None => None
  end.

Definition has_key {V} (k : string) (d : list (string * V)) : bool :=
  match dict_get k d with Some _ => true | None => false end.

Section Services.

Variable w : World.

(** *** The calls to the external services *)

Definition generate_content (p : Prompt) : M GenOutcome :=
  tr <- get_trace ;;
  log (GenerateContent p) ;;;
  ret (w_generate w tr p).

Definition embed_content (text : string) : M (option (list Z)) :=
  tr <- get_trace ;;
  log (EmbedContent text) ;;;
  ret (w_embed w tr text).

Definition inference_embed (text : string) : M (option SparseEmbedding) :=
  tr <- get_trace ;;
  log (InferenceEmbed text) ;;;
  ret (w_sparse w tr text).

Definition index_query (vector : list Z) (sparse_vector : option (option SparseEmbedding))
    (top_k : Z) : M (list string) :=
  tr <- get_trace ;;
  log (IndexQuery vector sparse_vector top_k) ;;;
  match w_query w tr vector sparse_vector top_k with
  | inl msg => raise msg
  | inr ids => ret ids
  end.

(** [index.upsert(vectors=[v])]: an entry with the same id is replaced. *)
Definition index_upsert (v : VectorData) : M unit :=
  tr <- get_trace ;;
  log (IndexUpsert v) ;;;
  match w_upsert w tr v with
  | Some msg => raise msg
  | None =>
      fun s =>
        (Ok tt,
         mkState (trace s) (table s)
           (filter (fun x => negb (String.eqb (vd_id x) (vd_id v))) (vectors s) ++ [v])
           (pending s))
  end.

(** [str(uuid.uuid4())[:8]]. *)
Definition uuid4_prefix : M string :=
  tr <- get_trace ;;
  log Uuid4 ;;;
  ret (w_uuid w tr).

(** A statement run on the SQLite connection. *)
Definition sqlite_guard : M unit :=
  tr <- get_trace ;;
  match w_sqlite_error w tr with
  | Some msg => raise msg
  | None => ret tt
  end.

End Services.

(** ** backend/gemini_helper.py *)
Module gemini_helper.
Section WithWorld.
Variable w : World.

Definition generate_dense_embedding (text : string) : M (option (list Z)) :=
  if negb (PyStr.truthy text) || negb (PyStr.truthy (PyStr.strip text))
  then ret None
  else embed_content w text.

Definition generate_summary (query result : string) : M string :=
  r <- generate_content w (SummaryPrompt query result) ;;
  match r with
  | GenText text => ret (PyStr.strip text)
  | GenNoText | GenRaise _ => ret ""
  end.

Definition labels : list string := ["irrelevant"; "generic"; "specific"].

Definition classify_query_type (query : string) : M string :=
  r <- generate_content w (ClassifyPrompt query) ;;
  match r with
  | GenRaise _ => ret "irrelevant"
  | GenNoText => ret "irrelevant"
  | GenText text =>
      let category := PyStr.lower (PyStr.strip text) in
      if negb (PyStr.mem category labels) then ret "irrelevant" else ret category
  end.

Definition generate_generic_answer (query : string) : M string :=
  r <- generate_content w (GenericAnswerPrompt query) ;;
  match r with
  | GenText text => ret (PyStr.strip text)
  | GenNoText | GenRaise _ => ret "Unable to generate a response."
  end.

End WithWorld.
End gemini_helper.

(** ** backend/pinecone_helper.py *)
Module pinecone_helper.
Section WithWorld.
Variable w : World.

Definition generate_sparse_embedding (text : string) : M (option SparseEmbedding) :=
  if negb (PyStr.truthy text) || negb (PyStr.truthy (PyStr.strip text))
  then ret None
  else inference_embed w text.

(** The handle [index] is not a parameter here: a handle that is [None]
    makes both [index.upsert] calls raise, which [w_upsert] covers. *)
Definition upsert_hybrid_vector (vector_id : string) (dense_embedding : list Z)
    (sparse_embedding : option SparseEmbedding) (metadata : list (string * string)) : M unit :=
  try_except
    (index_upsert w (mkVectorData vector_id dense_embedding metadata sparse_embedding))
    (fun _ =>
       try_except
         (index_upsert w (mkVectorData vector_id dense_embedding metadata None))
         (fun _ => ret tt)).

End WithWorld.
End pinecone_helper.

(** ** backend/sqlite_helper.py *)
Module sqlite_helper.
Section WithWorld.
Variable w : World.

(** [init_sqlite]: [sqlite3.connect], [CREATE TABLE IF NOT EXISTS
    patent_chunks (...)] and [conn.commit()].  The connection is new and has
    nothing to commit.  The statement keeps the rows of a table that exists
    and makes an empty table in a database that has none; both are a [table]
    without rows here, and the statement is recorded in the trace. *)
Definition init_sqlite : M unit :=
  log SqliteCreateTable ;;;
  sqlite_guard w ;;;
  fun s => (Ok tt, mkState (trace s) (table s) (vectors s) None).

(** [INSERT OR REPLACE]: the row with the same key, if any, is deleted and
    the new row is added at the end. *)
Definition insert_or_replace (r : StoredRow) (t : list StoredRow) : list StoredRow :=
  filter (fun x => negb (String.eqb (vector_id x) (vector_id r))) t ++ [r].

(** [insert_metadata]: one [cursor.execute] on the connection of the
    ingestion, without a commit.  The row is in the open transaction of that
    connection and not yet in the database file. *)
Definition insert_metadata (vector_id patent_number title description abstract
    claims_text detailed_summary : string) : M unit :=
  let r := mkRow vector_id patent_number title description abstract claims_text
             detailed_summary in
  log (SqliteInsert r) ;;;
  sqlite_guard w ;;;
  fun s =>
    (Ok tt, mkState (trace s) (table s) (vectors s) (Some (insert_or_replace r (view s)))).

(** [close_sqlite]: [conn.commit()] writes the rows of the open transaction
    to the database file; [conn.close()]. *)
Definition close_sqlite : M unit :=
  log SqliteCommit ;;;
  sqlite_guard w ;;;
  fun s => (Ok tt, mkState (trace s) (view s) (vectors s) None).

End WithWorld.
End sqlite_helper.

(** ** backend/api_server.py *)
Module api_server.

Record ConversationTurn : Type := mkTurn {
  question : string;
  answer : option string
}.

Record SearchRequest : Type := mkRequest {
  query : string;
  history : option (list ConversationTurn);
  top_k : Z;
  hybrid : bool;
  summary : bool
}.

(** A record as [fetch_metadata_from_sqlite] returns it: a dict. *)
Definition Record_ := list (string * string).

(** The values found in a response payload. *)
Inductive Value : Type :=
| VStr (s : string)
| VBool (b : bool)
| VRecords (rs : list Record_).

Definition Response := list (string * Value).

Record FollowupRelevance : Type := mkRelevance {
  is_related : bool;
  related_to_index : option nat;
  related_turn : option ConversationTurn
}.

(** [x or ''] for an optional string. *)
Definition or_empty (x : option string) : string :=
  match x with
  | Some s => s
  | None => ""
  end.

(** The rows with a smaller or equal key come first; [String.leb] compares
    code point by code point, as SQLite compares [TEXT] keys. *)
Fixpoint place_by_key (r : StoredRow) (rows : list StoredRow) : list StoredRow :=
  match rows with
  | [] => [r]
  | x :: rest =>
      if String.leb (vector_id x) (vector_id r)
      then x :: place_by_key r rest
      else r :: x :: rest
  end.

Definition by_key (rows : list StoredRow) : list StoredRow :=
  fold_left (fun sorted r => place_by_key r sorted) rows [].

(** The rows the [SELECT ... WHERE vector_id IN (...)] statement yields.  The
    statement has no [ORDER BY]; SQLite answers it through the index of the
    primary key, so the rows come in ascending order of [vector_id]. *)
Definition select_in (t : list StoredRow) (vector_ids : list string) : list StoredRow :=
  by_key (filter (fun r => PyStr.mem (vector_id r) vector_ids) t).

(** The columns of the [SELECT] list, as the dict built from a row. *)
Definition row_to_record (r : StoredRow) : Record_ :=
  [("vector_id", vector_id r); ("patent_number", patent_number r);
   ("title", title r); ("detailed_summary", detailed_summary r)].

Definition not_relevant_marker : string := "not relevant to patents".

(** The test of the loop that collects the relevant turns. *)
Definition is_relevant (turn : ConversationTurn) : bool :=
  match answer turn with
  | Some a => PyStr.truthy a && negb (PyStr.contains not_relevant_marker (PyStr.lower a))
  | None => false
  end.

(** [relevant_turns = []; for turn in history: if ...: relevant_turns.append(turn)] *)
Definition relevant_turns_of (history : list ConversationTurn) : list ConversationTurn :=
  fold_left (fun acc turn => if is_relevant turn then acc ++ [turn] else acc) history [].

Definition technical_terms : list string :=
  ["microprocessor"; "pipeline"; "semiconductor"; "AI"; "neural"; "cache";
   "encryption"; "robotics"; "sensor"; "optics"].

Definition summary_keywords : list string :=
  ["summary"; "summarize"; "explain"; "details"; "list"; "points"; "highlight";
   "brief"; "short"; "lines"; "bullet"].

Definition force_specific_of (query_text : string) : bool :=
  existsb (fun term => PyStr.contains (PyStr.lower term) (PyStr.lower query_text))
    technical_terms.

Definition is_summary_request_of (query_text : string) : bool :=
  let lowered := PyStr.lower query_text in
  existsb (fun word => PyStr.contains word lowered) summary_keywords.

Definition nl : string := String (ascii_of_nat 10) EmptyString.

Definition augmented_query_of (related_turn : ConversationTurn) (query_text : string) : string :=
  ("Previous Question: " ++ question related_turn ++ nl ++
   "Previous Answer: " ++ or_empty (answer related_turn) ++ nl ++
   "Follow-up Question: " ++ query_text)%string.

Definition rejection_message : string :=
  "Your query is not relevant to patents or intellectual property.".

Section WithWorld.
Variable w : World.

Definition fetch_metadata_from_sqlite (vector_ids : list string) : M (list Record_) :=
  log (SqliteSelect vector_ids) ;;;
  sqlite_guard w ;;;
  fun s => (Ok (map row_to_record (select_in (table s) vector_ids)), s).

(** The loop of [check_followup_relevance_multi] over
    [enumerate(reversed(relevant_turns))], from position [i] on; [n] is
    [len(relevant_turns)]. *)
Fixpoint followup_scan (n : nat) (new_question : string) (i : nat)
    (turns : list ConversationTurn) : M FollowupRelevance :=
  match turns with
  | [] => ret (mkRelevance false None None)
  | turn :: rest =>
      resp <- generate_content w
                (FollowupPrompt (question turn) (or_empty (answer turn)) new_question) ;;
      match resp with
      | GenRaise _ => followup_scan n new_question (S i) rest
      | GenNoText => followup_scan n new_question (S i) rest
      | GenText t =>
          let text := PyStr.lower (PyStr.strip t) in
          if PyStr.startswith text "yes" || PyStr.startswith text "y"
          then ret (mkRelevance true (Some (n - 1 - i)) (Some turn))
          else followup_scan n new_question (S i) rest
      end
  end.

Definition check_followup_relevance_multi (relevant_turns : list ConversationTurn)
    (new_question : string) : M FollowupRelevance :=
  followup_scan (length relevant_turns) new_question 0 (rev relevant_turns).

(** The retrieval steps, which the source writes out three times (first
    query, new topic, related follow-up); the copies differ in the search
    text, in the message of the no-match answer and in the keys that follow
    the common ones. *)
Definition retrieve (request : SearchRequest) (search_text no_match_message : string)
    (no_match_tail results_tail : Response) : M Response :=
  dense_emb <- gemini_helper.generate_dense_embedding w search_text ;;
  match dense_emb with
  | None | Some [] => ret [("error", VStr "Failed to generate dense embedding.")]
  | Some dense =>
      vector_ids <-
        (if hybrid request
         then sparse_emb <- pinecone_helper.generate_sparse_embedding w search_text ;;
              index_query w dense (Some sparse_emb) (top_k request)
         else index_query w dense None (top_k request)) ;;
      match vector_ids with
      | [] =>
          fallback_answer <- gemini_helper.generate_generic_answer w search_text ;;
          ret ([("results", VRecords []); ("message", VStr no_match_message);
                ("generic_answer", VStr fallback_answer)] ++ no_match_tail)
      | _ =>
          results <- fetch_metadata_from_sqlite vector_ids ;;
          if summary request
          then
            let combined_text :=
              PyStr.join " "
                (flat_map (fun r => match dict_get "detailed_summary" r with
                                    | Some d => if PyStr.truthy d then [d] else []
                                    | None => []
                                    end) results) in
            live_summary <-
              (if PyStr.truthy (PyStr.strip combined_text)
               then gemini_helper.generate_summary w search_text combined_text
               else ret "No content available for summary.") ;;
            ret ([("results", VRecords results); ("live_summary", VStr live_summary)]
                 ++ results_tail)
          else ret ([("results", VRecords results)] ++ results_tail)
      end
  end.

(** The body of the [try] block of [search_patents]. *)
Definition search_patents_body (request : SearchRequest) : M Response :=
  let query_text := PyStr.strip (query request) in
  let history := match history request with Some h => h | None => [] end in
  let relevant_turns := relevant_turns_of history in
  match relevant_turns with
  | [] =>
      (* first query: no relevant context *)
      query_type <- gemini_helper.classify_query_type w query_text ;;
      let force_specific := force_specific_of query_text in
      if String.eqb query_type "irrelevant" && negb force_specific
      then ret [("results", VRecords []); ("message", VStr rejection_message)]
      else if String.eqb query_type "generic" && negb force_specific
      then
        answer <- gemini_helper.generate_generic_answer w query_text ;;
        ret [("results", VRecords []);
             ("message", VStr "Your query is patent-related but too general; here's a direct answer.");
             ("generic_answer", VStr answer)]
      else
        retrieve request query_text
          "No relevant matches found; here's a direct Gemini answer." [] []
  | _ :: _ =>
      (* follow-up queries: relevant context exists *)
      if is_summary_request_of query_text
      then
        match nth_error relevant_turns (length relevant_turns - 1) with
        | None => raise "list index out of range"
        | Some last_relevant_turn =>
            summary_text <- gemini_helper.generate_summary w query_text
                              (or_empty (answer last_relevant_turn)) ;;
            ret [("results", VRecords []);
                 ("live_summary", VStr summary_text);
                 ("related", VBool true);
                 ("note", VStr ("Summary of previous response (Query #"
                                ++ PyStr.of_nat (length relevant_turns) ++ ")")%string)]
        end
      else
        current_query_type <- gemini_helper.classify_query_type w query_text ;;
        let force_specific := force_specific_of query_text in
        if String.eqb current_query_type "irrelevant" && negb force_specific
        then ret [("results", VRecords []); ("message", VStr rejection_message);
                  ("related", VBool false)]
        else
          relevance_result <- check_followup_relevance_multi relevant_turns query_text ;;
          if negb (is_related relevance_result)
          then
            if String.eqb current_query_type "generic" && negb force_specific
            then
              generic_answer <- gemini_helper.generate_generic_answer w query_text ;;
              ret [("results", VRecords []);
                   ("message", VStr "This is a new topic unrelated to previous queries.");
                   ("generic_answer", VStr generic_answer);
                   ("related", VBool false)]
            else
              retrieve request query_text
                "No relevant matches found for this new topic."
                [("related", VBool false)] [("related", VBool false)]
          else
            match related_turn relevance_result, related_to_index relevance_result with
            | Some related_turn, Some related_index =>
                let augmented_query := augmented_query_of related_turn query_text in
                followup_query_type <- gemini_helper.classify_query_type w augmented_query ;;
                if String.eqb followup_query_type "generic"
                then
                  generic_answer <- gemini_helper.generate_generic_answer w augmented_query ;;
                  ret [("results", VRecords []);
                       ("message", VStr "This follow-up is relevant but generic.");
                       ("generic_answer", VStr generic_answer);
                       ("related", VBool true);
                       ("note", VStr ("Based on context from query #"
                                      ++ PyStr.of_nat (related_index + 1))%string)]
                else
                  retrieve request augmented_query
                    "No relevant matches found for this follow-up."
                    [("related", VBool true);
                     ("note", VStr ("Based on context from query #"
                                    ++ PyStr.of_nat (related_index + 1))%string)]
                    [("related", VBool true);
                     ("note", VStr ("Results based on context from query #"
                                    ++ PyStr.of_nat (related_index + 1))%string)]
            | _, _ => raise "unsupported operand type(s) for +: 'NoneType' and 'int'"
            end
  end.

(** [search_patents]: the body inside [try], and
    [except Exception as e: return {"error": str(e)}]. *)
Definition search_patents (request : SearchRequest) : M Response :=
  try_except (search_patents_body request)
    (fun e => ret [("error", VStr e)]).

End WithWorld.
End api_server.

(** ** backend/data_loader.py *)
Module data_loader.

(** A JSON object whose values are strings. *)
Definition Entry := list (string * string).

(** A patent file after [json.load].  An absent key is [None]; the elements
    of [claims] are objects of which only the key [claims] is read. *)
Record Patent : Type := mkPatent {
  p_patent_number : option string;
  p_titles : option (list Entry);
  p_abstracts : option (list Entry);
  p_descriptions : option (list Entry);
  p_claims : option (list (option (list Entry)))
}.

Definition get_or {A} (x : option A) (default : A) : A :=
  match x with
  | Some a => a
  | None => default
  end.

(** [entry.get("lang") == "EN"] *)
Definition lang_is_en (entry : Entry) : bool :=
  match dict_get "lang" entry with
  | Some l => String.eqb l "EN"
  | None => false
  end.

Fixpoint extract_english_field (entries : list Entry) (field_name : string) : string :=
  match entries with
  | [] => ""
  | entry :: rest =>
      if lang_is_en entry then get_or (dict_get field_name entry) ""
      else extract_english_field rest field_name
  end.

(** [patent.get("claims", [{}])[0].get("claims", [])]; the index raises on
    an empty list. *)
Definition claims_data_of (patent : Patent) : Result (list Entry) :=
  match get_or (p_claims patent) [None] with
  | [] => Raise "list index out of range"
  | first :: _ => Ok (get_or first [])
  end.

Definition claims_text_of (claims_data : list Entry) : string :=
  PyStr.join " "
    (map (fun c => get_or (dict_get "paragraph_markup" c) "")
       (filter lang_is_en claims_data)).

Definition combined_text_of (abstract claims_text : string) : string :=
  PyStr.strip (abstract ++ " " ++ claims_text)%string.

Section WithWorld.
Variable w : World.

Definition split_text_into_chunks (text : string) : list string :=
  w_split w 2500 150 text.

(** [generate_summary(combined_text)]: the function imported from
    gemini_helper has two positional parameters, [query] and [result], so
    this call raises [TypeError] before the body of the function runs. *)
Definition generate_summary_1 (combined_text : string) : M string :=
  raise "generate_summary() missing 1 required positional argument: 'result'".

(** The loop over [enumerate(chunks)] from [chunk_idx] on; it reads and
    updates the counter [total_chunks] of the enclosing function. *)
Fixpoint upsert_chunks (patent_number title description abstract claims_text
    detailed_summary : string) (chunk_idx : nat) (chunks : list string)
    (total_chunks : nat) : M nat :=
  match chunks with
  | [] => ret total_chunks
  | chunk :: rest =>
      let continue_ := upsert_chunks patent_number title description abstract
                         claims_text detailed_summary (S chunk_idx) rest in
      u <- uuid4_prefix w ;;
      let vector_id :=
        (patent_number ++ "_chunk_" ++ PyStr.of_nat chunk_idx ++ "_" ++ u)%string in
      dense_embedding <- gemini_helper.generate_dense_embedding w chunk ;;
      match dense_embedding with
      | None => continue_ total_chunks
      | Some dense =>
          sparse_embedding <- pinecone_helper.generate_sparse_embedding w chunk ;;
          match sparse_embedding with
          | None => continue_ total_chunks
          | Some sparse =>
              let metadata := [("patent_number", patent_number); ("title", title)] in
              pinecone_helper.upsert_hybrid_vector w vector_id dense (Some sparse) metadata ;;;
              sqlite_helper.insert_metadata w vector_id patent_number title description
                abstract claims_text detailed_summary ;;;
              continue_ (total_chunks + 1)
          end
      end
  end.

(** The body of the loop over the files for a file that loaded; the result
    is the counter [total_chunks] after it. *)
Definition process_patent (file_idx : nat) (patent : Patent) (total_chunks : nat) : M nat :=
  let patent_number :=
    get_or (p_patent_number patent) ("patent_" ++ PyStr.of_nat file_idx)%string in
  let title := extract_english_field (get_or (p_titles patent) []) "text" in
  let abstract := extract_english_field (get_or (p_abstracts patent) []) "paragraph_markup" in
  let description :=
    extract_english_field (get_or (p_descriptions patent) []) "paragraph_markup" in
  match claims_data_of patent with
  | Raise msg => raise msg
  | Ok claims_data =>
      let claims_text := claims_text_of claims_data in
      let combined_text := combined_text_of abstract claims_text in
      if negb (PyStr.truthy combined_text)
      then ret total_chunks
      else
        detailed_summary <- generate_summary_1 combined_text ;;
        let chunks := split_text_into_chunks combined_text in
        upsert_chunks patent_number title description abstract claims_text
          detailed_summary 0 chunks total_chunks
  end.

(** The loop over [enumerate(file_paths)]; a file that fails to load is
    [None]. *)
Fixpoint process_files (file_idx : nat) (files : list (option Patent))
    (total_chunks : nat) : M nat :=
  match files with
  | [] => ret total_chunks
  | None :: rest => process_files (S file_idx) rest total_chunks
  | Some patent :: rest =>
      total_chunks' <- process_patent file_idx patent total_chunks ;;
      process_files (S file_idx) rest total_chunks'
  end.

(** [process_and_upsert_patents]; the result is the number printed as
    "Total Chunks Processed" at the end of the run.  [files] is what
    [load_patent_files] lists, each file with what loading it gives;
    [init_pinecone] catches its own exceptions and calls no service. *)
Definition process_and_upsert_patents (files : list (option Patent)) : M nat :=
  sqlite_helper.init_sqlite w ;;;
  total_chunks <- process_files 0 files 0 ;;
  sqlite_helper.close_sqlite w ;;;
  ret total_chunks.

End WithWorld.
End data_loader.

(** ** Definitions used to state the properties *)

Import api_server.

(** The RelevantTurn subset in the words of the specification: the turns
    whose answer does not carry the marker. *)
Definition carries_marker (turn : ConversationTurn) : bool :=
  match answer turn with
  | Some a => PyStr.contains not_relevant_marker (PyStr.lower a)
  | None => false
  end.

Definition relevant_turn_subset_spec (history : list ConversationTurn)
  : list ConversationTurn :=
  filter (fun turn => negb (carries_marker turn)) history.

(** A turn has an answer that is present and not empty. *)
Definition has_answer (turn : ConversationTurn) : bool :=
  match answer turn with
  | Some a => PyStr.truthy a
  | None => false
  end.

(** [vector_id] is the primary key of [patent_chunks]. *)
Definition pk_unique (t : list StoredRow) : Prop := NoDup (map vector_id t).

Definition record_id (rec : Record_) : option string := dict_get "vector_id" rec.

(** The entries of a fetch result that belong to one identifier. *)
Definition entries_for (id : string) (res : list Record_) : list Record_ :=
  filter (fun rec => match record_id rec with
                     | Some i => String.eqb i id
                     | None => false
                     end) res.

(** The fields of a PatentRecord in the words of the specification. *)
Definition patent_record_fields : list string :=
  ["vector_id"; "patent_number"; "title"; "description"; "abstract";
   "claims_text"; "detailed_summary"].

Definition is_full_patent_record (rec : Record_) : bool :=
  forallb (fun k => has_key k rec) patent_record_fields.

(** The keys of the dicts that [fetch_metadata_from_sqlite] builds. *)
Definition fetched_fields : list string :=
  ["vector_id"; "patent_number"; "title"; "detailed_summary"].

(** ** Sample data *)
Module Sample.

Definition row1 : StoredRow :=
  mkRow "US1_chunk_0_ab12cd34" "US1" "Cache line prefetcher" "A long description."
    "An abstract." "1. A prefetcher." "Summary of US1.".

Definition row2 : StoredRow :=
  mkRow "US2_chunk_0_ef56ab78" "US2" "Optical sensor" "Another description."
    "Second abstract." "1. A sensor." "Summary of US2.".

Definition table0 : list StoredRow := [row1; row2].

Definition state0 : State := mkState [] table0 [] None.

(** A world whose text generation answers by the prompt alone, whose dense
    embedding and index query are fixed, and in which nothing else fails. *)
Definition scripted (gen : Prompt -> GenOutcome) (emb : option (list Z))
    (matches : string + list string) : World :=
  mkWorld (fun _ p => gen p) (fun _ _ => emb)
    (fun _ _ => Some (mkSparse [3%Z] [1%Z]))
    (fun _ _ _ _ => matches) (fun _ _ => None) (fun _ => None)
    (fun _ => "0a1b2c3d") (fun _ _ text => [text]).

(** Every query is classified as specific and the index matches [row1]. *)
Definition specific_world : World :=
  scripted (fun p => match p with
                     | ClassifyPrompt _ => GenText "specific"
                     | _ => GenText "text"
                     end)
    (Some [1%Z; 2%Z]) (inr ["US1_chunk_0_ab12cd34"]).

(** The text generation provider is down. *)
Definition outage_world : World :=
  scripted (fun _ => GenRaise "503 service unavailable") (Some [1%Z; 2%Z])
    (inr ["US1_chunk_0_ab12cd34"]).

(** The vector index is down. *)
Definition broken_index_world : World :=
  scripted (fun _ => GenText "specific") (Some [1%Z; 2%Z]) (inl "connection refused").

Definition weather_request : SearchRequest :=
  mkRequest "What's the weather today?" (Some []) 5 false false.

Definition turn1 : ConversationTurn :=
  mkTurn "What is a neural network patent?" (Some "Patent X covers a neural accelerator.").

Definition turn2 : ConversationTurn :=
  mkTurn "Who won the match?"
    (Some "Your query is not relevant to patents or intellectual property.").

Definition turn3 : ConversationTurn :=
  mkTurn "How are cache prefetchers claimed?" (Some "Patent Y claims a stride prefetcher.").

Definition summarize_request : SearchRequest :=
  mkRequest "Can you SUMMARIZE that?" (Some [turn1; turn2; turn3]) 5 true true.

(** The dense embedding of the chunk [bad] fails; nothing else does. *)
Definition flaky_world (bad : string) : World :=
  mkWorld (fun _ _ => GenText "text")
    (fun _ text => if String.eqb text bad then None else Some [1%Z; 2%Z])
    (fun _ _ => Some (mkSparse [3%Z] [1%Z]))
    (fun _ _ _ _ => inr []) (fun _ _ => None) (fun _ => None)
    (fun _ => "0a1b2c3d") (fun _ _ text => [text]).

Definition empty_state : State := mkState [] [] [] None.

(** The provider call about [turn3] raises; every other relatedness
    question is answered with a yes. *)
Definition followup_world : World :=
  scripted (fun p => match p with
                     | ClassifyPrompt _ => GenText "specific"
                     | FollowupPrompt q _ _ =>
                         if String.eqb q (question turn3) then GenRaise "quota exceeded"
                         else GenText " Yes, it is related."
                     | _ => GenText "text"
                     end)
    (Some [1%Z; 2%Z]) (inr ["US1_chunk_0_ab12cd34"]).

Definition request0 : SearchRequest :=
  mkRequest "prefetcher for cache lines" None 5 false false.

(** No English abstract and no claims. *)
Definition patent_without_text : data_loader.Patent :=
  data_loader.mkPatent (Some "US3")
    (Some [[("lang", "EN"); ("text", "A title")]])
    (Some [[("lang", "DE"); ("paragraph_markup", "Zusammenfassung")]])
    None None.

Definition patent_with_text : data_loader.Patent :=
  data_loader.mkPatent (Some "US4")
    (Some [[("lang", "EN"); ("text", "Prefetcher")]])
    (Some [[("lang", "EN"); ("paragraph_markup", "A stride prefetcher.")]])
    None
    (Some [Some [[("lang", "EN"); ("paragraph_markup", "1. A prefetcher.")]]]).

Definition other_patent_with_text : data_loader.Patent :=
  data_loader.mkPatent (Some "US6")
    (Some [[("lang", "EN"); ("text", "Branch predictor")]])
    (Some [[("lang", "EN"); ("paragraph_markup", "A two-level branch predictor.")]])
    None
    (Some [Some [[("lang", "EN"); ("paragraph_markup", "1. A predictor.")]]]).

End Sample.

(** ** Reasoning about computations in [M] *)

(** [wp m Q s]: running [m] from [s] ends in a result and a state that
    satisfy [Q]. *)
Definition wp {A} (m : M A) (Q : Result A -> State -> Prop) (s : State) : Prop :=
  Q (fst (m s)) (snd (m s)).

(** [m] changes neither the table nor the vector index. *)
Definition read_only {A} (m : M A) : Prop :=
  forall s, table (snd (m s)) = table s /\ vectors (snd (m s)) = vectors s.

(** Every record under the key [results] of a payload is the dict built
    from a row of the table [t]. *)
Definition records_from (t : list StoredRow) (resp : Response) : Prop :=
  forall rs, dict_get "results" resp = Some (VRecords rs) ->
  forall rec, In rec rs -> exists r, In r t /\ rec = row_to_record r.

(** The history and the query text that [search_patents] works on. *)
Definition request_history (request : SearchRequest) : list ConversationTurn :=
  match history request with
  | Some h => h
  | None => []
  end.

Definition query_text_of (request : SearchRequest) : string :=
  PyStr.strip (query request).

(** The state after one more call to an external service. *)
Definition called (e : Event) (s : State) : State :=
  mkState (e :: trace s) (table s) (vectors s) (pending s).

(** A provider outcome from which the classifier gets no label: the call
    raised, the response has no usable text, or the text, trimmed and
    lower-cased, is none of the three labels. *)
Definition unusable (o : GenOutcome) : bool :=
  match o with
  | GenRaise _ => true
  | GenNoText => true
  | GenText text =>
      negb (PyStr.mem (PyStr.lower (PyStr.strip text)) gemini_helper.labels)
  end.

(** The label that [classify_query_type] returns for a provider outcome. *)
Definition label_of (o : GenOutcome) : string :=
  match o with
  | GenText text =>
      if unusable o then "irrelevant" else PyStr.lower (PyStr.strip text)
  | _ => "irrelevant"
  end.

(** The text that [generate_summary] returns for a provider outcome. *)
Definition summary_of (o : GenOutcome) : string :=
  match o with
  | GenText text => PyStr.strip text
  | _ => ""
  end.

(** The text generation provider is down: every call raises. *)
Definition provider_outage (w : World) : Prop :=
  forall tr p, exists msg, w_generate w tr p = GenRaise msg.

(** The events of retrieval: embedding, vector index and metadata store. *)
Definition is_retrieval (e : Event) : bool :=
  match e with
  | EmbedContent _ | InferenceEmbed _ | IndexQuery _ _ _ | IndexUpsert _
  | SqliteSelect _ | SqliteInsert _ | SqliteCreateTable | SqliteCommit => true
  | GenerateContent _ | Uuid4 => false
  end.

Definition is_classification (e : Event) : bool :=
  match e with
  | GenerateContent (ClassifyPrompt _) => true
  | _ => false
  end.

(** The relatedness question asked about one turn. *)
Definition followup_prompt (turn : ConversationTurn) (new_question : string) : Prompt :=
  FollowupPrompt (question turn) (or_empty (answer turn)) new_question.

(** An affirmative provider answer: a text that, trimmed and lower-cased,
    starts with "yes" or with "y".  A call that raises and a response without
    usable text are not affirmative. *)
Definition affirmative (o : GenOutcome) : bool :=
  match o with
  | GenText t =>
      let text := PyStr.lower (PyStr.strip t) in
      PyStr.startswith text "yes" || PyStr.startswith text "y"
  | GenRaise _ | GenNoText => false
  end.

Section Scan.
Variable w : World.
Variable new_question : string.

(** The provider's answer about [turn] when it is asked after the calls [tr]. *)
Definition answer_at (tr : Trace) (turn : ConversationTurn) : bool :=
  affirmative (w_generate w tr (followup_prompt turn new_question)).

(** [declined tr turns tr']: starting after the calls [tr], the turns of
    [turns] are asked about one after the other, one question each, none of
    the answers is affirmative, and the calls made are then [tr']. *)
Inductive declined : Trace -> list ConversationTurn -> Trace -> Prop :=
| declined_nil tr : declined tr [] tr
| declined_cons tr turn rest tr' :
    answer_at tr turn = false ->
    declined (GenerateContent (followup_prompt turn new_question) :: tr) rest tr' ->
    declined tr (turn :: rest) tr'.

End Scan.

Import data_loader.

(** The [combined_text] of a patent file, when its fields can be read. *)
Definition patent_combined_text (patent : Patent) : Result string :=
  match claims_data_of patent with
  | Raise msg => Raise msg
  | Ok claims_data =>
      Ok (combined_text_of
            (extract_english_field (get_or (p_abstracts patent) []) "paragraph_markup")
            (claims_text_of claims_data))
  end.

(** A file that the loop over the files passes over: it does not load, or
    its combined text is empty. *)
Definition without_text (file : option Patent) : bool :=
  match file with
  | None => true
  | Some patent =>
      match patent_combined_text patent with
      | Ok text => negb (PyStr.truthy text)
      | Raise _ => false
      end
  end.

(** The embeddings of [chunk] fail in the loop body run from [s]: the dense
    embedding is [None], or the dense one is there and the sparse one is
    [None]. *)
Definition chunk_embedding_fails (w : World) (chunk : string) (s : State) : Prop :=
  let s1 := called Uuid4 s in
  fst (gemini_helper.generate_dense_embedding w chunk s1) = Ok None \/
  (exists dense,
     fst (gemini_helper.generate_dense_embedding w chunk s1) = Ok (Some dense) /\
     fst (pinecone_helper.generate_sparse_embedding w chunk
            (snd (gemini_helper.generate_dense_embedding w chunk s1))) = Ok None).

(** The calls that write: an upsert into the vector index, or an insert, a
    [CREATE TABLE] or a commit on the metadata store. *)
Definition is_write (e : Event) : bool :=
  match e with
  | IndexUpsert _ | SqliteInsert _ | SqliteCreateTable | SqliteCommit => true
  | _ => false
  end.

Definition is_insert (e : Event) : bool :=
  match e with
  | SqliteInsert _ => true
  | _ => false
  end.

(** Whatever the start state, the calls that [m] adds to the trace satisfy [P]. *)
Definition emits {A} (m : M A) (P : list Event -> Prop) : Prop :=
  forall s, exists calls, trace (snd (m s)) = calls ++ trace s /\ P calls.

Definition no_write (calls : list Event) : Prop :=
  forallb (fun e => negb (is_write e)) calls = true.

Definition inserts (calls : list Event) : nat := length (filter is_insert calls).

(** A word: not empty and without white space. *)
Fixpoint no_space (k : string) : bool :=
  match k with
  | EmptyString => true
  | String c k' => negb (PyStr.isspace c) && no_space k'
  end.

Definition is_word (k : string) : bool := PyStr.truthy k && no_space k.

(** ** Definitions for the further properties *)

(** Every upsert into the vector index raises. *)
Definition index_down (w : World) : Prop :=
  forall tr v, exists msg, w_upsert w tr v = Some msg.

(** SQLite never fails. *)
Definition sqlite_up (w : World) : Prop := forall tr, w_sqlite_error w tr = None.

(** Both embedding providers answer every request. *)
Definition embeddings_up (w : World) : Prop :=
  forall tr text, w_embed w tr text <> None /\ w_sparse w tr text <> None.

(** A text that is not empty after trimming. *)
Definition not_blank (text : string) : bool := PyStr.truthy (PyStr.strip text).

(** The record of the chunk [i] of a document, with the suffix [u] of its
    identifier. *)
Definition chunk_record (patent_number_ title_ description_ abstract_ claims_text_
    detailed_summary_ : string) (i : nat) (u : string) : StoredRow :=
  mkRow (patent_number_ ++ "_chunk_" ++ PyStr.of_nat i ++ "_" ++ u)%string
    patent_number_ title_ description_ abstract_ claims_text_ detailed_summary_.

(** What the loop over the chunks [chunk_idx .. chunk_idx + n - 1] of one
    document has inserted, given the calls it made (newest first).
    - The inserts are those of the records of some of these chunks, no chunk
      twice: [written] lists the index of the chunk and the suffix of the
      identifier of every insert.
    - The call made just before an insert is an upsert into the vector index
      under the identifier of the inserted record, with the patent number
      and the title as metadata. *)
Definition records_of_document (patent_number_ title_ description_ abstract_
    claims_text_ detailed_summary_ : string) (chunk_idx n : nat)
    (calls : list Event) : Prop :=
  (exists written : list (nat * string),
     filter is_insert calls
     = map (fun iu => SqliteInsert
                        (chunk_record patent_number_ title_ description_ abstract_
                           claims_text_ detailed_summary_ (fst iu) (snd iu))) written /\
     NoDup (map fst written) /\
     Forall (fun iu => chunk_idx <= fst iu < chunk_idx + n) written) /\
  (forall later r earlier,
     calls = later ++ SqliteInsert r :: earlier ->
     exists v before,
       earlier = IndexUpsert v :: before /\ vd_id v = vector_id r /\
       vd_metadata v = [("patent_number", patent_number_); ("title", title_)]).

Module Sample2.

(** The vector index is down; everything else works. *)
Definition index_down_world : World :=
  mkWorld (fun _ _ => GenText "text") (fun _ _ => Some [1%Z; 2%Z])
    (fun _ _ => Some (mkSparse [3%Z] [1%Z]))
    (fun _ _ _ _ => inl "index unavailable") (fun _ _ => Some "index unavailable")
    (fun _ => None) (fun _ => "0a1b2c3d") (fun _ _ text => [text]).

End Sample2.

(** ** More of Python's strings *)
Module PyStr2.

(** [s.split()]: the words between runs of white space; [acc] is the word
    being read. *)
Fixpoint split_ws_from (s acc : string) : list string :=
  match s with
  | EmptyString => if PyStr.truthy acc then [acc] else []
  | String c s' =>
      if PyStr.isspace c
      then (if PyStr.truthy acc then acc :: split_ws_from s' EmptyString
            else split_ws_from s' EmptyString)
      else split_ws_from s' (acc ++ String c EmptyString)%string
  end.

Definition split_ws (s : string) : list string := split_ws_from s EmptyString.

(** [s.split(sep)] for a separator of one character. *)
Fixpoint split_on (sep : ascii) (s : string) : list string :=
  match s with
  | EmptyString => [EmptyString]
  | String c s' =>
      if Ascii.eqb c sep then EmptyString :: split_on sep s'
      else match split_on sep s' with
           | [] => [String c EmptyString]
           | word :: words => String c word :: words
           end
  end.

(** [s[:n]]. *)
Definition take (n : nat) (s : string) : string := String.substring 0 n s.

End PyStr2.

(** ** backend/followup_helper.py

    The functions of this file ask the text generation provider at most once
    each, with prompts of their own.  The provider is the parameter
    [generate]; a function returns its value together with the prompts it has
    sent. *)
Module followup_helper.

Inductive Template : Type :=
| Clarification | Expansion | Specific | Application | Comparison | General.

Inductive HelperPrompt : Type :=
| ContextualPrompt (template : Template) (query combined_content : string)
| KeywordsPrompt (content : string)
| IrrelevancePrompt (query keywords : string).

Definition Asked (A : Type) : Type := (A * list HelperPrompt)%type.

Definition get_default (k : string) (d : list (string * string)) (default : string) : string :=
  match dict_get k d with
  | Some v => v
  | None => default
  end.

Definition irrelevant_topics : list string :=
  ["weather"; "sports"; "cooking"; "movie"; "music"; "celebrity";
   "politics"; "religion"; "travel"; "shopping"; "fashion";
   "dating"; "relationship"; "game"; "joke"; "funny"].

Definition template_of (followup_type : string) : Template :=
  if String.eqb followup_type "clarification" then Clarification
  else if String.eqb followup_type "expansion" then Expansion
  else if String.eqb followup_type "specific" then Specific
  else if String.eqb followup_type "application" then Application
  else if String.eqb followup_type "comparison" then Comparison
  else General.

(** The loop that builds [combined_content] in [generate_contextual_response]. *)
Definition combined_content_of (previous_results : list (list (string * string))) : string :=
  fold_left
    (fun acc result =>
       (acc ++ ("Patent: " ++ get_default "patent_number" result "Unknown" ++ api_server.nl)
            ++ ("Title: " ++ get_default "title" result "No title" ++ api_server.nl)
            ++ ("Summary: " ++ get_default "detailed_summary" result "No summary"
                ++ api_server.nl ++ api_server.nl))%string)
    previous_results EmptyString.

(** The loop that builds [combined_text] in [extract_keywords_from_results]. *)
Definition keywords_text_of (results : list (list (string * string))) : string :=
  fold_left
    (fun acc result =>
       (acc ++ (get_default "title" result "" ++ " "
                ++ get_default "detailed_summary" result "" ++ " "))%string)
    results EmptyString.

Section WithProvider.
Variable generate : HelperPrompt -> GenOutcome.

Definition generate_contextual_response (query : string)
    (previous_results : list (list (string * string))) (followup_type : string)
  : Asked string :=
  let combined_content := combined_content_of previous_results in
  if negb (PyStr.truthy (PyStr.strip combined_content))
  then ("I don't have enough context from the previous search to answer your follow-up question.",
        [])
  else
    let prompt := ContextualPrompt (template_of followup_type) query combined_content in
    match generate prompt with
    | GenText text => (PyStr.strip text, [prompt])
    | GenNoText =>
        ("I couldn't generate a proper response based on the previous context.", [prompt])
    | GenRaise _ =>
        ("Error generating contextual response based on previous results.", [prompt])
    end.

Definition extract_keywords_from_results (results : list (list (string * string)))
  : Asked (list string) :=
  let combined_text := keywords_text_of results in
  let prompt := KeywordsPrompt (PyStr2.take 2000 combined_text) in
  match generate prompt with
  | GenText text =>
      let keywords :=
        map (fun kw => PyStr.lower (PyStr.strip kw))
          (PyStr2.split_on "," (PyStr.strip text)) in
      (firstn 15 (filter (fun kw => PyStr.truthy kw && (2 <? String.length kw)) keywords),
       [prompt])
  | GenNoText => ([], [prompt])
  | GenRaise _ => ([], [prompt])
  end.

Definition is_query_completely_irrelevant (query : string) (context_keywords : list string)
  : Asked bool :=
  let query_lower := PyStr.lower query in
  if existsb (fun topic => PyStr.contains topic query_lower) irrelevant_topics
  then (true, [])
  else
    let query_words := PyStr2.split_ws query_lower in
    if existsb (fun kw => PyStr.mem kw query_words) context_keywords
    then (false, [])
    else
      let prompt := IrrelevancePrompt query (PyStr.join ", " context_keywords) in
      match generate prompt with
      | GenText text => (PyStr.contains "yes" (PyStr.lower (PyStr.strip text)), [prompt])
      | GenNoText => (false, [prompt])
      | GenRaise _ => (false, [prompt])
      end.

End WithProvider.
End followup_helper.

(** ** frontend/app.py: the history sent to the router *)
Module frontend.

(** An element of [st.session_state.history]. *)
Record Message : Type := mkMessage {
  role : string;
  content : string
}.

(** One turn of the loop that prepares [api_history]; the state is
    [api_history] and [last_user_q]. *)
Definition pair_step (st : list api_server.ConversationTurn * option string)
    (turn : Message) : list api_server.ConversationTurn * option string :=
  let (api_history, last_user_q) := st in
  if String.eqb (role turn) "user" then (api_history, Some (content turn))
  else if String.eqb (role turn) "assistant"
          && match last_user_q with
             | Some q => PyStr.truthy q
             | None => false
             end
  then (api_history
          ++ [api_server.mkTurn (api_server.or_empty last_user_q) (Some (content turn))],
        None)
  else st.

(** [api_history] for a session history whose last element is the query
    being asked: the loop runs over [history[:-1]]. *)
Definition api_history_of (history : list Message) : list api_server.ConversationTurn :=
  fst (fold_left pair_step (removelast history) ([], None)).

(** A session in which every question got its answer, followed by the
    question being asked. *)
Definition session_of (exchanges : list (string * string)) (current : string)
  : list Message :=
  flat_map (fun qa => [mkMessage "user" (fst qa); mkMessage "assistant" (snd qa)])
    exchanges
  ++ [mkMessage "user" current].

Definition is_assistant (m : Message) : bool := String.eqb (role m) "assistant".

End frontend.

(** ** frontend/app.py: the reply shown for a payload

    The payload is the JSON of a response with status 200.  The pictographs
    that open the texts of the client lie outside the characters of this
    model; they are the fields of [Pictographs]. *)
Module chat_reply.

Import api_server.

Record Pictographs : Type := mkPictographs {
  pic_link : string;
  pic_info : string;
  pic_clipboard : string;
  pic_prohibited : string;
  pic_robot : string;
  pic_page : string;
  pic_search : string;
  pic_thinking : string
}.

(** The keys that the client reads, with the types that the router gives
    them; an absent key is [None]. *)
Record Payload : Type := mkPayload {
  pl_related : option bool;
  pl_note : option string;
  pl_message : option string;
  pl_generic_answer : option string;
  pl_live_summary : option string;
  pl_results : option (list Record_)
}.

Definition as_bool (v : Value) : option bool :=
  match v with VBool b => Some b | _ => None end.

Definition as_str (v : Value) : option string :=
  match v with VStr s => Some s | _ => None end.

Definition as_records (v : Value) : option (list Record_) :=
  match v with VRecords rs => Some rs | _ => None end.

(** The value of a key read at a type: [None] when the key holds a value of
    another type, [Some None] when the key is absent. *)
Definition read {A} (as_type : Value -> option A) (k : string) (data : Response)
  : option (option A) :=
  match dict_get k data with
  | None => Some None
  | Some v => match as_type v with
              | Some a => Some (Some a)
              | None => None
              end
  end.

(** A response of the router as the client reads it. *)
Definition payload_of (data : Response) : option Payload :=
  match read as_bool "related" data, read as_str "note" data,
        read as_str "message" data, read as_str "generic_answer" data,
        read as_str "live_summary" data, read as_records "results" data with
  | Some r, Some n, Some m, Some g, Some l, Some rs => Some (mkPayload r n m g l rs)
  | _, _, _, _, _, _ => None
  end.

Definition get_default (k : string) (d : Record_) (default : string) : string :=
  match dict_get k d with
  | Some v => v
  | None => default
  end.

(** The text of one result; [idx] counts from 1. *)
Definition result_text (idx : nat) (doc : Record_) : string :=
  (("**#" ++ PyStr.of_nat idx ++ " " ++ get_default "title" doc "Untitled Patent"
    ++ "**" ++ nl)
   ++ ("*Patent Number: " ++ get_default "patent_number" doc "N/A" ++ "*" ++ nl ++ nl)
   ++ (get_default "detailed_summary" doc "No summary available." ++ nl))%string.

Fixpoint result_texts (idx : nat) (docs : list Record_) : list string :=
  match docs with
  | [] => []
  | doc :: rest => result_text idx doc :: result_texts (S idx) rest
  end.

Section WithPictographs.
Variable pic : Pictographs.

(** [reply_parts] for a payload; [has_history] is [len(api_history) > 0] and
    [summary] the box of the side bar. *)
Definition reply_parts (has_history summary : bool) (data : Payload) : list string :=
  (if has_history
   then match pl_related data with
        | Some true =>
            [(pic_link pic ++ " **Follow-up Query Detected:** This question is related to your previous query and will build upon the context.")%string]
        | Some false =>
            [(pic_info pic ++ " **New Topic Detected:** This appears to be a new question unrelated to previous queries.")%string]
        | None => []
        end
   else [])
  ++ (match pl_note data with
      | Some note =>
          if PyStr.truthy note
          then [(pic_clipboard pic ++ " **Note:** " ++ note)%string]
          else []
      | None => []
      end)
  ++ (if match pl_message data with
         | Some message => PyStr.contains "not relevant" (PyStr.lower message)
         | None => false
         end
      then [(pic_prohibited pic ++ " **Query Not Relevant:** "
             ++ or_empty (pl_message data))%string]
      else match pl_generic_answer data with
           | Some generic_answer =>
               (match pl_message data with
                | Some message =>
                    [(pic_clipboard pic ++ " **System Message:** " ++ message)%string]
                | None => []
                end)
               ++ [(pic_robot pic ++ " **Response:** " ++ generic_answer)%string]
           | None =>
               if summary && match pl_live_summary data with
                             | Some live_summary => PyStr.truthy live_summary
                             | None => false
                             end
               then [(pic_page pic ++ " **Comprehensive Summary:**" ++ nl ++ nl
                      ++ or_empty (pl_live_summary data))%string]
               else match pl_results data with
                    | Some (doc :: docs) =>
                        (pic_search pic ++ " **Patent Search Results:**" ++ nl)%string
                        :: result_texts 1 (doc :: docs)
                    | _ =>
                        [(pic_thinking pic ++ " **No Results Found:** No relevant patents were found for your query. Try rephrasing or using different keywords.")%string]
                    end
           end).

(** [reply_text], which is shown and becomes the answer of the turn. *)
Definition reply_text (has_history summary : bool) (data : Payload) : string :=
  PyStr.join (nl ++ nl)
    (filter (fun p => PyStr.truthy (PyStr.strip p)) (reply_parts has_history summary data)).

End WithPictographs.
End chat_reply.

(** The keys of a payload hold values of the types that the client reads. *)
Definition well_typed_payload (resp : api_server.Response) : Prop :=
  chat_reply.payload_of resp <> None.

(** A string with a character that is not white space. *)
Fixpoint has_nonspace (s : string) : bool :=
  match s with
  | EmptyString => false
  | String c s' => negb (PyStr.isspace c) || has_nonspace s'
  end.

(** ** Running the router symbolically *)

(** The text that [generate_generic_answer] returns for a provider outcome. *)
Definition generic_of (o : GenOutcome) : string :=
  match o with
  | GenText text => PyStr.strip text
  | _ => "Unable to generate a response."
  end.

(** From [s0] to [s'] the calls [calls] were made, newest first, and neither
    the table nor the vector index has changed. *)
Definition spent (s0 s' : State) (calls : list Event) : Prop :=
  trace s' = calls ++ trace s0 /\ table s' = table s0 /\ vectors s' = vectors s0.

Definition is_followup_call (e : Event) : bool :=
  match e with
  | GenerateContent (FollowupPrompt _ _ _) => true
  | _ => false
  end.

Definition is_generation (e : Event) : bool :=
  match e with
  | GenerateContent _ => true
  | _ => false
  end.

(** What the relatedness scan over [turns] leaves behind. *)
Definition scan_facts (turns : list api_server.ConversationTurn)
    (r : api_server.FollowupRelevance) (calls : list Event) : Prop :=
  forallb is_followup_call calls = true /\
  length calls <= length turns /\
  (api_server.is_related r = true ->
   exists turn idx,
     api_server.related_turn r = Some turn /\
     api_server.related_to_index r = Some idx /\
     nth_error turns idx = Some turn) /\
  (api_server.is_related r = false ->
   api_server.related_turn r = None /\ api_server.related_to_index r = None /\
   length calls = length turns).

(** Every read of the metadata store in the trace [tr] (newest call first)
    comes right after a query of the vector index that returned the
    identifiers read, and these are at least one. *)
Fixpoint reads_follow_matches (w : World) (tr : Trace) : Prop :=
  match tr with
  | [] => True
  | SqliteSelect ids :: rest =>
      ids <> [] /\
      match rest with
      | IndexQuery vector sparse_vector top_k :: older =>
          w_query w older vector sparse_vector top_k = inr ids
      | _ => False
      end /\
      reads_follow_matches w rest
  | _ :: rest => reads_follow_matches w rest
  end.

Definition count_calls (p : Event -> bool) (calls : list Event) : nat :=
  length (filter p calls).

Definition is_dense_call (e : Event) : bool :=
  match e with EmbedContent _ => true | _ => false end.

Definition is_sparse_call (e : Event) : bool :=
  match e with InferenceEmbed _ => true | _ => false end.

Definition is_index_query (e : Event) : bool :=
  match e with IndexQuery _ _ _ => true | _ => false end.

Definition is_store_read (e : Event) : bool :=
  match e with SqliteSelect _ => true | _ => false end.

(** The shape of a payload of the router for a request with ([fresh] false)
    or without ([fresh] true) relevant turns. *)
Definition payload_shape (fresh : bool) (resp : api_server.Response) : bool :=
  match chat_reply.payload_of resp with Some _ => true | None => false end
  && (has_key "error" resp || has_key "results" resp)
  && negb (has_key "error" resp && has_key "results" resp)
  && (if fresh
      then negb (has_key "related" resp) && negb (has_key "note" resp)
      else has_key "error" resp || has_key "related" resp).

(** The texts that a request may search with: the query text itself, or the
    query text augmented with one of the relevant turns. *)
Definition search_text_of (request : api_server.SearchRequest) (text : string) : Prop :=
  text = query_text_of request \/
  exists turn,
    In turn (api_server.relevant_turns_of (request_history request)) /\
    text = api_server.augmented_query_of turn (query_text_of request).

(** The texts embedded, densely or sparsely, by the calls [calls]. *)
Definition embedded_text (e : Event) : option string :=
  match e with
  | EmbedContent text => Some text
  | InferenceEmbed text => Some text
  | _ => None
  end.


(** ** backend/analyze_patent_files.py *)
Module analyze_patent_files.

Import data_loader.

(** An element of [content_length_analysis]. *)
Record ContentItem : Type := mkContentItem {
  ci_file : string;
  ci_patent : string;
  ci_content_length : nat;
  ci_chunks_created : nat;
  ci_abstract_length : nat;
  ci_claims_length : nat
}.

(** An element of [files_with_no_chunks]; the reason is always the same
    text. *)
Record NoChunks : Type := mkNoChunks {
  nc_file : string;
  nc_patent : string
}.

(** The variables of the loop over the files. *)
Record Counters : Type := mkCounters {
  total_files : nat;
  total_chunks : nat;
  files_with_no_chunks : list NoChunks;
  chunk_distribution : list (nat * nat);
  content_length_analysis : list ContentItem
}.

(** The dict that [analyze_chunking_process] returns. *)
Record Report : Type := mkReport {
  r_total_files : nat;
  r_total_chunks : nat;
  r_chunk_distribution : list (nat * nat);
  r_files_with_no_chunks : list NoChunks;
  r_mystery_files : list ContentItem
}.

(** [d[k] += 1] for a key of the dict, [d[k] = 1] for a new key. *)
Fixpoint count_up (k : nat) (d : list (nat * nat)) : list (nat * nat) :=
  match d with
  | [] => [(k, 1)]
  | (k', v) :: rest =>
      if Nat.eqb k' k then (k', v + 1) :: rest else (k', v) :: count_up k rest
  end.

(** [list.sort(key=lambda x: x['content_length'])]: a stable sort. *)
Fixpoint insert_by_length (x : ContentItem) (sorted : list ContentItem)
  : list ContentItem :=
  match sorted with
  | [] => [x]
  | y :: rest =>
      if ci_content_length x <? ci_content_length y then x :: y :: rest
      else y :: insert_by_length x rest
  end.

Definition sort_by_length (items : list ContentItem) : list ContentItem :=
  fold_left (fun sorted x => insert_by_length x sorted) items [].

Section WithSplitter.
(** [splitter.split_text] *)
Variable split_text : string -> list string.

(** The body of the loop for one file: its name and, when it loads, its
    content. *)
Definition analyze_file (file_idx : nat) (file_name : string) (loaded : option Patent)
    (c : Counters) : Counters :=
  match loaded with
  | None => c
  | Some patent =>
      let c1 := mkCounters (total_files c + 1) (total_chunks c) (files_with_no_chunks c)
                  (chunk_distribution c) (content_length_analysis c) in
      let patent_number :=
        get_or (p_patent_number patent) ("patent_" ++ PyStr.of_nat file_idx)%string in
      let abstract :=
        extract_english_field (get_or (p_abstracts patent) []) "paragraph_markup" in
      match claims_data_of patent with
      | Raise _ => c1
      | Ok claims_data =>
          let claims_text := claims_text_of claims_data in
          let combined_text := combined_text_of abstract claims_text in
          if negb (PyStr.truthy combined_text)
          then mkCounters (total_files c1) (total_chunks c1)
                 (files_with_no_chunks c1 ++ [mkNoChunks file_name patent_number])
                 (chunk_distribution c1) (content_length_analysis c1)
          else
            let chunk_count := length (split_text combined_text) in
            mkCounters (total_files c1) (total_chunks c1 + chunk_count)
              (files_with_no_chunks c1)
              (count_up chunk_count (chunk_distribution c1))
              (content_length_analysis c1
               ++ [mkContentItem file_name patent_number (String.length combined_text)
                     chunk_count (String.length abstract) (String.length claims_text)])
      end
  end.

Fixpoint analyze_files (file_idx : nat) (files : list (string * option Patent))
    (c : Counters) : Counters :=
  match files with
  | [] => c
  | (file_name, loaded) :: rest =>
      analyze_files (S file_idx) rest (analyze_file file_idx file_name loaded c)
  end.

(** [analyze_chunking_process] for the files of the folder; printing aside,
    what follows the loop reads [content_length_analysis[0]], which raises on
    an empty list. *)
Definition analyze_chunking_process (files : list (string * option Patent))
  : Result Report :=
  let c := analyze_files 0 files (mkCounters 0 0 [] [] []) in
  let sorted := sort_by_length (content_length_analysis c) in
  match sorted with
  | [] => Raise "list index out of range"
  | _ :: _ =>
      Ok (mkReport (total_files c) (total_chunks c) (chunk_distribution c)
            (files_with_no_chunks c)
            (if total_chunks c <? total_files c
             then filter (fun item => (ci_chunks_created item =? 0)
                                      && (0 <? ci_content_length item)) sorted
             else []))
  end.

End WithSplitter.

(** A file that loads and whose combined text is not empty. *)
Definition has_text (file : string * option Patent) : bool :=
  match snd file with
  | Some patent =>
      match patent_combined_text patent with
      | Ok text => PyStr.truthy text
      | Raise _ => false
      end
  | None => false
  end.

(** The number of chunks that the splitter makes of a file with text. *)
Definition chunks_of (split_text : string -> list string)
    (file : string * option Patent) : nat :=
  match snd file with
  | Some patent =>
      match patent_combined_text patent with
      | Ok text => length (split_text text)
      | Raise _ => 0
      end
  | None => 0
  end.

Definition loads (file : string * option Patent) : bool :=
  match snd file with Some _ => true | None => false end.

End analyze_patent_files.

(** * Properties *)

(** ** Python strings: trimming keeps a word without blanks *)

Lemma isspace_lower_char (c : ascii) : PyStr.isspace (PyStr.lower_char c) = PyStr.isspace c.
Proof. destruct c as [[] [] [] [] [] [] [] []]; reflexivity. Qed.

Lemma lower_cons (c : ascii) (s : string) :
  PyStr.lower (String c s) = String (PyStr.lower_char c) (PyStr.lower s).
Proof. reflexivity. Qed.

Lemma lower_lstrip (s : string) : PyStr.lower (PyStr.lstrip s) = PyStr.lstrip (PyStr.lower s).
Proof.
  induction s as [|c s IH]; [reflexivity|].
  rewrite lower_cons. cbn [PyStr.lstrip]. rewrite isspace_lower_char.
  destruct (PyStr.isspace c); [exact IH | now rewrite lower_cons].
Qed.

Lemma lower_rstrip (s : string) : PyStr.lower (PyStr.rstrip s) = PyStr.rstrip (PyStr.lower s).
Proof.
  induction s as [|c s IH]; [reflexivity|].
  rewrite lower_cons. cbn [PyStr.rstrip]. rewrite <- IH, isspace_lower_char.
  destruct (PyStr.rstrip s); [|now rewrite !lower_cons].
  now destruct (PyStr.isspace c).
Qed.

Lemma lower_strip (s : string) : PyStr.lower (PyStr.strip s) = PyStr.strip (PyStr.lower s).
Proof. unfold PyStr.strip. now rewrite lower_rstrip, lower_lstrip. Qed.

Lemma prefix_cons (a c : ascii) (k s : string) :
  String.prefix (String a k) (String c s) = true -> a = c /\ String.prefix k s = true.
Proof.
  simpl. destruct (ascii_dec a c) as [E|NE]; [now split | discriminate].
Qed.

Lemma prefix_cons_intro (c : ascii) (k s : string) :
  String.prefix k s = true -> String.prefix (String c k) (String c s) = true.
Proof. simpl. intro H. now destruct (ascii_dec c c). Qed.

Lemma prefix_empty (k : string) : String.prefix k EmptyString = true -> k = EmptyString.
Proof. destruct k; [reflexivity | discriminate]. Qed.

Lemma prefix_rstrip (k s : string) :
  no_space k = true -> String.prefix k s = true -> String.prefix k (PyStr.rstrip s) = true.
Proof.
  revert s. induction k as [|a k IH]; intros s Hk Hp;
    [now destruct (PyStr.rstrip s)|].
  destruct s as [|c s]; [discriminate|].
  apply prefix_cons in Hp. destruct Hp as [E Hp]. subst c.
  simpl in Hk. apply andb_true_iff in Hk. destruct Hk as [Ha Hk].
  apply negb_true_iff in Ha.
  specialize (IH s Hk Hp).
  cbn [PyStr.rstrip]. rewrite Ha.
  destruct (PyStr.rstrip s) as [|c r].
  - apply prefix_empty in IH. subst k. now apply prefix_cons_intro.
  - now apply prefix_cons_intro.
Qed.

Lemma contains_cons (k : string) (c : ascii) (s : string) :
  PyStr.contains k (String c s) = String.prefix k (String c s) || PyStr.contains k s.
Proof. reflexivity. Qed.

Lemma contains_empty (k : string) : PyStr.contains k EmptyString = true -> k = EmptyString.
Proof.
  unfold PyStr.contains. rewrite orb_false_r. apply prefix_empty.
Qed.

Lemma contains_rstrip (k s : string) :
  is_word k = true -> PyStr.contains k s = true -> PyStr.contains k (PyStr.rstrip s) = true.
Proof.
  unfold is_word. intro Hw. apply andb_true_iff in Hw. destruct Hw as [Hne Hk].
  induction s as [|c s IH]; intro Hc; [exact Hc|].
  rewrite contains_cons in Hc. apply orb_true_iff in Hc. destruct Hc as [Hp|Hc].
  - apply (prefix_rstrip k _ Hk) in Hp.
    destruct (PyStr.rstrip (String c s)); unfold PyStr.contains; fold PyStr.contains;
      now rewrite Hp.
  - specialize (IH Hc). cbn [PyStr.rstrip].
    destruct (PyStr.rstrip s) as [|c' r].
    + apply contains_empty in IH. subst k. discriminate.
    + rewrite contains_cons, IH. apply orb_true_r.
Qed.

Lemma contains_lstrip (k s : string) :
  is_word k = true -> PyStr.contains k s = true -> PyStr.contains k (PyStr.lstrip s) = true.
Proof.
  unfold is_word. intro Hw. apply andb_true_iff in Hw. destruct Hw as [Hne Hk].
  induction s as [|c s IH]; intro Hc; [exact Hc|].
  cbn [PyStr.lstrip]. destruct (PyStr.isspace c) eqn:Hsp; [|exact Hc].
  apply IH. rewrite contains_cons in Hc. apply orb_true_iff in Hc.
  destruct Hc as [Hp|Hc]; [|exact Hc].
  destruct k as [|a k]; [discriminate|].
  apply prefix_cons in Hp. destruct Hp as [E _]. subst a.
  simpl in Hk. rewrite Hsp in Hk. discriminate.
Qed.

(** A word found in the lower-cased text is found in the lower-cased trimmed
    text. *)
Lemma contains_lower_strip (k s : string) :
  is_word k = true ->
  PyStr.contains k (PyStr.lower s) = true ->
  PyStr.contains k (PyStr.lower (PyStr.strip s)) = true.
Proof.
  intros Hw Hc. rewrite lower_strip. unfold PyStr.strip.
  now apply contains_rstrip, contains_lstrip.
Qed.

Lemma summary_keywords_are_words : forallb is_word summary_keywords = true.
Proof. reflexivity. Qed.

Lemma prefix_nil (s : string) : String.prefix EmptyString s = true.
Proof. now destruct s. Qed.

Lemma prefix_of_rstrip (k s : string) :
  String.prefix k (PyStr.rstrip s) = true -> String.prefix k s = true.
Proof.
  revert s. induction k as [|a k IH]; intros s Hp; [apply prefix_nil|].
  destruct s as [|c s]; [discriminate|].
  cbn [PyStr.rstrip] in Hp.
  destruct (PyStr.rstrip s) as [|c' r] eqn:Hr.
  - destruct (PyStr.isspace c); [discriminate|].
    apply prefix_cons in Hp. destruct Hp as [E Hp]. subst a.
    apply prefix_empty in Hp. subst k.
    apply prefix_cons_intro, prefix_nil.
  - apply prefix_cons in Hp. destruct Hp as [E Hp]. subst a.
    apply prefix_cons_intro, IH. now rewrite Hr.
Qed.

Lemma contains_of_rstrip (k s : string) :
  PyStr.contains k (PyStr.rstrip s) = true -> PyStr.contains k s = true.
Proof.
  induction s as [|c s IH]; intro Hc; [exact Hc|].
  rewrite contains_cons.
  destruct (String.prefix k (String c s)) eqn:Hp; [reflexivity|].
  simpl. apply IH.
  cbn [PyStr.rstrip] in Hc.
  destruct (PyStr.rstrip s) as [|c' r] eqn:Hr.
  - assert (Hk : String.prefix k (PyStr.rstrip (String c s)) = true).
    { cbn [PyStr.rstrip]. rewrite Hr.
      destruct (PyStr.isspace c).
      - apply contains_empty in Hc. subst k. reflexivity.
      - rewrite contains_cons in Hc. apply orb_true_iff in Hc.
        destruct Hc as [Hc|Hc]; [exact Hc|].
        apply contains_empty in Hc. subst k. reflexivity. }
    apply prefix_of_rstrip in Hk. congruence.
  - rewrite contains_cons in Hc. apply orb_true_iff in Hc.
    destruct Hc as [Hc|Hc]; [|exact Hc].
    assert (Hk : String.prefix k (PyStr.rstrip (String c s)) = true).
    { cbn [PyStr.rstrip]. now rewrite Hr. }
    apply prefix_of_rstrip in Hk. congruence.
Qed.

Lemma contains_of_lstrip (k s : string) :
  PyStr.contains k (PyStr.lstrip s) = true -> PyStr.contains k s = true.
Proof.
  induction s as [|c s IH]; intro Hc; [exact Hc|].
  cbn [PyStr.lstrip] in Hc.
  destruct (PyStr.isspace c); [|exact Hc].
  rewrite contains_cons, (IH Hc). apply orb_true_r.
Qed.

(** Trimming the query does not change which words it contains. *)
Lemma contains_lower_strip_iff (k s : string) :
  is_word k = true ->
  PyStr.contains k (PyStr.lower (PyStr.strip s)) = PyStr.contains k (PyStr.lower s).
Proof.
  intro Hw.
  destruct (PyStr.contains k (PyStr.lower s)) eqn:Hc.
  - now apply contains_lower_strip.
  - destruct (PyStr.contains k (PyStr.lower (PyStr.strip s))) eqn:Hs; [|reflexivity].
    rewrite lower_strip in Hs. unfold PyStr.strip in Hs.
    apply contains_of_rstrip, contains_of_lstrip in Hs. congruence.
Qed.

(** The summary test gives the same answer on the query as sent and on the
    trimmed query text. *)
Lemma is_summary_request_strip (q : string) :
  is_summary_request_of (PyStr.strip q) = is_summary_request_of q.
Proof.
  unfold is_summary_request_of.
  assert (Hall := summary_keywords_are_words).
  induction summary_keywords as [|k ks IH]; [reflexivity|].
  simpl in Hall. apply andb_true_iff in Hall. destruct Hall as [Hk Hks].
  simpl. rewrite (contains_lower_strip_iff k q Hk). f_equal. now apply IH.
Qed.

(** ** The RelevantTurn subset *)

Lemma fold_append_filter (f : ConversationTurn -> bool) (h acc : list ConversationTurn) :
  fold_left (fun acc turn => if f turn then acc ++ [turn] else acc) h acc
  = acc ++ filter f h.
Proof.
  revert acc.
  induction h as [|t h IH]; intro acc; simpl.
  - now rewrite app_nil_r.
  - rewrite IH. destruct (f t); [now rewrite <- app_assoc | reflexivity].
Qed.

Lemma relevant_turns_of_filter (h : list ConversationTurn) :
  relevant_turns_of h = filter is_relevant h.
Proof. unfold relevant_turns_of. now rewrite fold_append_filter. Qed.

Lemma is_relevant_split (t : ConversationTurn) :
  is_relevant t = has_answer t && negb (carries_marker t).
Proof. unfold is_relevant, has_answer, carries_marker. now destruct (answer t). Qed.

(** C4, as stated, fails: a turn without an answer carries no marker and is
    still left out of the relevant turns. *)
Lemma C4_counterexample :
  let history := [mkTurn "What is a patent?" None] in
  relevant_turn_subset_spec history = history /\
  relevant_turns_of history = [] /\
  relevant_turns_of history <> relevant_turn_subset_spec history.
Proof. repeat split. discriminate. Qed.

(** C4, amended: the relevant turns are the subsequence of the history, in
    conversation order, of the turns whose answer is present, is not empty and
    does not contain the marker "not relevant to patents" once lower-cased;
    membership of a turn depends on its answer alone. *)
Theorem C4_relevant_turns (history : list ConversationTurn) :
  relevant_turns_of history
  = filter (fun turn => has_answer turn && negb (carries_marker turn)) history
  /\ (forall turn,
        In turn (relevant_turns_of history) <->
        In turn history /\
        exists a, answer turn = Some a /\ a <> "" /\
                  PyStr.contains not_relevant_marker (PyStr.lower a) = false).
Proof.
  split.
  - rewrite relevant_turns_of_filter.
    apply filter_ext. intro t. apply is_relevant_split.
  - intro t. rewrite relevant_turns_of_filter, filter_In.
    unfold is_relevant.
    split.
    + intros [Hin Hrel]. split; [exact Hin|].
      destruct (answer t) as [a|]; [|discriminate].
      exists a. apply andb_true_iff in Hrel. destruct Hrel as [Ht Hc].
      repeat split.
      * intro E. subst a. discriminate.
      * now apply negb_true_iff.
    + intros [Hin [a [Ha [Hne Hc]]]]. split; [exact Hin|].
      rewrite Ha, Hc. destruct a; [congruence | reflexivity].
Qed.

(** ** The metadata store *)

Lemma mem_In (x : string) (xs : list string) : PyStr.mem x xs = true <-> In x xs.
Proof.
  unfold PyStr.mem. rewrite existsb_exists. split.
  - intros [y [Hy E]]. apply String.eqb_eq in E. now subst.
  - intro H. exists x. split; [exact H | apply String.eqb_refl].
Qed.

Lemma place_by_key_perm (r : StoredRow) (rows : list StoredRow) :
  Permutation (place_by_key r rows) (r :: rows).
Proof.
  induction rows as [|x rows IH]; simpl; [apply Permutation_refl|].
  destruct (String.leb (vector_id x) (vector_id r)); [|apply Permutation_refl].
  apply Permutation_trans with (x :: r :: rows); [now constructor | constructor].
Qed.

(** The order of the rows apart, [by_key] changes nothing. *)
Lemma by_key_perm (rows : list StoredRow) : Permutation (by_key rows) rows.
Proof.
  unfold by_key.
  assert (H : forall acc, Permutation
                (fold_left (fun sorted r => place_by_key r sorted) rows acc) (rows ++ acc)).
  { induction rows as [|r rows IH]; intro acc; simpl; [apply Permutation_refl|].
    apply Permutation_trans with (rows ++ place_by_key r acc); [apply IH|].
    apply Permutation_trans with (rows ++ r :: acc).
    - apply Permutation_app_head, place_by_key_perm.
    - apply Permutation_sym, Permutation_middle. }
  specialize (H []). now rewrite app_nil_r in H.
Qed.

Lemma place_by_key_sorted (r : StoredRow) (rows : list StoredRow) :
  Sorted (fun a b => String.leb (vector_id a) (vector_id b) = true) rows ->
  Sorted (fun a b => String.leb (vector_id a) (vector_id b) = true) (place_by_key r rows).
Proof.
  induction rows as [|x rows IH]; simpl; intro Hs; [repeat constructor|].
  inversion Hs as [|y l Hl Hhd]; subst.
  destruct (String.leb (vector_id x) (vector_id r)) eqn:E.
  - constructor; [now apply IH|].
    destruct rows as [|z rows]; simpl; [now constructor|].
    destruct (String.leb (vector_id z) (vector_id r)); [|now constructor].
    inversion Hhd; subst. now constructor.
  - constructor; [exact Hs|]. constructor.
    destruct (String.leb_total (vector_id r) (vector_id x)) as [H|H]; [exact H | congruence].
Qed.

(** The rows of a fetch come in ascending order of their key. *)
Lemma select_in_ascending (t : list StoredRow) (ids : list string) :
  Sorted (fun a b => String.leb (vector_id a) (vector_id b) = true) (select_in t ids).
Proof.
  unfold select_in, by_key.
  assert (H : forall rows acc,
            Sorted (fun a b => String.leb (vector_id a) (vector_id b) = true) acc ->
            Sorted (fun a b => String.leb (vector_id a) (vector_id b) = true)
              (fold_left (fun sorted r => place_by_key r sorted) rows acc)).
  { induction rows as [|r rows IH]; intros acc Hacc; simpl; [exact Hacc|].
    apply IH. now apply place_by_key_sorted. }
  apply H. constructor.
Qed.

Lemma select_in_In (t : list StoredRow) (ids : list string) (r : StoredRow) :
  In r (select_in t ids) <-> In r t /\ In (vector_id r) ids.
Proof.
  unfold select_in. split.
  - intro H. apply (Permutation_in _ (by_key_perm _)) in H.
    apply filter_In in H. now rewrite mem_In in H.
  - intro H. apply (Permutation_in _ (Permutation_sym (by_key_perm _))).
    apply filter_In. now rewrite mem_In.
Qed.

Lemma entries_for_rows (id : string) (rows : list StoredRow) :
  entries_for id (map row_to_record rows)
  = map row_to_record (filter (fun r => String.eqb (vector_id r) id) rows).
Proof.
  induction rows as [|r rows IH]; [reflexivity|].
  simpl. unfold record_id, row_to_record at 1, dict_get. simpl.
  destruct (String.eqb (vector_id r) id); simpl; now rewrite <- IH.
Qed.

Lemma filter_key_absent (id : string) (rows : list StoredRow) :
  ~ In id (map vector_id rows) ->
  filter (fun r => String.eqb (vector_id r) id) rows = [].
Proof.
  induction rows as [|r rows IH]; [reflexivity|].
  simpl. intro H.
  destruct (String.eqb_spec (vector_id r) id) as [E|_].
  - exfalso. apply H. now left.
  - apply IH. intro Hin. apply H. now right.
Qed.

Lemma filter_key_unique (id : string) (rows : list StoredRow) :
  NoDup (map vector_id rows) -> In id (map vector_id rows) ->
  length (filter (fun r => String.eqb (vector_id r) id) rows) = 1.
Proof.
  induction rows as [|r rows IH]; simpl; [intros _ []|].
  intros Hnd Hin. inversion Hnd as [|x l Hnotin Hnd']; subst.
  destruct (String.eqb_spec (vector_id r) id) as [E|NE].
  - simpl. rewrite filter_key_absent; [reflexivity | now rewrite <- E].
  - destruct Hin as [E|Hin]; [contradiction | now apply IH].
Qed.

Lemma select_in_pk_unique (t : list StoredRow) (ids : list string) :
  pk_unique t -> pk_unique (select_in t ids).
Proof.
  unfold pk_unique, select_in. intro Hkey.
  apply (Permutation_NoDup
           (l := map vector_id (filter (fun r => PyStr.mem (vector_id r) ids) t)));
    [apply Permutation_map, Permutation_sym, by_key_perm|].
  revert Hkey.
  induction t as [|r t IH]; simpl; [constructor|].
  intro Hnd. inversion Hnd as [|x l Hnotin Hnd']; subst.
  destruct (PyStr.mem (vector_id r) ids); [|now apply IH].
  simpl. constructor; [|now apply IH].
  intro Hin. apply Hnotin.
  apply in_map_iff in Hin. destruct Hin as [r' [E Hr']].
  apply filter_In in Hr'. apply in_map_iff. exists r'. tauto.
Qed.

(** The primary key stays unique under [INSERT OR REPLACE]. *)
Lemma insert_or_replace_pk_unique (r : StoredRow) (t : list StoredRow) :
  pk_unique t -> pk_unique (sqlite_helper.insert_or_replace r t).
Proof.
  unfold pk_unique, sqlite_helper.insert_or_replace.
  intro Hnd. rewrite map_app. simpl.
  assert (Hf : NoDup (map vector_id
             (filter (fun x => negb (String.eqb (vector_id x) (vector_id r))) t))).
  { clear -Hnd. induction t as [|x t IH]; simpl; [constructor|].
    inversion Hnd as [|y l Hnotin Hnd']; subst.
    destruct (negb (String.eqb (vector_id x) (vector_id r))); [|now apply IH].
    simpl. constructor; [|now apply IH].
    intro Hin. apply Hnotin. apply in_map_iff in Hin.
    destruct Hin as [x' [E Hx']]. apply filter_In in Hx'.
    apply in_map_iff. exists x'. tauto. }
  apply NoDup_app; [exact Hf | repeat constructor; intros [] |].
  intros a Ha [E|[]]. subst a.
  apply in_map_iff in Ha. destruct Ha as [x [E Hx]].
  apply filter_In in Hx. destruct Hx as [_ Hx].
  rewrite E, String.eqb_refl in Hx. discriminate.
Qed.

(** So the key is unique in the rows that the connection of the ingestion
    sees, from [init_sqlite] on and after every [insert_metadata], and in the
    database file after the commit of [close_sqlite]. *)
Lemma init_sqlite_pk_unique (w : World) (s : State) :
  pk_unique (table s) ->
  pk_unique (table (snd (sqlite_helper.init_sqlite w s))) /\
  (fst (sqlite_helper.init_sqlite w s) = Ok tt ->
   pk_unique (view (snd (sqlite_helper.init_sqlite w s)))).
Proof.
  intro Hkey.
  unfold sqlite_helper.init_sqlite, sqlite_guard, bind, get_trace, log, raise, ret.
  simpl. destruct (w_sqlite_error w _) as [msg|]; simpl;
    (split; [exact Hkey|]); [discriminate | intros _; exact Hkey].
Qed.

Lemma insert_metadata_pk_unique (w : World) (id pn ti de ab cl su : string) (s : State) :
  pk_unique (view s) ->
  pk_unique (view (snd (sqlite_helper.insert_metadata w id pn ti de ab cl su s))).
Proof.
  intro Hkey.
  unfold sqlite_helper.insert_metadata, sqlite_guard, bind, get_trace, log, raise, ret.
  simpl. destruct (w_sqlite_error w _) as [msg|]; simpl;
    [exact Hkey | now apply insert_or_replace_pk_unique].
Qed.

Lemma close_sqlite_pk_unique (w : World) (s : State) :
  pk_unique (table s) -> pk_unique (view s) ->
  pk_unique (table (snd (sqlite_helper.close_sqlite w s))).
Proof.
  intros Htable Hview.
  unfold sqlite_helper.close_sqlite, sqlite_guard, bind, get_trace, log, raise, ret.
  simpl. destruct (w_sqlite_error w _) as [msg|]; simpl; assumption.
Qed.

Lemma records_NoDup (rows : list StoredRow) :
  pk_unique rows -> NoDup (map row_to_record rows).
Proof.
  unfold pk_unique.
  induction rows as [|r rows IH]; simpl; [constructor|].
  intro Hnd. inversion Hnd as [|x l Hnotin Hnd']; subst.
  constructor; [|now apply IH].
  intro Hin. apply Hnotin. apply in_map_iff in Hin.
  destruct Hin as [r' [E Hr']]. apply in_map_iff. exists r'.
  split; [|exact Hr'].
  unfold row_to_record in E. now inversion E.
Qed.

(** C5: for a table in which [vector_id] is a key, the fetch gives exactly
    one entry for every identifier of the list that has a stored row, no entry
    and no error for an identifier without one, only entries of stored rows
    whose identifier is in the list, and no entry twice, so a repeated entry
    only if the list of identifiers repeats an element; when SQLite itself
    does not fail, the call returns this list. *)
Theorem C5_fetch_metadata (w : World) (s : State) (vector_ids : list string)
    (Hkey : pk_unique (table s)) :
  let res := map row_to_record (select_in (table s) vector_ids) in
  (w_sqlite_error w (SqliteSelect vector_ids :: trace s) = None ->
   fst (fetch_metadata_from_sqlite w vector_ids s) = Ok res) /\
  (forall id, In id vector_ids -> In id (map vector_id (table s)) ->
     length (entries_for id res) = 1) /\
  (forall id, ~ In id (map vector_id (table s)) -> entries_for id res = []) /\
  (forall rec, In rec res ->
     exists r, In r (table s) /\ In (vector_id r) vector_ids /\ rec = row_to_record r) /\
  NoDup res /\
  (~ NoDup res -> ~ NoDup vector_ids).
Proof.
  intro res. subst res. repeat split.
  - intro Hok. unfold fetch_metadata_from_sqlite, bind, log, sqlite_guard, get_trace, bind.
    simpl. now rewrite Hok.
  - intros id Hid Hstored. rewrite entries_for_rows, length_map.
    apply filter_key_unique; [now apply select_in_pk_unique|].
    apply in_map_iff in Hstored. destruct Hstored as [r [E Hr]].
    apply in_map_iff. exists r. split; [exact E|].
    apply select_in_In. split; [exact Hr | now rewrite E].
  - intros id Hno. rewrite entries_for_rows, filter_key_absent; [reflexivity|].
    intro Hin. apply Hno. apply in_map_iff in Hin. destruct Hin as [r [E Hr]].
    apply select_in_In in Hr. apply in_map_iff. exists r. tauto.
  - intros rec Hrec. apply in_map_iff in Hrec. destruct Hrec as [r [E Hr]].
    apply select_in_In in Hr. exists r. now repeat split.
  - apply records_NoDup. now apply select_in_pk_unique.
  - intros Hdup _. apply Hdup.
    apply records_NoDup. now apply select_in_pk_unique.
Qed.

Lemma sample_table_pk_unique : pk_unique Sample.table0.
Proof.
  unfold pk_unique. simpl.
  constructor; [intros [H|[]]; discriminate|].
  constructor; [intros []|constructor].
Qed.

Lemma C5_fetch_metadata_witness :
  let ids := ["US2_chunk_0_ef56ab78"; "US9_chunk_0_00000000"] in
  let res := map row_to_record (select_in Sample.table0 ids) in
  res = [row_to_record Sample.row2] /\
  (w_sqlite_error Sample.specific_world [SqliteSelect ids] = None ->
   fst (fetch_metadata_from_sqlite Sample.specific_world ids Sample.state0) = Ok res).
Proof.
  split; [reflexivity|].
  refine (proj1 (C5_fetch_metadata Sample.specific_world Sample.state0
                   ["US2_chunk_0_ef56ab78"; "US9_chunk_0_00000000"] _)).
  unfold pk_unique. simpl.
  constructor; [simpl; intros [H|[]]; discriminate|].
  constructor; [intros []|constructor].
Defined.

(** ** Rules for [wp] and [read_only] *)

Lemma wp_ret {A} (a : A) (Q : Result A -> State -> Prop) (s : State) :
  Q (Ok a) s -> wp (ret a) Q s.
Proof. exact (fun H => H). Qed.

Lemma wp_raise {A} (msg : string) (Q : Result A -> State -> Prop) (s : State) :
  Q (Raise msg) s -> wp (raise msg) Q s.
Proof. exact (fun H => H). Qed.

Lemma wp_bind {A B} (m : M A) (k : A -> M B) (Q : Result B -> State -> Prop) (s : State) :
  wp m (fun r s' => match r with
                    | Ok a => wp (k a) Q s'
                    | Raise msg => Q (Raise msg) s'
                    end) s ->
  wp (bind m k) Q s.
Proof.
  unfold wp, bind. destruct (m s) as [[a|msg] s']; simpl; auto.
Qed.

Lemma wp_try_except {A} (m : M A) (h : string -> M A)
    (Q : Result A -> State -> Prop) (s : State) :
  wp m (fun r s' => match r with
                    | Ok a => Q (Ok a) s'
                    | Raise msg => wp (h msg) Q s'
                    end) s ->
  wp (try_except m h) Q s.
Proof.
  unfold wp, try_except. destruct (m s) as [[a|msg] s']; simpl; auto.
Qed.

Lemma wp_read_only {A} (m : M A) (Q : Result A -> State -> Prop) (s : State) :
  read_only m ->
  (forall r s', table s' = table s -> vectors s' = vectors s -> Q r s') ->
  wp m Q s.
Proof.
  intros Hro HQ. unfold wp. destruct (Hro s). now apply HQ.
Qed.

Lemma read_only_ret {A} (a : A) : read_only (ret a).
Proof. intro s. now split. Qed.

Lemma read_only_raise {A} (msg : string) : read_only (@raise A msg).
Proof. intro s. now split. Qed.

Lemma read_only_bind {A B} (m : M A) (k : A -> M B) :
  read_only m -> (forall a, read_only (k a)) -> read_only (bind m k).
Proof.
  intros Hm Hk s. unfold bind.
  destruct (Hm s) as [Ht Hv].
  destruct (m s) as [[a|msg] s']; simpl in *.
  - destruct (Hk a s') as [Ht' Hv']. split; congruence.
  - now split.
Qed.

Lemma read_only_try_except {A} (m : M A) (h : string -> M A) :
  read_only m -> (forall msg, read_only (h msg)) -> read_only (try_except m h).
Proof.
  intros Hm Hh s. unfold try_except.
  destruct (Hm s) as [Ht Hv].
  destruct (m s) as [[a|msg] s']; simpl in *.
  - now split.
  - destruct (Hh msg s') as [Ht' Hv']. split; congruence.
Qed.

Lemma read_only_log (e : Event) : read_only (log e).
Proof. intro s. now split. Qed.

Lemma read_only_get_trace : read_only get_trace.
Proof. intro s. now split. Qed.

Create HintDb ro discriminated.
#[export] Hint Resolve read_only_ret read_only_raise read_only_log read_only_get_trace : ro.

Ltac ro_step :=
  match goal with
  | |- read_only (bind _ _) => apply read_only_bind; [|intro]
  | |- read_only (try_except _ _) => apply read_only_try_except; [|intro]
  | |- read_only (match ?x with _ => _ end) => destruct x
  | |- read_only (if ?b then _ else _) => destruct b
  | |- read_only _ => solve [auto with ro]
  end.

Ltac ro := repeat ro_step.

Lemma read_only_generate_content (w : World) (p : Prompt) :
  read_only (generate_content w p).
Proof. unfold generate_content. ro. Qed.

Lemma read_only_embed_content (w : World) (text : string) :
  read_only (embed_content w text).
Proof. unfold embed_content. ro. Qed.

Lemma read_only_inference_embed (w : World) (text : string) :
  read_only (inference_embed w text).
Proof. unfold inference_embed. ro. Qed.

Lemma read_only_index_query (w : World) (v : list Z)
    (sp : option (option SparseEmbedding)) (k : Z) :
  read_only (index_query w v sp k).
Proof. unfold index_query. ro. Qed.

Lemma read_only_sqlite_guard (w : World) : read_only (sqlite_guard w).
Proof. unfold sqlite_guard. ro. Qed.

#[export] Hint Resolve read_only_generate_content read_only_embed_content
  read_only_inference_embed read_only_index_query read_only_sqlite_guard : ro.

Lemma read_only_generate_dense_embedding (w : World) (text : string) :
  read_only (gemini_helper.generate_dense_embedding w text).
Proof. unfold gemini_helper.generate_dense_embedding. ro. Qed.

Lemma read_only_generate_summary (w : World) (q r : string) :
  read_only (gemini_helper.generate_summary w q r).
Proof. unfold gemini_helper.generate_summary. ro. Qed.

Lemma read_only_classify_query_type (w : World) (q : string) :
  read_only (gemini_helper.classify_query_type w q).
Proof. unfold gemini_helper.classify_query_type. ro. Qed.

Lemma read_only_generate_generic_answer (w : World) (q : string) :
  read_only (gemini_helper.generate_generic_answer w q).
Proof. unfold gemini_helper.generate_generic_answer. ro. Qed.

Lemma read_only_generate_sparse_embedding (w : World) (text : string) :
  read_only (pinecone_helper.generate_sparse_embedding w text).
Proof. unfold pinecone_helper.generate_sparse_embedding. ro. Qed.

Lemma read_only_fetch_metadata (w : World) (ids : list string) :
  read_only (fetch_metadata_from_sqlite w ids).
Proof.
  unfold fetch_metadata_from_sqlite. ro.
Qed.

Lemma read_only_followup_scan (w : World) (n : nat) (q : string) (i : nat)
    (turns : list ConversationTurn) :
  read_only (followup_scan w n q i turns).
Proof.
  revert i. induction turns as [|t turns IH]; intro i; simpl; [auto with ro|].
  apply read_only_bind; [auto with ro|].
  intros [msg| |text]; auto.
  destruct (_ || _); auto with ro.
Qed.

Lemma read_only_check_followup (w : World) (ts : list ConversationTurn) (q : string) :
  read_only (check_followup_relevance_multi w ts q).
Proof. apply read_only_followup_scan. Qed.

#[export] Hint Resolve read_only_generate_dense_embedding read_only_generate_summary
  read_only_classify_query_type read_only_generate_generic_answer
  read_only_generate_sparse_embedding read_only_fetch_metadata
  read_only_check_followup : ro.

(** ** The records that the router returns *)

Lemma wp_fetch_metadata (w : World) (ids : list string)
    (Q : Result (list Record_) -> State -> Prop) (s : State) :
  (forall msg s', table s' = table s -> vectors s' = vectors s -> Q (Raise msg) s') ->
  (forall s', table s' = table s -> vectors s' = vectors s ->
     Q (Ok (map row_to_record (select_in (table s) ids))) s') ->
  wp (fetch_metadata_from_sqlite w ids) Q s.
Proof.
  intros Hr Ho. unfold wp, fetch_metadata_from_sqlite, bind, log, sqlite_guard,
    get_trace, bind, ret, raise. simpl.
  destruct (w_sqlite_error w _) as [msg|]; simpl.
  - now apply Hr.
  - now apply Ho.
Qed.

Ltac wp_call :=
  apply wp_read_only; [solve [auto with ro] | intros [?|?] ? ? ?].

Ltac wp_step :=
  match goal with
  | |- wp (bind _ _) _ _ => apply wp_bind
  | |- wp (ret _) _ _ => apply wp_ret
  | |- wp (raise _) _ _ => apply wp_raise
  | |- wp (if ?b then _ else _) _ _ => destruct b
  | |- wp (match ?x with _ => _ end) _ _ => destruct x
  end.

Lemma records_from_results (t : list StoredRow) (rs : list Record_) (tail : Response) :
  (forall rec, In rec rs -> exists r, In r t /\ rec = row_to_record r) ->
  records_from t (("results", VRecords rs) :: tail).
Proof.
  intros H rs' Hget. unfold dict_get in Hget. simpl in Hget.
  inversion Hget. subst rs'. exact H.
Qed.

Lemma records_from_no_results (t : list StoredRow) (tail : Response) :
  records_from t (("results", VRecords []) :: tail).
Proof. apply records_from_results. intros rec []. Qed.

Lemma records_from_error (t : list StoredRow) (msg : string) :
  records_from t [("error", VStr msg)].
Proof. intros rs Hget. discriminate. Qed.

#[export] Hint Resolve records_from_no_results records_from_error : ro.

Ltac wp_go :=
  repeat first
    [ wp_step
    | apply wp_fetch_metadata; [intros; exact I | intros ? ? ?]
    | wp_call; [|exact I] ].

Lemma wp_conseq {A} (m : M A) (P Q : Result A -> State -> Prop) (s : State) :
  (forall r s', P r s' -> Q r s') -> wp m P s -> wp m Q s.
Proof. unfold wp. auto. Qed.

Lemma retrieve_records (w : World) (request : SearchRequest) (text msg : string)
    (t1 t2 : Response) (s : State) :
  wp (retrieve w request text msg t1 t2)
    (fun r s' => match r with
                 | Ok resp => records_from (table s) resp
                 | Raise _ => True
                 end) s.
Proof.
  unfold retrieve. wp_go; simpl; auto with ro.
  all: apply records_from_results; intros rec Hrec;
    apply in_map_iff in Hrec; destruct Hrec as [r [E Hr]];
    apply select_in_In in Hr; exists r; split; [|now symmetry].
  all: match goal with
       | H : In _ (table ?x) /\ _ |- _ =>
           destruct H as [H _]; replace (table s) with (table x) by congruence; exact H
       end.
Qed.

Ltac wp_retrieve s :=
  match goal with
  | |- wp (retrieve _ _ _ _ _ _) _ ?s' =>
      eapply wp_conseq; [|apply retrieve_records];
      replace (table s') with (table s) by congruence;
      intros [?|?] ?; auto
  end.

Lemma search_patents_body_records (w : World) (request : SearchRequest) (s : State) :
  wp (search_patents_body w request)
    (fun r s' => match r with
                 | Ok resp => records_from (table s) resp
                 | Raise _ => True
                 end) s.
Proof.
  unfold search_patents_body.
  destruct (relevant_turns_of _) as [|t ts] eqn:Hrel.
  - wp_go; simpl; auto with ro.
    all: try exact I.
    wp_retrieve s.
  - wp_go; simpl; auto with ro.
    all: try exact I.
    all: wp_retrieve s.
Qed.

(** C6, as stated, fails: the record that the router returns for a match
    has no description, abstract or claims text. *)
Lemma C6_counterexample :
  exists rec,
    fst (search_patents Sample.specific_world Sample.request0 Sample.state0)
    = Ok [("results", VRecords [rec])] /\
    is_full_patent_record rec = false /\
    has_key "description" rec = false /\
    has_key "abstract" rec = false /\
    has_key "claims_text" rec = false.
Proof.
  eexists. split; [vm_compute; reflexivity|].
  repeat split.
Qed.

(** C6, amended: every record that the router returns under [results] is
    built from a row of the metadata store and carries exactly the fields
    vector_id, patent_number, title and detailed_summary, with the values
    stored in that row; description, abstract and claims_text are not
    selected, so the record is not a full PatentRecord. *)
Theorem C6_returned_records (w : World) (request : SearchRequest) (s : State)
    (resp : Response) (rs : list Record_) (rec : Record_) :
  fst (search_patents w request s) = Ok resp ->
  dict_get "results" resp = Some (VRecords rs) ->
  In rec rs ->
  exists r,
    In r (table s) /\
    rec = [("vector_id", vector_id r); ("patent_number", patent_number r);
           ("title", title r); ("detailed_summary", detailed_summary r)] /\
    map fst rec = fetched_fields /\
    is_full_patent_record rec = false.
Proof.
  intros Hrun Hget Hin.
  assert (Hfrom : records_from (table s) resp).
  { assert (Hb := search_patents_body_records w request s).
    unfold wp in Hb. unfold search_patents, try_except in Hrun.
    destruct (search_patents_body w request s) as [[resp'|msg] s']; simpl in *.
    - inversion Hrun. now subst.
    - inversion Hrun. subst. apply records_from_error. }
  destruct (Hfrom rs Hget rec Hin) as [r [Hr E]].
  exists r. subst rec. repeat split. exact Hr.
Qed.

Lemma C6_returned_records_witness :
  exists r,
    In r Sample.table0 /\
    row_to_record Sample.row1
    = [("vector_id", vector_id r); ("patent_number", patent_number r);
       ("title", title r); ("detailed_summary", detailed_summary r)] /\
    map fst (row_to_record Sample.row1) = fetched_fields /\
    is_full_patent_record (row_to_record Sample.row1) = false.
Proof.
  apply (C6_returned_records Sample.specific_world Sample.request0 Sample.state0
           [("results", VRecords [row_to_record Sample.row1])]
           [row_to_record Sample.row1]).
  - vm_compute. reflexivity.
  - reflexivity.
  - simpl. left. reflexivity.
Defined.

(** ** The helpers of gemini_helper.py, run from a state *)

Lemma classify_query_type_run (w : World) (q : string) (s : State) :
  gemini_helper.classify_query_type w q s
  = (Ok (label_of (w_generate w (trace s) (ClassifyPrompt q))),
     called (GenerateContent (ClassifyPrompt q)) s).
Proof.
  unfold gemini_helper.classify_query_type, generate_content, bind, get_trace, log, ret.
  simpl. destruct (w_generate w (trace s) (ClassifyPrompt q)) as [msg| |text]; try reflexivity.
  simpl. now destruct (PyStr.mem (PyStr.lower (PyStr.strip text)) gemini_helper.labels).
Qed.

Lemma generate_summary_run (w : World) (q r : string) (s : State) :
  gemini_helper.generate_summary w q r s
  = (Ok (summary_of (w_generate w (trace s) (SummaryPrompt q r))),
     called (GenerateContent (SummaryPrompt q r)) s).
Proof.
  unfold gemini_helper.generate_summary, generate_content, bind, get_trace, log, ret.
  simpl. now destruct (w_generate w (trace s) (SummaryPrompt q r)).
Qed.

Lemma label_of_labels (o : GenOutcome) : In (label_of o) gemini_helper.labels.
Proof.
  destruct o as [msg| |text]; [simpl; auto | simpl; auto |].
  unfold label_of, unusable.
  destruct (PyStr.mem (PyStr.lower (PyStr.strip text)) gemini_helper.labels) eqn:E.
  - now apply mem_In.
  - simpl. auto.
Qed.

Lemma label_of_unusable (o : GenOutcome) : unusable o = true -> label_of o = "irrelevant".
Proof.
  destruct o as [msg| |text]; simpl; auto.
  intro H. now rewrite H.
Qed.

(** ** The first-query rejection *)

(** C3: with no relevant prior turn, a query classified as irrelevant that
    contains no technical marker term gets the payload with an empty result
    list and the rejection message and nothing else, so no generic_answer
    and no related key; the classification is the only external call of the
    request, so nothing is embedded, the vector index is not queried and the
    metadata store is not read. *)
Theorem C3_fresh_irrelevant (w : World) (request : SearchRequest) (s : State) :
  relevant_turns_of (request_history request) = [] ->
  fst (gemini_helper.classify_query_type w (query_text_of request) s) = Ok "irrelevant" ->
  force_specific_of (query_text_of request) = false ->
  let resp := [("results", VRecords []); ("message", VStr rejection_message)] in
  search_patents w request s
  = (Ok resp, called (GenerateContent (ClassifyPrompt (query_text_of request))) s) /\
  dict_get "generic_answer" resp = None /\
  dict_get "related" resp = None /\
  dict_get "error" resp = None.
Proof.
  intros Hrel Hcls Hforce resp. repeat split.
  unfold search_patents, try_except, search_patents_body.
  fold (request_history request). fold (query_text_of request).
  rewrite Hrel. unfold bind.
  rewrite classify_query_type_run in *. simpl in Hcls. inversion Hcls as [Hl].
  rewrite Hl, Hforce. reflexivity.
Qed.

(** The scenario of the specification: no history, "What's the weather
    today?", and a classifier that answers "irrelevant". *)
Lemma C3_fresh_irrelevant_witness :
  let w := Sample.scripted (fun _ => GenText "Irrelevant") None (inr []) in
  search_patents w Sample.weather_request Sample.state0
  = (Ok [("results", VRecords []); ("message", VStr rejection_message)],
     called (GenerateContent (ClassifyPrompt "What's the weather today?")) Sample.state0).
Proof.
  exact (proj1 (C3_fresh_irrelevant
                  (Sample.scripted (fun _ => GenText "Irrelevant") None (inr []))
                  Sample.weather_request Sample.state0 eq_refl eq_refl eq_refl)).
Defined.

(** ** The summary short-circuit *)

Lemma nth_error_last {A} (front : list A) (x : A) :
  nth_error (front ++ [x]) (length (front ++ [x]) - 1) = Some x.
Proof.
  rewrite length_app. simpl.
  replace (length front + 1 - 1) with (length front) by lia.
  rewrite nth_error_app2 by lia.
  now rewrite Nat.sub_diag.
Qed.

(** C1: when the history has a relevant turn and the query contains a
    summary keyword (the keywords are looked for in the lower-cased query,
    which the router trims first; a keyword has no blank, so trimming cannot
    lose it),
    the router answers with a summary generated from the answer of the last,
    that is the most recent, relevant turn, an empty result list and
    [related] set to true.  The one external call of the request is that
    summary generation: nothing is embedded, the vector index is not
    queried, the query is not classified, and neither the classifier's answer
    nor the technical terms have a say, the check coming first. *)
Theorem C1_summary_short_circuit (w : World) (request : SearchRequest) (s : State) :
  relevant_turns_of (request_history request) <> [] ->
  (exists word, In word summary_keywords /\
                PyStr.contains word (PyStr.lower (query request)) = true) ->
  exists front last_relevant_turn context,
    relevant_turns_of (request_history request) = front ++ [last_relevant_turn] /\
    answer last_relevant_turn = Some context /\
    let call := GenerateContent (SummaryPrompt (query_text_of request) context) in
    search_patents w request s
    = (Ok [("results", VRecords []);
           ("live_summary",
            VStr (summary_of (w_generate w (trace s)
                                (SummaryPrompt (query_text_of request) context))));
           ("related", VBool true);
           ("note", VStr ("Summary of previous response (Query #"
                          ++ PyStr.of_nat (length (front ++ [last_relevant_turn]))
                          ++ ")")%string)],
       called call s) /\
    is_retrieval call = false /\ is_classification call = false.
Proof.
  intros Hne [word [Hword Hcontains]].
  destruct (exists_last Hne) as [front [last_turn Hsplit]].
  assert (Hrel : is_relevant last_turn = true).
  { assert (Hin : In last_turn (relevant_turns_of (request_history request))).
    { rewrite Hsplit. apply in_or_app. right. now left. }
    rewrite relevant_turns_of_filter in Hin. now apply filter_In in Hin. }
  unfold is_relevant in Hrel.
  destruct (answer last_turn) as [context|] eqn:Hans; [|discriminate].
  exists front, last_turn, context. split; [exact Hsplit|]. split; [exact Hans|].
  intro call. split; [|now split].
  assert (Hsum : is_summary_request_of (query_text_of request) = true).
  { unfold is_summary_request_of. apply existsb_exists. exists word.
    split; [exact Hword|]. apply contains_lower_strip; [|exact Hcontains].
    assert (Hall := summary_keywords_are_words).
    rewrite forallb_forall in Hall. now apply Hall. }
  unfold search_patents, try_except, search_patents_body.
  fold (request_history request). fold (query_text_of request).
  rewrite Hsum, Hsplit, nth_error_last.
  destruct (front ++ [last_turn]) as [|t ts] eqn:E.
  { now destruct front. }
  unfold bind. rewrite generate_summary_run, Hans. reflexivity.
Qed.

Lemma C1_summary_short_circuit_witness :
  exists front last_relevant_turn context,
    relevant_turns_of (request_history Sample.summarize_request)
    = front ++ [last_relevant_turn] /\
    answer last_relevant_turn = Some context /\
    let call := GenerateContent
                  (SummaryPrompt (query_text_of Sample.summarize_request) context) in
    search_patents Sample.outage_world Sample.summarize_request Sample.state0
    = (Ok [("results", VRecords []);
           ("live_summary",
            VStr (summary_of (w_generate Sample.outage_world (trace Sample.state0)
                                (SummaryPrompt (query_text_of Sample.summarize_request)
                                   context))));
           ("related", VBool true);
           ("note", VStr ("Summary of previous response (Query #"
                          ++ PyStr.of_nat (length (front ++ [last_relevant_turn]))
                          ++ ")")%string)],
       called call Sample.state0) /\
    is_retrieval call = false /\ is_classification call = false.
Proof.
  apply (C1_summary_short_circuit Sample.outage_world Sample.summarize_request
           Sample.state0).
  - vm_compute. discriminate.
  - exists "summarize". split; [simpl; tauto | vm_compute; reflexivity].
Defined.

(** The scenario of the specification for the summary request. *)
Example summarize_scenario :
  fst (search_patents
         (Sample.scripted (fun _ => GenText " A summary. ") None (inl "unused"))
         (mkRequest "Can you summarize that?" (Some [Sample.turn1]) 5 false false)
         Sample.state0)
  = Ok [("results", VRecords []); ("live_summary", VStr "A summary.");
        ("related", VBool true);
        ("note", VStr "Summary of previous response (Query #1)")].
Proof. vm_compute. reflexivity. Qed.

(** ** The top-level handler of exceptions *)

(** C7: [search_patents] returns a payload for every request, in every
    world and from every state; when the routing sequence raises an
    exception, the payload is the dict whose one key is [error], with the
    message of the exception as its value, and when it does not, the payload
    is the one that the routing sequence built. *)
Theorem C7_errors_are_payloads (w : World) (request : SearchRequest) (s : State) :
  exists resp,
    fst (search_patents w request s) = Ok resp /\
    (forall msg, fst (search_patents_body w request s) = Raise msg ->
                 resp = [("error", VStr msg)]) /\
    (forall r, fst (search_patents_body w request s) = Ok r -> resp = r).
Proof.
  unfold search_patents, try_except.
  destruct (search_patents_body w request s) as [[r|msg] s']; simpl.
  - exists r. repeat split; intros; congruence.
  - exists [("error", VStr msg)]. repeat split; intros; congruence.
Qed.

(** An exception of the vector index, which nothing below the handler
    catches, comes back as an error payload. *)
Lemma C7_errors_are_payloads_witness :
  fst (search_patents_body Sample.broken_index_world Sample.request0 Sample.state0)
  = Raise "connection refused" /\
  fst (search_patents Sample.broken_index_world Sample.request0 Sample.state0)
  = Ok [("error", VStr "connection refused")].
Proof.
  split; [vm_compute; reflexivity|].
  destruct (C7_errors_are_payloads Sample.broken_index_world Sample.request0
              Sample.state0) as [resp [Hrun [Herr _]]].
  rewrite Hrun. f_equal. apply Herr. vm_compute. reflexivity.
Defined.

(** ** The classifier *)

(** C10: [classify_query_type] returns for every query and every provider
    outcome one of the labels irrelevant, generic and specific; it returns
    irrelevant when the provider call raises, gives no usable text, or gives
    a text that, trimmed and lower-cased, is none of the three labels.  So
    when the provider is down, a request without relevant history whose
    query text has no technical marker term is rejected. *)
Theorem C10_classifier_total (w : World) (q : string) (s : State) :
  (exists label,
     fst (gemini_helper.classify_query_type w q s) = Ok label /\
     In label gemini_helper.labels) /\
  (unusable (w_generate w (trace s) (ClassifyPrompt q)) = true ->
   fst (gemini_helper.classify_query_type w q s) = Ok "irrelevant") /\
  (forall request,
     provider_outage w ->
     relevant_turns_of (request_history request) = [] ->
     force_specific_of (query_text_of request) = false ->
     fst (search_patents w request s)
     = Ok [("results", VRecords []); ("message", VStr rejection_message)]).
Proof.
  rewrite classify_query_type_run. simpl. repeat split.
  - eexists. split; [reflexivity | apply label_of_labels].
  - intro H. now rewrite label_of_unusable.
  - intros request Hout Hrel Hforce.
    assert (Hcls : fst (gemini_helper.classify_query_type w (query_text_of request) s)
                   = Ok "irrelevant").
    { rewrite classify_query_type_run. simpl.
      destruct (Hout (trace s) (ClassifyPrompt (query_text_of request))) as [msg Hmsg].
      now rewrite Hmsg. }
    unfold search_patents, try_except, search_patents_body.
    fold (request_history request). fold (query_text_of request).
    rewrite Hrel. unfold bind.
    rewrite classify_query_type_run in *. simpl in Hcls. inversion Hcls as [Hl].
    rewrite Hl, Hforce. reflexivity.
Qed.

Lemma sample_outage : provider_outage Sample.outage_world.
Proof. intros tr p. now exists "503 service unavailable". Qed.

Lemma C10_classifier_total_witness :
  fst (gemini_helper.classify_query_type Sample.outage_world "patent term length"
         Sample.state0) = Ok "irrelevant" /\
  fst (search_patents Sample.outage_world
         (mkRequest "patent term length" None 5 false false) Sample.state0)
  = Ok [("results", VRecords []); ("message", VStr rejection_message)].
Proof.
  destruct (C10_classifier_total Sample.outage_world "patent term length" Sample.state0)
    as [_ [Hirr Hrej]].
  split.
  - apply Hirr. reflexivity.
  - apply Hrej; [|reflexivity|reflexivity].
    intros tr p. exists "503 service unavailable". reflexivity.
Defined.

(** ** The relatedness scan *)

Lemma followup_scan_spec (w : World) (q : string) (n : nat)
    (turns : list ConversationTurn) (i : nat) (s : State) :
  exists r s',
    followup_scan w n q i turns s = (Ok r, s') /\
    table s' = table s /\ vectors s' = vectors s /\
    ((exists earlier turn later tr1,
        turns = earlier ++ turn :: later /\
        declined w q (trace s) earlier tr1 /\
        answer_at w q tr1 turn = true /\
        trace s' = GenerateContent (followup_prompt turn q) :: tr1 /\
        r = mkRelevance true (Some (n - 1 - (i + length earlier))) (Some turn))
     \/
     (declined w q (trace s) turns (trace s') /\
      r = mkRelevance false None None)).
Proof.
  revert i s. induction turns as [|turn rest IH]; intros i s.
  - exists (mkRelevance false None None), s. simpl. unfold ret.
    repeat split. right. split; [constructor | reflexivity].
  - simpl. unfold bind at 1. unfold generate_content, bind, get_trace, log, ret. simpl.
    fold (followup_prompt turn q).
    set (s1 := called (GenerateContent (followup_prompt turn q)) s).
    assert (Hskip : answer_at w q (trace s) turn = false ->
              exists r s',
                followup_scan w n q (S i) rest s1 = (Ok r, s') /\
                table s' = table s /\ vectors s' = vectors s /\
                ((exists earlier turn0 later tr1,
                    turn :: rest = earlier ++ turn0 :: later /\
                    declined w q (trace s) earlier tr1 /\
                    answer_at w q tr1 turn0 = true /\
                    trace s' = GenerateContent (followup_prompt turn0 q) :: tr1 /\
                    r = mkRelevance true (Some (n - 1 - (i + length earlier))) (Some turn0))
                 \/
                 (declined w q (trace s) (turn :: rest) (trace s') /\
                  r = mkRelevance false None None))).
    { intro Hno.
      destruct (IH (S i) s1) as [r [s' [Hrun [Ht [Hv Hcases]]]]].
      exists r, s'. split; [exact Hrun|]. split; [exact Ht|]. split; [exact Hv|].
      destruct Hcases as [[earlier [turn0 [later [tr1 [Hs [Hd [Ha [Htr Hr]]]]]]]]|[Hd Hr]].
      - left. exists (turn :: earlier), turn0, later, tr1.
        split; [simpl; now rewrite Hs|].
        split; [now constructor|].
        split; [exact Ha|]. split; [exact Htr|].
        rewrite Hr. simpl. do 3 f_equal. lia.
      - right. split; [now constructor | exact Hr]. }
    unfold answer_at, affirmative in Hskip.
    destruct (w_generate w (trace s) (followup_prompt turn q)) as [msg| |t] eqn:Hgen.
    + now apply Hskip.
    + now apply Hskip.
    + destruct (PyStr.startswith (PyStr.lower (PyStr.strip t)) "yes"
                || PyStr.startswith (PyStr.lower (PyStr.strip t)) "y") eqn:Hyes.
      * exists (mkRelevance true (Some (n - 1 - i)) (Some turn)), s1.
        repeat split. left. exists [], turn, rest, (trace s).
        split; [reflexivity|]. split; [constructor|].
        split; [unfold answer_at, affirmative; now rewrite Hgen|].
        split; [reflexivity|].
        simpl. now rewrite Nat.add_0_r.
      * now apply Hskip.
Qed.

(** C2: the scan asks about the relevant turns from the most recent to the
    oldest, one provider question per turn asked about, and never raises.
    Either it stops at the first turn whose answer is affirmative: the turns
    after it in the list were asked before it, in reverse list order, and
    none of their answers was affirmative (a call that raises or gives no
    usable text is such an answer, and the scan goes on past it), no older
    turn is asked about, and the result holds that turn and its position in
    the list of relevant turns.  Or no answer is affirmative: every turn was
    asked about and the result is not related, without index and turn. *)
Theorem C2_relatedness_scan (w : World) (relevant_turns : list ConversationTurn)
    (new_question : string) (s : State) :
  exists r s',
    check_followup_relevance_multi w relevant_turns new_question s = (Ok r, s') /\
    table s' = table s /\ vectors s' = vectors s /\
    ((exists older turn newer tr1,
        relevant_turns = older ++ turn :: newer /\
        declined w new_question (trace s) (rev newer) tr1 /\
        answer_at w new_question tr1 turn = true /\
        trace s' = GenerateContent (followup_prompt turn new_question) :: tr1 /\
        nth_error relevant_turns (length older) = Some turn /\
        r = mkRelevance true (Some (length older)) (Some turn))
     \/
     (declined w new_question (trace s) (rev relevant_turns) (trace s') /\
      r = mkRelevance false None None)).
Proof.
  unfold check_followup_relevance_multi.
  destruct (followup_scan_spec w new_question (length relevant_turns)
              (rev relevant_turns) 0 s) as [r [s' [Hrun [Ht [Hv Hcases]]]]].
  exists r, s'. split; [exact Hrun|]. split; [exact Ht|]. split; [exact Hv|].
  destruct Hcases as [[earlier [turn [later [tr1 [Hs [Hd [Ha [Htr Hr]]]]]]]]|[Hd Hr]].
  - left. exists (rev later), turn, (rev earlier), tr1.
    assert (Hsplit : relevant_turns = rev later ++ turn :: rev earlier).
    { rewrite <- (rev_involutive relevant_turns), Hs, rev_app_distr. simpl.
      now rewrite <- app_assoc. }
    split; [exact Hsplit|].
    split; [now rewrite rev_involutive|].
    split; [exact Ha|]. split; [exact Htr|].
    split.
    + rewrite Hsplit, nth_error_app2 by lia. now rewrite Nat.sub_diag.
    + rewrite Hr. do 2 f_equal.
      rewrite Hsplit at 1. rewrite length_app, length_rev. simpl length.
      rewrite length_rev. f_equal. lia.
  - right. now split.
Qed.

(** The call about the most recent turn raises and the scan goes on to the
    older turn, which is at position 0 of the relevant turns. *)
Example scan_passes_over_a_failed_call :
  check_followup_relevance_multi Sample.followup_world [Sample.turn1; Sample.turn3]
    "what about power use?" Sample.state0
  = (Ok (mkRelevance true (Some 0) (Some Sample.turn1)),
     called (GenerateContent (followup_prompt Sample.turn1 "what about power use?"))
       (called (GenerateContent (followup_prompt Sample.turn3 "what about power use?"))
          Sample.state0)).
Proof. vm_compute. reflexivity. Qed.

Example scan_without_affirmative_answer :
  fst (check_followup_relevance_multi
         (Sample.scripted (fun _ => GenNoText) None (inr []))
         [Sample.turn1; Sample.turn3] "what about power use?" Sample.state0)
  = Ok (mkRelevance false None None).
Proof. vm_compute. reflexivity. Qed.

(** ** Ingestion *)

(** C8: a document whose combined text is empty leaves the counter and the
    whole state as they were: no call is made for it, so no summary is
    generated, no chunk is produced, nothing is written to the vector index
    or to the metadata store; the loop over the files goes on with the next
    document. *)
Theorem C8_empty_document_skipped (w : World) (file_idx : nat) (patent : Patent)
    (total_chunks : nat) (s : State) :
  patent_combined_text patent = Ok "" ->
  process_patent w file_idx patent total_chunks s = (Ok total_chunks, s) /\
  (forall rest,
     process_files w file_idx (Some patent :: rest) total_chunks s
     = process_files w (S file_idx) rest total_chunks s).
Proof.
  intro Hempty. unfold patent_combined_text in Hempty.
  assert (Hp : process_patent w file_idx patent total_chunks s = (Ok total_chunks, s)).
  { unfold process_patent.
    destruct (claims_data_of patent) as [claims_data|msg]; [|discriminate].
    injection Hempty as Hc. cbv zeta. rewrite Hc. reflexivity. }
  split; [exact Hp|].
  intro rest. simpl. unfold bind. now rewrite Hp.
Qed.

Lemma C8_empty_document_skipped_witness :
  process_patent Sample.specific_world 0 Sample.patent_without_text 0 Sample.empty_state
  = (Ok 0, Sample.empty_state).
Proof.
  exact (proj1 (C8_empty_document_skipped Sample.specific_world 0
                  Sample.patent_without_text 0 Sample.empty_state eq_refl)).
Defined.

(** The call [generate_summary(combined_text)] passes one argument to a
    function of two parameters: a document with text stops the run with a
    [TypeError] before any chunk is made. *)
Lemma document_with_text_raises (w : World) (file_idx : nat) (patent : Patent)
    (total_chunks : nat) (s : State) (text : string) :
  patent_combined_text patent = Ok text -> text <> "" ->
  process_patent w file_idx patent total_chunks s
  = (Raise "generate_summary() missing 1 required positional argument: 'result'", s).
Proof.
  intros Htext Hne. unfold patent_combined_text in Htext. unfold process_patent.
  destruct (claims_data_of patent) as [claims_data|msg]; [|discriminate].
  injection Htext as Hc. cbv zeta. rewrite Hc.
  destruct text; [congruence | reflexivity].
Qed.

Lemma init_sqlite_run (w : World) (s : State) :
  w_sqlite_error w (SqliteCreateTable :: trace s) = None ->
  sqlite_helper.init_sqlite w s
  = (Ok tt, mkState (SqliteCreateTable :: trace s) (table s) (vectors s) None).
Proof.
  intro Hok.
  unfold sqlite_helper.init_sqlite, sqlite_guard, bind, get_trace, log, raise, ret.
  simpl. now rewrite Hok.
Qed.

Lemma close_sqlite_run (w : World) (s : State) :
  w_sqlite_error w (SqliteCommit :: trace s) = None ->
  sqlite_helper.close_sqlite w s
  = (Ok tt, mkState (SqliteCommit :: trace s) (view s) (vectors s) None).
Proof.
  intro Hok.
  unfold sqlite_helper.close_sqlite, sqlite_guard, bind, get_trace, log, raise, ret.
  simpl. now rewrite Hok.
Qed.

Lemma process_patent_without_text (w : World) (file_idx : nat) (patent : Patent)
    (total_chunks : nat) (s : State) :
  patent_combined_text patent = Ok "" ->
  process_patent w file_idx patent total_chunks s = (Ok total_chunks, s).
Proof.
  unfold patent_combined_text, process_patent.
  destruct (claims_data_of patent) as [claims_data|msg]; [|discriminate].
  intro Hempty. injection Hempty as Hc. cbv zeta. now rewrite Hc.
Qed.

Lemma process_files_without_text (w : World) (skipped rest : list (option Patent))
    (file_idx total_chunks : nat) (s : State) :
  forallb without_text skipped = true ->
  process_files w file_idx (skipped ++ rest) total_chunks s
  = process_files w (file_idx + length skipped) rest total_chunks s.
Proof.
  revert file_idx.
  induction skipped as [|file skipped IH]; intros file_idx Hall; simpl.
  - now rewrite Nat.add_0_r.
  - simpl in Hall. apply andb_true_iff in Hall. destruct Hall as [Hfile Hall].
    rewrite <- Nat.add_succ_comm.
    destruct file as [patent|]; [|now apply IH].
    unfold without_text in Hfile.
    destruct (patent_combined_text patent) as [text|msg] eqn:Htext; [|discriminate].
    destruct text; [|discriminate].
    unfold bind.
    rewrite (process_patent_without_text w file_idx patent total_chunks s Htext).
    now apply IH.
Qed.

(** C9: the code departs from the claim.  The call
    [generate_summary(combined_text)] raises a [TypeError] for the first
    document with text, before the loop over its chunks, and nothing catches
    it.  So whatever the embedding providers would answer for the chunks, a
    run over a folder that holds a document with text ends with that
    exception once [init_sqlite] has run its [CREATE TABLE]: no chunk is
    embedded or skipped, nothing is written or committed, the files after
    that document are not processed and no count is reported. *)
Theorem C9_run_stops_before_the_chunks (w : World) (skipped : list (option Patent))
    (patent : Patent) (rest : list (option Patent)) (text : string) (s : State) :
  forallb without_text skipped = true ->
  patent_combined_text patent = Ok text -> text <> "" ->
  w_sqlite_error w (SqliteCreateTable :: trace s) = None ->
  process_and_upsert_patents w (skipped ++ Some patent :: rest) s
  = (Raise "generate_summary() missing 1 required positional argument: 'result'",
     mkState (SqliteCreateTable :: trace s) (table s) (vectors s) None).
Proof.
  intros Hskipped Htext Hne Hinit.
  unfold process_and_upsert_patents.
  unfold bind at 1. rewrite (init_sqlite_run w s Hinit). cbv beta iota.
  unfold bind at 1.
  rewrite process_files_without_text by exact Hskipped.
  cbn [process_files]. unfold bind at 1.
  now rewrite (document_with_text_raises w _ patent 0 _ text Htext Hne).
Qed.

(** The failing input of C9: the dense embedding of the one chunk of the
    first document would fail, and a second document follows. *)
Lemma C9_run_stops_before_the_chunks_witness :
  process_and_upsert_patents
    (Sample.flaky_world "A stride prefetcher. 1. A prefetcher.")
    ([Some Sample.patent_without_text; None]
     ++ Some Sample.patent_with_text :: [Some Sample.other_patent_with_text])
    Sample.empty_state
  = (Raise "generate_summary() missing 1 required positional argument: 'result'",
     mkState [SqliteCreateTable] [] [] None).
Proof.
  apply (C9_run_stops_before_the_chunks
           (Sample.flaky_world "A stride prefetcher. 1. A prefetcher.")
           [Some Sample.patent_without_text; None] Sample.patent_with_text
           [Some Sample.other_patent_with_text] "A stride prefetcher. 1. A prefetcher."
           Sample.empty_state).
  - reflexivity.
  - reflexivity.
  - discriminate.
  - reflexivity.
Defined.

Example run_stops_at_document_with_text :
  process_and_upsert_patents Sample.specific_world
    [Some Sample.patent_without_text; None; Some Sample.patent_with_text;
     Some Sample.patent_with_text] Sample.empty_state
  = (Raise "generate_summary() missing 1 required positional argument: 'result'",
     called SqliteCreateTable Sample.empty_state).
Proof. vm_compute. reflexivity. Qed.

Ltac pick_calls :=
  match goal with
  | |- exists calls, trace ?s = calls ++ trace ?s /\ _ => exists []
  | |- exists calls, ?a :: trace ?s = calls ++ trace ?s /\ _ => exists [a]
  | |- exists calls, ?a :: ?b :: trace ?s = calls ++ trace ?s /\ _ => exists [a; b]
  | |- exists calls, ?a :: ?b :: ?c :: trace ?s = calls ++ trace ?s /\ _ =>
      exists [a; b; c]
  end; split; [reflexivity|].

Lemma uuid4_prefix_run (w : World) (s : State) :
  uuid4_prefix w s = (Ok (w_uuid w (trace s)), called Uuid4 s).
Proof. reflexivity. Qed.

Lemma dense_embedding_emits (w : World) (text : string) :
  emits (gemini_helper.generate_dense_embedding w text) no_write.
Proof.
  intro s. unfold gemini_helper.generate_dense_embedding.
  destruct (_ || _); simpl; pick_calls; reflexivity.
Qed.

Lemma sparse_embedding_emits (w : World) (text : string) :
  emits (pinecone_helper.generate_sparse_embedding w text) no_write.
Proof.
  intro s. unfold pinecone_helper.generate_sparse_embedding.
  destruct (_ || _); simpl; pick_calls; reflexivity.
Qed.

Lemma dense_embedding_inserts (w : World) (text : string) :
  emits (gemini_helper.generate_dense_embedding w text) (fun calls => inserts calls = 0).
Proof.
  intro s. unfold gemini_helper.generate_dense_embedding.
  destruct (_ || _); simpl; pick_calls; reflexivity.
Qed.

Lemma sparse_embedding_inserts (w : World) (text : string) :
  emits (pinecone_helper.generate_sparse_embedding w text) (fun calls => inserts calls = 0).
Proof.
  intro s. unfold pinecone_helper.generate_sparse_embedding.
  destruct (_ || _); simpl; pick_calls; reflexivity.
Qed.

(** [upsert_hybrid_vector] never raises and makes no insert. *)
Lemma upsert_hybrid_vector_run (w : World) (id : string) (dense : list Z)
    (sparse : option SparseEmbedding) (meta : list (string * string)) (s : State) :
  fst (pinecone_helper.upsert_hybrid_vector w id dense sparse meta s) = Ok tt /\
  exists calls,
    trace (snd (pinecone_helper.upsert_hybrid_vector w id dense sparse meta s))
    = calls ++ trace s /\ inserts calls = 0.
Proof.
  unfold pinecone_helper.upsert_hybrid_vector, try_except, index_upsert, bind,
    get_trace, log, raise, ret. simpl.
  destruct (w_upsert w (trace s) _) as [msg|]; simpl.
  - destruct (w_upsert w _ _) as [msg'|]; simpl; (split; [reflexivity|]);
      pick_calls; reflexivity.
  - split; [reflexivity|]. pick_calls; reflexivity.
Qed.

(** [insert_metadata] makes one insert, whether SQLite accepts it or not. *)
Lemma insert_metadata_emits (w : World) (id pn ti de ab cl su : string) :
  emits (sqlite_helper.insert_metadata w id pn ti de ab cl su)
    (fun calls => inserts calls = 1).
Proof.
  intro s. unfold sqlite_helper.insert_metadata, sqlite_guard, bind, get_trace, log,
    raise, ret. simpl.
  destruct (w_sqlite_error w _) as [msg|]; simpl; pick_calls; reflexivity.
Qed.

Section ChunkLoop.

Variable w : World.
Variables patent_number title description abstract claims_text detailed_summary : string.

Let loop := upsert_chunks w patent_number title description abstract claims_text
              detailed_summary.

Lemma upsert_chunks_skip (chunk_idx : nat) (chunk : string) (rest : list string)
    (total_chunks : nat) (s : State) :
  chunk_embedding_fails w chunk s ->
  exists s',
    loop chunk_idx (chunk :: rest) total_chunks s = loop (S chunk_idx) rest total_chunks s' /\
    table s' = table s /\ vectors s' = vectors s /\
    exists calls, trace s' = calls ++ trace s /\ no_write calls.
Proof.
  unfold chunk_embedding_fails, loop. intro Hfail. simpl.
  unfold bind at 1. rewrite uuid4_prefix_run.
  set (s1 := called Uuid4 s) in *.
  unfold bind at 1.
  destruct (dense_embedding_emits w chunk s1) as [c1 [Htr1 Hw1]].
  destruct (read_only_generate_dense_embedding w chunk s1) as [Ht1 Hv1].
  destruct (gemini_helper.generate_dense_embedding w chunk s1) as [r1 s2] eqn:Hd.
  simpl in *.
  destruct Hfail as [Hnone | [dense [Hsome Hsparse]]].
  - subst r1. exists s2. split; [reflexivity|]. split; [exact Ht1|]. split; [exact Hv1|].
    exists (c1 ++ [Uuid4]). split.
    + rewrite Htr1. unfold s1. simpl. now rewrite <- app_assoc.
    + unfold no_write in *. rewrite forallb_app, Hw1. reflexivity.
  - subst r1. unfold bind at 1.
    destruct (sparse_embedding_emits w chunk s2) as [c2 [Htr2 Hw2]].
    destruct (read_only_generate_sparse_embedding w chunk s2) as [Ht2 Hv2].
    destruct (pinecone_helper.generate_sparse_embedding w chunk s2) as [r2 s3] eqn:Hs.
    simpl in *. subst r2.
    exists s3. split; [reflexivity|].
    split; [congruence|]. split; [congruence|].
    exists (c2 ++ c1 ++ [Uuid4]). split.
    + rewrite Htr2, Htr1. unfold s1. simpl. now rewrite <- !app_assoc.
    + unfold no_write in *. rewrite !forallb_app, Hw1, Hw2. reflexivity.
Qed.

Lemma inserts_app (a b : list Event) : inserts (a ++ b) = inserts a + inserts b.
Proof. unfold inserts. now rewrite filter_app, length_app. Qed.

Lemma upsert_chunks_count (chunks : list string) (chunk_idx total_chunks : nat)
    (s : State) (n : nat) (s_end : State) :
  loop chunk_idx chunks total_chunks s = (Ok n, s_end) ->
  exists calls, trace s_end = calls ++ trace s /\ n = total_chunks + inserts calls.
Proof.
  unfold loop.
  revert chunk_idx total_chunks s.
  induction chunks as [|chunk rest IH]; intros chunk_idx total_chunks s Hrun.
  - simpl in Hrun. unfold ret in Hrun. inversion Hrun. subst.
    exists []. split; [reflexivity | unfold inserts; simpl; lia].
  - simpl in Hrun. unfold bind at 1 in Hrun. rewrite uuid4_prefix_run in Hrun.
    set (s1 := called Uuid4 s) in *.
    unfold bind at 1 in Hrun.
    destruct (dense_embedding_inserts w chunk s1) as [c1 [Htr1 Hi1]].
    destruct (gemini_helper.generate_dense_embedding w chunk s1) as [[[dense|]|msg] s2];
      simpl in Htr1; [| |discriminate].
    + unfold bind at 1 in Hrun.
      destruct (sparse_embedding_inserts w chunk s2) as [c2 [Htr2 Hi2]].
      destruct (pinecone_helper.generate_sparse_embedding w chunk s2)
        as [[[sparse|]|msg] s3]; simpl in Htr2; [| |discriminate].
      * unfold bind at 1 in Hrun.
        match type of Hrun with
        | context [pinecone_helper.upsert_hybrid_vector w ?id ?d ?sp ?m s3] =>
            destruct (upsert_hybrid_vector_run w id d sp m s3) as [Hok [c3 [Htr3 Hi3]]];
            destruct (pinecone_helper.upsert_hybrid_vector w id d sp m s3) as [r4 s4]
        end.
        simpl in Hok, Htr3. subst r4.
        unfold bind at 1 in Hrun.
        match type of Hrun with
        | context [sqlite_helper.insert_metadata w ?a ?b ?c ?d ?e ?f ?g s4] =>
            destruct (insert_metadata_emits w a b c d e f g s4) as [c4 [Htr4 Hi4]];
            destruct (sqlite_helper.insert_metadata w a b c d e f g s4) as [[[]|msg] s5]
        end; [|discriminate].
        simpl in Htr4.
        destruct (IH _ _ _ Hrun) as [calls [Htr Hn]].
        exists (calls ++ c4 ++ c3 ++ c2 ++ c1 ++ [Uuid4]). split.
        -- rewrite Htr, Htr4, Htr3, Htr2, Htr1. unfold s1. simpl.
           now rewrite <- !app_assoc.
        -- rewrite !inserts_app, Hi1, Hi2, Hi3, Hi4, Hn. unfold inserts. simpl. lia.
      * destruct (IH _ _ _ Hrun) as [calls [Htr Hn]].
        exists (calls ++ c2 ++ c1 ++ [Uuid4]). split.
        -- rewrite Htr, Htr2, Htr1. unfold s1. simpl. now rewrite <- !app_assoc.
        -- rewrite !inserts_app, Hi1, Hi2, Hn. unfold inserts. simpl. lia.
    + destruct (IH _ _ _ Hrun) as [calls [Htr Hn]].
      exists (calls ++ c1 ++ [Uuid4]). split.
      * rewrite Htr, Htr1. unfold s1. simpl. now rewrite <- !app_assoc.
      * rewrite !inserts_app, Hi1, Hn. unfold inserts. simpl. lia.
Qed.

End ChunkLoop.

(** ** Scenarios of the specification *)

(** A technical marker term forces the specific path whatever the
    classifier says: the query is embedded and the index is queried. *)
Example forced_specific_scenario :
  let w := Sample.scripted (fun _ => GenText "irrelevant") (Some [1%Z]) (inr []) in
  let run := search_patents w
               (mkRequest "microprocessor pipeline design" (Some []) 5 false false)
               Sample.state0 in
  existsb is_retrieval (trace (snd run)) = true /\
  dict_get "generic_answer" (match fst run with Ok resp => resp | Raise _ => [] end)
  = Some (VStr "irrelevant").
Proof. split; vm_compute; reflexivity. Qed.

(** A related follow-up is searched with the augmented query and the answer
    names the turn that gave the context. *)
Example related_followup_scenario :
  fst (search_patents Sample.followup_world
         (mkRequest "  what about power use? "
            (Some [Sample.turn1; Sample.turn2; Sample.turn3]) 3 true false)
         Sample.state0)
  = Ok [("results", VRecords [row_to_record Sample.row1]);
        ("related", VBool true);
        ("note", VStr "Results based on context from query #1")].
Proof. vm_compute. reflexivity. Qed.

(** * Further properties of the code *)

(** ** The metadata store: insert, commit and fetch *)

Lemma filter_other_keys (r : StoredRow) (t : list StoredRow) (ids : list string) :
  ~ In (vector_id r) ids ->
  select_in (sqlite_helper.insert_or_replace r t) ids = select_in t ids.
Proof.
  intro Hnot. unfold select_in, sqlite_helper.insert_or_replace. f_equal.
  rewrite filter_app. simpl.
  destruct (PyStr.mem (vector_id r) ids) eqn:Hm.
  { apply mem_In in Hm. contradiction. }
  rewrite app_nil_r.
  induction t as [|x t IH]; [reflexivity|].
  simpl. destruct (String.eqb_spec (vector_id x) (vector_id r)) as [E|NE]; simpl.
  - rewrite E, Hm. exact IH.
  - destruct (PyStr.mem (vector_id x) ids); [now rewrite IH | exact IH].
Qed.

Lemma select_inserted (r : StoredRow) (t : list StoredRow) :
  select_in (sqlite_helper.insert_or_replace r t) [vector_id r] = [r].
Proof.
  unfold select_in, sqlite_helper.insert_or_replace.
  rewrite filter_app. simpl.
  unfold PyStr.mem at 2. simpl. rewrite String.eqb_refl. simpl.
  replace (filter _ (filter _ t)) with (@nil StoredRow); [reflexivity|].
  induction t as [|x t IH]; [reflexivity|].
  simpl. destruct (String.eqb (vector_id x) (vector_id r)) eqn:E; simpl; [exact IH|].
  unfold PyStr.mem. simpl. now rewrite E.
Qed.

(** An insert that SQLite accepts changes what the connection of the
    ingestion sees and leaves the database file as it is. *)
Lemma insert_metadata_ok (w : World) (id pn ti de ab cl su : string) (s : State) :
  fst (sqlite_helper.insert_metadata w id pn ti de ab cl su s) = Ok tt ->
  sqlite_helper.insert_metadata w id pn ti de ab cl su s
  = (Ok tt,
     mkState (SqliteInsert (mkRow id pn ti de ab cl su) :: trace s) (table s) (vectors s)
       (Some (sqlite_helper.insert_or_replace (mkRow id pn ti de ab cl su) (view s)))).
Proof.
  unfold sqlite_helper.insert_metadata, sqlite_guard, bind, get_trace, log, raise, ret.
  simpl. destruct (w_sqlite_error w _) as [msg|]; simpl; [discriminate | reflexivity].
Qed.

Lemma insert_metadata_table (w : World) (id pn ti de ab cl su : string) (s : State) :
  table (snd (sqlite_helper.insert_metadata w id pn ti de ab cl su s)) = table s.
Proof.
  unfold sqlite_helper.insert_metadata, sqlite_guard, bind, get_trace, log, raise, ret.
  simpl. now destruct (w_sqlite_error w _).
Qed.

Lemma close_sqlite_ok (w : World) (s : State) :
  fst (sqlite_helper.close_sqlite w s) = Ok tt ->
  sqlite_helper.close_sqlite w s
  = (Ok tt, mkState (SqliteCommit :: trace s) (view s) (vectors s) None).
Proof.
  unfold sqlite_helper.close_sqlite, sqlite_guard, bind, get_trace, log, raise, ret.
  simpl. destruct (w_sqlite_error w _) as [msg|]; simpl; [discriminate | reflexivity].
Qed.

Lemma fetch_metadata_ok (w : World) (ids : list string) (s : State) :
  w_sqlite_error w (SqliteSelect ids :: trace s) = None ->
  fst (fetch_metadata_from_sqlite w ids s)
  = Ok (map row_to_record (select_in (table s) ids)).
Proof.
  intro Hok. unfold fetch_metadata_from_sqlite, bind, log, sqlite_guard, get_trace, bind.
  simpl. now rewrite Hok.
Qed.

(** X1: a record written by [insert_metadata] reaches the router through
    the commit of [close_sqlite], and not before it.  A fetch of the
    identifier made before the commit returns what the database file held
    for it before the insert; a fetch made after the commit returns one dict,
    with the identifier and the patent number, title and summary that were
    written, whatever the file held before. *)
Theorem insert_commit_fetch_round_trip (w : World) (id pn ti de ab cl su : string)
    (s : State) :
  let inserted := sqlite_helper.insert_metadata w id pn ti de ab cl su s in
  let committed := sqlite_helper.close_sqlite w (snd inserted) in
  fst inserted = Ok tt ->
  fst committed = Ok tt ->
  w_sqlite_error w (SqliteSelect [id] :: trace (snd inserted)) = None ->
  w_sqlite_error w (SqliteSelect [id] :: trace (snd committed)) = None ->
  fst (fetch_metadata_from_sqlite w [id] (snd inserted))
  = Ok (map row_to_record (select_in (table s) [id])) /\
  fst (fetch_metadata_from_sqlite w [id] (snd committed))
  = Ok [[("vector_id", id); ("patent_number", pn); ("title", ti);
         ("detailed_summary", su)]].
Proof.
  intros inserted committed Hins Hcommit Hsel1 Hsel2. subst committed inserted.
  rewrite (fetch_metadata_ok _ _ _ Hsel1), (fetch_metadata_ok _ _ _ Hsel2).
  rewrite insert_metadata_table. split; [reflexivity|].
  rewrite (close_sqlite_ok _ _ Hcommit), (insert_metadata_ok _ _ _ _ _ _ _ _ _ Hins).
  cbn [snd table view pending].
  change [id] with [vector_id (mkRow id pn ti de ab cl su)].
  now rewrite select_inserted.
Qed.

Lemma insert_commit_fetch_round_trip_witness :
  let w := Sample.specific_world in
  let inserted := sqlite_helper.insert_metadata w "US1_chunk_0_ab12cd34" "US1b"
                    "New title" "d" "a" "c" "New summary" Sample.state0 in
  let committed := sqlite_helper.close_sqlite w (snd inserted) in
  fst (fetch_metadata_from_sqlite w ["US1_chunk_0_ab12cd34"] (snd inserted))
  = Ok [row_to_record Sample.row1] /\
  fst (fetch_metadata_from_sqlite w ["US1_chunk_0_ab12cd34"] (snd committed))
  = Ok [[("vector_id", "US1_chunk_0_ab12cd34"); ("patent_number", "US1b");
         ("title", "New title"); ("detailed_summary", "New summary")]].
Proof.
  apply (insert_commit_fetch_round_trip Sample.specific_world
           "US1_chunk_0_ab12cd34" "US1b" "New title" "d" "a" "c" "New summary"
           Sample.state0); reflexivity.
Defined.

(** X2: an insert leaves the records of all other identifiers as they were:
    a fetch that does not ask for the inserted identifier returns what it
    would have returned before the insert, and after the commit of
    [close_sqlite] it returns for these identifiers what the connection of
    the ingestion saw for them before the insert. *)
Theorem insert_keeps_other_records (w : World) (id pn ti de ab cl su : string)
    (ids : list string) (s : State) :
  let after := sqlite_helper.insert_metadata w id pn ti de ab cl su s in
  let committed := sqlite_helper.close_sqlite w (snd after) in
  ~ In id ids ->
  w_sqlite_error w (SqliteSelect ids :: trace (snd after)) = None ->
  fst (fetch_metadata_from_sqlite w ids (snd after))
  = Ok (map row_to_record (select_in (table s) ids)) /\
  (fst after = Ok tt -> fst committed = Ok tt ->
   w_sqlite_error w (SqliteSelect ids :: trace (snd committed)) = None ->
   fst (fetch_metadata_from_sqlite w ids (snd committed))
   = Ok (map row_to_record (select_in (view s) ids))).
Proof.
  intros after committed Hnot Hsel. subst committed after. split.
  - rewrite (fetch_metadata_ok _ _ _ Hsel). now rewrite insert_metadata_table.
  - intros Hins Hcommit Hsel2.
    rewrite (fetch_metadata_ok _ _ _ Hsel2).
    rewrite (close_sqlite_ok _ _ Hcommit), (insert_metadata_ok _ _ _ _ _ _ _ _ _ Hins).
    cbn [snd table view pending]. do 2 f_equal.
    now apply (filter_other_keys (mkRow id pn ti de ab cl su)).
Qed.

Lemma insert_keeps_other_records_witness :
  let w := Sample.specific_world in
  let after := sqlite_helper.insert_metadata w "US1_chunk_0_ab12cd34" "US1b"
                 "New title" "d" "a" "c" "New summary" Sample.state0 in
  let committed := sqlite_helper.close_sqlite w (snd after) in
  fst (fetch_metadata_from_sqlite w ["US2_chunk_0_ef56ab78"] (snd after))
  = Ok [row_to_record Sample.row2] /\
  fst (fetch_metadata_from_sqlite w ["US2_chunk_0_ef56ab78"] (snd committed))
  = Ok [row_to_record Sample.row2].
Proof.
  destruct (insert_keeps_other_records Sample.specific_world
              "US1_chunk_0_ab12cd34" "US1b" "New title" "d" "a" "c" "New summary"
              ["US2_chunk_0_ef56ab78"] Sample.state0) as [Hbefore Hafter].
  - simpl. intros [H|[]]. discriminate.
  - reflexivity.
  - split; [exact Hbefore|]. apply Hafter; reflexivity.
Defined.

Lemma filter_neq_length (id : string) (t : list StoredRow) :
  NoDup (map vector_id t) ->
  length (filter (fun x => negb (String.eqb (vector_id x) id)) t)
  = if PyStr.mem id (map vector_id t) then length t - 1 else length t.
Proof.
  induction t as [|x t IH]; [reflexivity|].
  intro Hnd. simpl in Hnd. inversion Hnd as [|y l Hnotin Hnd']; subst.
  specialize (IH Hnd'). simpl.
  unfold PyStr.mem in *. simpl.
  rewrite (String.eqb_sym id (vector_id x)).
  destruct (String.eqb_spec (vector_id x) id) as [E|NE]; simpl.
  - subst id.
    destruct (existsb (String.eqb (vector_id x)) (map vector_id t)) eqn:Hex.
    + apply existsb_exists in Hex. destruct Hex as [y [Hy E]].
      apply String.eqb_eq in E. subst y. contradiction.
    + rewrite IH. lia.
  - rewrite IH.
    destruct (existsb (String.eqb id) (map vector_id t)) eqn:Hex; [|reflexivity].
    apply existsb_exists in Hex. destruct Hex as [y [Hy _]].
    destruct t; [contradiction | simpl; lia].
Qed.

Lemma insert_or_replace_size (r : StoredRow) (t : list StoredRow) :
  pk_unique t ->
  length (sqlite_helper.insert_or_replace r t)
  = if PyStr.mem (vector_id r) (map vector_id t) then length t else S (length t).
Proof.
  intro Hkey. unfold sqlite_helper.insert_or_replace.
  rewrite length_app, (filter_neq_length _ _ Hkey). simpl.
  destruct (PyStr.mem (vector_id r) (map vector_id t)) eqn:Hm; [|lia].
  apply mem_In in Hm. destruct t; [contradiction | simpl; lia].
Qed.

(** X3: on rows in which [vector_id] is a key, a successful
    [insert_metadata] keeps it a key, adds one row when the identifier is new
    and replaces the stored row, the number of rows staying the same, when the
    identifier is already there.  The rows are those that the connection of
    the ingestion sees; the database file is not changed by the insert. *)
Theorem insert_metadata_replaces (w : World) (id pn ti de ab cl su : string) (s : State) :
  let after := sqlite_helper.insert_metadata w id pn ti de ab cl su s in
  pk_unique (view s) ->
  fst after = Ok tt ->
  pk_unique (view (snd after)) /\
  length (view (snd after))
  = (if PyStr.mem id (map vector_id (view s))
     then length (view s) else S (length (view s))) /\
  table (snd after) = table s.
Proof.
  intros after Hkey Hok. subst after. split; [|split].
  - now apply insert_metadata_pk_unique.
  - rewrite (insert_metadata_ok w id pn ti de ab cl su s Hok).
    cbn [snd view pending]. now rewrite insert_or_replace_size.
  - apply insert_metadata_table.
Qed.

Lemma insert_metadata_replaces_witness :
  let after := sqlite_helper.insert_metadata Sample.specific_world
                 "US1_chunk_0_ab12cd34" "US1b" "t" "d" "a" "c" "s" Sample.state0 in
  pk_unique (view (snd after)) /\ length (view (snd after)) = 2 /\
  table (snd after) = Sample.table0.
Proof.
  refine (insert_metadata_replaces Sample.specific_world
            "US1_chunk_0_ab12cd34" "US1b" "t" "d" "a" "c" "s" Sample.state0 _ _).
  - unfold pk_unique. simpl.
    constructor; [simpl; intros [H|[]]; discriminate|].
    constructor; [intros []|constructor].
  - reflexivity.
Defined.

(** A replaced row is fetched in the place of its key, not last. *)
Example fetch_after_replace_and_commit :
  let w := Sample.specific_world in
  let inserted := sqlite_helper.insert_metadata w "US1_chunk_0_ab12cd34" "US1b"
                    "New title" "d" "a" "c" "New summary" Sample.state0 in
  let committed := sqlite_helper.close_sqlite w (snd inserted) in
  map patent_number (table (snd committed)) = ["US2"; "US1b"] /\
  fst (fetch_metadata_from_sqlite w ["US2_chunk_0_ef56ab78"; "US1_chunk_0_ab12cd34"]
         (snd committed))
  = Ok [[("vector_id", "US1_chunk_0_ab12cd34"); ("patent_number", "US1b");
         ("title", "New title"); ("detailed_summary", "New summary")];
        row_to_record Sample.row2].
Proof. split; vm_compute; reflexivity. Qed.

(** ** The helpers of the ingestion *)

(** X4: [extract_english_field] reads the first entry tagged EN and no
    other: its result is the value of the field in that entry, or the empty
    string when that entry lacks the field, whatever the later entries hold,
    and the empty string when no entry is tagged EN. *)
Theorem extract_english_field_first_en (entries : list Entry) (field_name : string) :
  (forallb (fun e => negb (lang_is_en e)) entries = true ->
   extract_english_field entries field_name = "") /\
  (forall before entry after,
     entries = before ++ entry :: after ->
     forallb (fun e => negb (lang_is_en e)) before = true ->
     lang_is_en entry = true ->
     extract_english_field entries field_name
     = get_or (dict_get field_name entry) "").
Proof.
  split.
  - induction entries as [|e entries IH]; [reflexivity|].
    simpl. intro H. apply andb_true_iff in H. destruct H as [He H].
    apply negb_true_iff in He. rewrite He. now apply IH.
  - intros before entry after Hsplit. subst entries.
    induction before as [|e before IH]; simpl; intros Hb Hen.
    + now rewrite Hen.
    + apply andb_true_iff in Hb. destruct Hb as [He Hb].
      apply negb_true_iff in He. rewrite He. now apply IH.
Qed.

Lemma extract_english_field_first_en_witness :
  extract_english_field
    [[("lang", "DE"); ("text", "Titel")];
     [("lang", "EN")];
     [("lang", "EN"); ("text", "Title")]] "text" = "".
Proof.
  refine (proj2 (extract_english_field_first_en _ "text")
            [[("lang", "DE"); ("text", "Titel")]] [("lang", "EN")]
            [[("lang", "EN"); ("text", "Title")]] _ _ _); reflexivity.
Defined.

(** X5: [upsert_hybrid_vector] never raises and never touches the metadata
    store.  It first tries the vector with its sparse values; when that call
    succeeds it is the only call and the vector is stored under its
    identifier; when it raises, one more call is made, without sparse values,
    and when that one raises too the index is left as it was. *)
Theorem upsert_hybrid_vector_fallback (w : World) (id : string) (dense : list Z)
    (sparse : option SparseEmbedding) (meta : list (string * string)) (s : State) :
  let hybrid_vector := mkVectorData id dense meta sparse in
  let dense_vector := mkVectorData id dense meta None in
  let store v := filter (fun x => negb (String.eqb (vd_id x) id)) (vectors s) ++ [v] in
  let run := pinecone_helper.upsert_hybrid_vector w id dense sparse meta s in
  fst run = Ok tt /\
  table (snd run) = table s /\
  match w_upsert w (trace s) hybrid_vector with
  | None =>
      trace (snd run) = IndexUpsert hybrid_vector :: trace s /\
      vectors (snd run) = store hybrid_vector
  | Some _ =>
      trace (snd run) = IndexUpsert dense_vector :: IndexUpsert hybrid_vector :: trace s /\
      vectors (snd run)
      = match w_upsert w (IndexUpsert hybrid_vector :: trace s) dense_vector with
        | None => store dense_vector
        | Some _ => vectors s
        end
  end.
Proof.
  unfold pinecone_helper.upsert_hybrid_vector, try_except, index_upsert, bind,
    get_trace, log, raise, ret. simpl.
  destruct (w_upsert w (trace s) _) as [msg|]; simpl.
  - destruct (w_upsert w _ _) as [msg'|]; simpl; repeat split.
  - repeat split.
Qed.

(** X6: a patent file whose [claims] key holds an empty list is not
    skipped: reading [claims][0] raises, nothing catches it, and the loop over
    the files stops there with nothing written for this file or the ones
    after it. *)
Theorem empty_claims_list_stops_the_run (w : World) (file_idx : nat) (patent : Patent)
    (rest : list (option Patent)) (total_chunks : nat) (s : State) :
  p_claims patent = Some [] ->
  process_files w file_idx (Some patent :: rest) total_chunks s
  = (Raise "list index out of range", s).
Proof.
  intro Hclaims. simpl. unfold bind, process_patent, claims_data_of.
  rewrite Hclaims. reflexivity.
Qed.

Lemma empty_claims_list_stops_the_run_witness :
  process_files Sample.specific_world 0
    [Some (mkPatent (Some "US5") None None None (Some []));
     Some Sample.patent_without_text] 0 Sample.empty_state
  = (Raise "list index out of range", Sample.empty_state).
Proof.
  apply (empty_claims_list_stops_the_run Sample.specific_world 0
           (mkPatent (Some "US5") None None None (Some []))).
  reflexivity.
Defined.

Lemma process_patent_cases (w : World) (file_idx : nat) (patent : Patent)
    (total_chunks : nat) (s : State) :
  process_patent w file_idx patent total_chunks s = (Ok total_chunks, s) \/
  exists msg, process_patent w file_idx patent total_chunks s = (Raise msg, s).
Proof.
  unfold process_patent.
  destruct (claims_data_of patent) as [claims_data|msg]; [|right; now exists msg].
  cbv zeta. destruct (negb (PyStr.truthy _)); [now left|].
  right. eexists. reflexivity.
Qed.

Lemma process_files_cases (w : World) (files : list (option Patent)) (file_idx : nat)
    (total_chunks : nat) (s : State) :
  process_files w file_idx files total_chunks s = (Ok total_chunks, s) \/
  exists msg, process_files w file_idx files total_chunks s = (Raise msg, s).
Proof.
  revert file_idx. induction files as [|[patent|] files IH]; intro file_idx; simpl.
  - now left.
  - unfold bind.
    destruct (process_patent_cases w file_idx patent total_chunks s) as [H|[msg H]];
      rewrite H; [apply IH | right; now exists msg].
  - apply IH.
Qed.

(** X7: as the code stands, a run of [process_and_upsert_patents] writes no
    row and no vector.  Whatever the files are and whatever the services
    answer, it calls no embedding provider, no text generation and no vector
    index.  On SQLite it runs the [CREATE TABLE IF NOT EXISTS] of
    [init_sqlite] and, when no file stops it, the commit of [close_sqlite],
    which finds nothing to commit: the rows of the database file and the
    vector index are left as they were.  The run ends with a count of 0 or
    with an exception.  (The count is 0 exactly when no file that loads has
    text; a file with text raises the [TypeError] of the one-argument call of
    [generate_summary].) *)
Theorem ingestion_run_writes_no_row (w : World) (files : list (option Patent))
    (s : State) :
  let run := process_and_upsert_patents w files s in
  (trace (snd run) = SqliteCreateTable :: trace s \/
   trace (snd run) = SqliteCommit :: SqliteCreateTable :: trace s) /\
  table (snd run) = table s /\
  vectors (snd run) = vectors s /\
  (pending (snd run) = None \/ pending (snd run) = pending s) /\
  (fst run = Ok 0 \/ exists msg, fst run = Raise msg).
Proof.
  unfold process_and_upsert_patents, sqlite_helper.init_sqlite,
    sqlite_helper.close_sqlite, sqlite_guard, bind, get_trace, log, raise, ret. simpl.
  destruct (w_sqlite_error w (SqliteCreateTable :: trace s)) as [msg|]; simpl.
  { repeat split; auto. right. now exists msg. }
  match goal with
  | |- context [process_files w 0 files 0 ?s1] =>
      destruct (process_files_cases w files 0 0 s1) as [H|[msg H]]; rewrite H; simpl
  end.
  - destruct (w_sqlite_error w _) as [msg|]; simpl.
    + repeat split; auto. right. now exists msg.
    + repeat split; auto.
  - repeat split; auto. right. now exists msg.
Qed.

(** ** The loop over the chunks of a document *)

Section ChunkLoopMore.

Variable w : World.
Variables patent_number_ title_ description_ abstract_ claims_text_ detailed_summary_ : string.

Let loop := upsert_chunks w patent_number_ title_ description_ abstract_ claims_text_
              detailed_summary_.
Let P := records_of_document patent_number_ title_ description_ abstract_ claims_text_
           detailed_summary_.

Lemma no_insert_filter (calls : list Event) :
  inserts calls = 0 -> filter is_insert calls = [].
Proof. unfold inserts. now destruct (filter is_insert calls). Qed.

Lemma no_insert_in (calls : list Event) (r : StoredRow) :
  inserts calls = 0 -> ~ In (SqliteInsert r) calls.
Proof.
  intros Hz Hin.
  assert (Hf : In (SqliteInsert r) (filter is_insert calls)) by (apply filter_In; now split).
  now rewrite (no_insert_filter _ Hz) in Hf.
Qed.

(** A call of [c2 ++ c1] is a call of [c2] or a call of [c1]. *)
Lemma split_at_call (c2 c1 later earlier : list Event) (e : Event) :
  c2 ++ c1 = later ++ e :: earlier ->
  (exists mid, c2 = later ++ e :: mid /\ earlier = mid ++ c1) \/
  (exists mid, later = c2 ++ mid /\ c1 = mid ++ e :: earlier).
Proof.
  revert later. induction c2 as [|a c2 IH]; intros later H; simpl in H.
  - right. now exists later.
  - destruct later as [|x later]; simpl in H; injection H as Ha H.
    + left. exists c2. subst. now split.
    + subst x. destruct (IH later H) as [[mid [H2 He]]|[mid [Hl H1]]].
      * left. exists mid. subst. now split.
      * right. exists mid. subst. now split.
Qed.

Lemma records_of_document_none (chunk_idx n : nat) (calls : list Event) :
  inserts calls = 0 -> P chunk_idx n calls.
Proof.
  intro Hz. split.
  - exists []. rewrite (no_insert_filter _ Hz). repeat split; constructor.
  - intros later r earlier Hcalls. exfalso. apply (no_insert_in calls r Hz).
    rewrite Hcalls. apply in_or_app. right. now left.
Qed.

Lemma records_of_document_app (chunk_idx n : nat) (c1 c2 : list Event) :
  P chunk_idx 1 c1 -> P (S chunk_idx) n c2 -> P chunk_idx (S n) (c2 ++ c1).
Proof.
  intros [[w1 [Hf1 [Hnd1 Hr1]]] Hb1] [[w2 [Hf2 [Hnd2 Hr2]]] Hb2]. split.
  - exists (w2 ++ w1). rewrite filter_app, Hf1, Hf2, map_app. split; [reflexivity|].
    rewrite Forall_forall in Hr1, Hr2. split.
    + rewrite map_app. apply NoDup_app; [exact Hnd2 | exact Hnd1 |].
      intros i Hi2 Hi1.
      apply in_map_iff in Hi1. destruct Hi1 as [x1 [E1 Hx1]].
      apply in_map_iff in Hi2. destruct Hi2 as [x2 [E2 Hx2]].
      specialize (Hr1 x1 Hx1). specialize (Hr2 x2 Hx2). lia.
    + apply Forall_forall. intros x Hx. apply in_app_or in Hx.
      destruct Hx as [Hx|Hx]; [specialize (Hr2 x Hx) | specialize (Hr1 x Hx)]; lia.
  - intros later r earlier Hcalls.
    destruct (split_at_call _ _ _ _ _ Hcalls) as [[mid [H2 He]]|[mid [Hl H1]]].
    + destruct (Hb2 later r mid H2) as [v [before [Hm [Hid Hmeta]]]].
      exists v, (before ++ c1). subst. now repeat split.
    + exact (Hb1 mid r earlier H1).
Qed.

Lemma upsert_chunks_cons (chunk_idx : nat) (chunk : string) (rest : list string)
    (total_chunks : nat) :
  loop chunk_idx (chunk :: rest) total_chunks
  = (u <- uuid4_prefix w ;;
     dense_embedding <- gemini_helper.generate_dense_embedding w chunk ;;
     match dense_embedding with
     | None => loop (S chunk_idx) rest total_chunks
     | Some dense =>
         sparse_embedding <- pinecone_helper.generate_sparse_embedding w chunk ;;
         match sparse_embedding with
         | None => loop (S chunk_idx) rest total_chunks
         | Some sparse =>
             pinecone_helper.upsert_hybrid_vector w
               (patent_number_ ++ "_chunk_" ++ PyStr.of_nat chunk_idx ++ "_" ++ u)%string
               dense (Some sparse)
               [("patent_number", patent_number_); ("title", title_)] ;;;
             sqlite_helper.insert_metadata w
               (patent_number_ ++ "_chunk_" ++ PyStr.of_nat chunk_idx ++ "_" ++ u)%string
               patent_number_ title_ description_ abstract_ claims_text_
               detailed_summary_ ;;;
             loop (S chunk_idx) rest (total_chunks + 1)
         end
     end).
Proof. reflexivity. Qed.

(** One turn of the loop: it goes on with the next chunk or raises, having
    made at most one insert. *)
Lemma upsert_chunks_iteration (chunk_idx : nat) (chunk : string) (rest : list string)
    (total_chunks : nat) (s : State) :
  exists calls s1,
    trace s1 = calls ++ trace s /\ inserts calls <= 1 /\ P chunk_idx 1 calls /\
    ((exists total', loop chunk_idx (chunk :: rest) total_chunks s
                     = loop (S chunk_idx) rest total' s1) \/
     (exists msg, loop chunk_idx (chunk :: rest) total_chunks s = (Raise msg, s1))).
Proof.
  remember (loop chunk_idx (chunk :: rest) total_chunks s) as X eqn:HX.
  rewrite upsert_chunks_cons in HX.
  unfold bind at 1 in HX. rewrite uuid4_prefix_run in HX.
  set (s1 := called Uuid4 s) in *.
  unfold bind at 1 in HX.
  destruct (dense_embedding_inserts w chunk s1) as [c1 [Htr1 Hi1]].
  destruct (gemini_helper.generate_dense_embedding w chunk s1) as [[[dense|]|msg] s2];
    simpl in Htr1.
  2:{ exists (c1 ++ [Uuid4]), s2. split; [rewrite Htr1; unfold s1; simpl;
        now rewrite <- app_assoc|].
      assert (Hz : inserts (c1 ++ [Uuid4]) = 0) by (rewrite inserts_app, Hi1; reflexivity).
      split; [lia|]. split; [now apply records_of_document_none|].
      left. now exists total_chunks. }
  2:{ exists (c1 ++ [Uuid4]), s2. split; [rewrite Htr1; unfold s1; simpl;
        now rewrite <- app_assoc|].
      assert (Hz : inserts (c1 ++ [Uuid4]) = 0) by (rewrite inserts_app, Hi1; reflexivity).
      split; [lia|]. split; [now apply records_of_document_none|].
      right. now exists msg. }
  unfold bind at 1 in HX.
  destruct (sparse_embedding_inserts w chunk s2) as [c2 [Htr2 Hi2]].
  destruct (pinecone_helper.generate_sparse_embedding w chunk s2) as [[[sparse|]|msg] s3];
    simpl in Htr2.
  2:{ exists (c2 ++ c1 ++ [Uuid4]), s3. split; [rewrite Htr2, Htr1; unfold s1; simpl;
        now rewrite <- !app_assoc|].
      assert (Hz : inserts (c2 ++ c1 ++ [Uuid4]) = 0)
        by (rewrite !inserts_app, Hi1, Hi2; reflexivity).
      split; [lia|]. split; [now apply records_of_document_none|].
      left. now exists total_chunks. }
  2:{ exists (c2 ++ c1 ++ [Uuid4]), s3. split; [rewrite Htr2, Htr1; unfold s1; simpl;
        now rewrite <- !app_assoc|].
      assert (Hz : inserts (c2 ++ c1 ++ [Uuid4]) = 0)
        by (rewrite !inserts_app, Hi1, Hi2; reflexivity).
      split; [lia|]. split; [now apply records_of_document_none|].
      right. now exists msg. }
  unfold bind at 1 in HX.
  set (vid := (patent_number_ ++ "_chunk_" ++ PyStr.of_nat chunk_idx ++ "_"
               ++ w_uuid w (trace s))%string) in *.
  set (meta := [("patent_number", patent_number_); ("title", title_)]) in *.
  destruct (upsert_hybrid_vector_fallback w vid dense (Some sparse) meta s3)
    as [Hok [_ Hup]].
  assert (Hcalls : exists v c3,
            trace (snd (pinecone_helper.upsert_hybrid_vector w vid dense (Some sparse)
                          meta s3)) = (IndexUpsert v :: c3) ++ trace s3 /\
            inserts (IndexUpsert v :: c3) = 0 /\
            vd_id v = vid /\ vd_metadata v = meta).
  { destruct (w_upsert w (trace s3) _) as [m|]; destruct Hup as [Htr _].
    - eexists _, [_]. split; [exact Htr|]. now repeat split.
    - eexists _, []. split; [exact Htr|]. now repeat split. }
  clear Hup. destruct Hcalls as [v [c3 [Htr3 [Hi3 [Hvid Hvmeta]]]]].
  destruct (pinecone_helper.upsert_hybrid_vector w vid dense (Some sparse) meta s3)
    as [r4 s4]. simpl in Hok, Htr3. subst r4.
  unfold bind at 1 in HX.
  set (row := mkRow vid patent_number_ title_ description_ abstract_ claims_text_
                detailed_summary_).
  assert (Hins : trace (snd (sqlite_helper.insert_metadata w vid patent_number_ title_
                               description_ abstract_ claims_text_ detailed_summary_ s4))
                 = SqliteInsert row :: trace s4).
  { unfold sqlite_helper.insert_metadata, sqlite_guard, bind, get_trace, log, raise, ret.
    simpl. now destruct (w_sqlite_error w _). }
  destruct (sqlite_helper.insert_metadata w vid patent_number_ title_ description_
              abstract_ claims_text_ detailed_summary_ s4) as [r5 s5].
  simpl in Hins.
  assert (Hz : inserts ((IndexUpsert v :: c3) ++ c2 ++ c1 ++ [Uuid4]) = 0)
    by (rewrite !inserts_app, Hi1, Hi2, Hi3; reflexivity).
  exists (SqliteInsert row :: (IndexUpsert v :: c3) ++ c2 ++ c1 ++ [Uuid4]), s5.
  split.
  { rewrite Hins, Htr3, Htr2, Htr1. unfold s1. simpl. now rewrite <- !app_assoc. }
  split.
  { change (inserts ([SqliteInsert row] ++ (IndexUpsert v :: c3) ++ c2 ++ c1 ++ [Uuid4]) <= 1).
    rewrite inserts_app, Hz. unfold inserts. simpl. lia. }
  split.
  { split.
    - exists [(chunk_idx, w_uuid w (trace s))].
      cbn [filter is_insert]. rewrite (no_insert_filter _ Hz).
      split; [reflexivity|]. split.
      + constructor; [intros []|constructor].
      + constructor; [simpl; lia|constructor].
    - intros later r earlier Hsplit. destruct later as [|e later]; simpl in Hsplit.
      + injection Hsplit as Hr He. subst r earlier.
        exists v, (c3 ++ c2 ++ c1 ++ [Uuid4]). now repeat split.
      + exfalso. injection Hsplit as _ Hrest.
        apply (no_insert_in _ r Hz).
        change (In (SqliteInsert r) (IndexUpsert v :: c3 ++ c2 ++ c1 ++ [Uuid4])).
        rewrite Hrest. apply in_or_app. right. now left. }
  destruct r5 as [[]|msg]; [left; now exists (total_chunks + 1) | right; now exists msg].
Qed.

Lemma upsert_chunks_records (chunks : list string) (chunk_idx total_chunks : nat)
    (s : State) :
  exists calls,
    trace (snd (loop chunk_idx chunks total_chunks s)) = calls ++ trace s /\
    inserts calls <= length chunks /\
    P chunk_idx (length chunks) calls.
Proof.
  revert chunk_idx total_chunks s.
  induction chunks as [|chunk rest IH]; intros chunk_idx total_chunks s.
  - exists []. split; [reflexivity|]. split; [unfold inserts; simpl; lia|].
    now apply records_of_document_none.
  - destruct (upsert_chunks_iteration chunk_idx chunk rest total_chunks s)
      as [c1 [s1 [Htr1 [Hi1 [HP1 [[total' Hgo]|[msg Hstop]]]]]]].
    + rewrite Hgo. destruct (IH (S chunk_idx) total' s1) as [c2 [Htr2 [Hi2 HP2]]].
      exists (c2 ++ c1). split; [rewrite Htr2, Htr1; now rewrite app_assoc|].
      split; [rewrite inserts_app; simpl; lia|].
      now apply records_of_document_app.
    + rewrite Hstop. simpl. exists c1. split; [exact Htr1|].
      split; [simpl; lia|].
      replace c1 with ([] ++ c1) by reflexivity.
      apply records_of_document_app; [exact HP1|].
      now apply records_of_document_none.
Qed.

End ChunkLoopMore.

(** X8: whatever the services do, the loop over the chunks of a document
    inserts at most one record per chunk: the records inserted are those of
    distinct chunks of the document, each with the fields of the document and
    an identifier built from the patent number, the index of its chunk and a
    suffix.  The call made just before every insert is an upsert into the
    vector index under the identifier of the inserted record, with the patent
    number and the title as metadata. *)
Theorem upsert_chunks_writes_document_records (w : World)
    (patent_number_ title_ description_ abstract_ claims_text_ detailed_summary_ : string)
    (chunks : list string) (chunk_idx total_chunks : nat) (s : State) :
  exists calls,
    trace (snd (upsert_chunks w patent_number_ title_ description_ abstract_
                  claims_text_ detailed_summary_ chunk_idx chunks total_chunks s))
    = calls ++ trace s /\
    inserts calls <= length chunks /\
    records_of_document patent_number_ title_ description_ abstract_ claims_text_
      detailed_summary_ chunk_idx (length chunks) calls.
Proof. apply upsert_chunks_records. Qed.



Lemma not_blank_truthy (text : string) : not_blank text = true -> PyStr.truthy text = true.
Proof. unfold not_blank. now destruct text. Qed.

Lemma generate_dense_embedding_run (w : World) (text : string) (s : State) :
  not_blank text = true ->
  gemini_helper.generate_dense_embedding w text s
  = (Ok (w_embed w (trace s) text), called (EmbedContent text) s).
Proof.
  intro H. unfold gemini_helper.generate_dense_embedding.
  rewrite (not_blank_truthy _ H). unfold not_blank in H. rewrite H. reflexivity.
Qed.

Lemma generate_sparse_embedding_run (w : World) (text : string) (s : State) :
  not_blank text = true ->
  pinecone_helper.generate_sparse_embedding w text s
  = (Ok (w_sparse w (trace s) text), called (InferenceEmbed text) s).
Proof.
  intro H. unfold pinecone_helper.generate_sparse_embedding.
  rewrite (not_blank_truthy _ H). unfold not_blank in H. rewrite H. reflexivity.
Qed.

(** X9: the two stores are not written as one.  When the vector index is
    down while the embedding providers and SQLite work, the loop over the
    chunks still inserts one record per chunk into the metadata store and
    counts every chunk, and the index holds none of them. *)
Theorem index_down_records_still_inserted (w : World)
    (patent_number_ title_ description_ abstract_ claims_text_ detailed_summary_ : string)
    (chunks : list string) (chunk_idx total_chunks : nat) (s : State) :
  index_down w -> sqlite_up w -> embeddings_up w ->
  forallb not_blank chunks = true ->
  let run := upsert_chunks w patent_number_ title_ description_ abstract_ claims_text_
               detailed_summary_ chunk_idx chunks total_chunks s in
  fst run = Ok (total_chunks + length chunks) /\
  vectors (snd run) = vectors s /\
  exists calls, trace (snd run) = calls ++ trace s /\ inserts calls = length chunks.
Proof.
  intros Hindex Hsqlite Hemb.
  revert chunk_idx total_chunks s.
  induction chunks as [|chunk rest IH]; intros chunk_idx total_chunks s Hnb run.
  - subst run. simpl. rewrite Nat.add_0_r. repeat split. now exists [].
  - simpl in Hnb. apply andb_true_iff in Hnb. destruct Hnb as [Hc Hrest].
    subst run.
    remember (upsert_chunks w patent_number_ title_ description_ abstract_ claims_text_
                detailed_summary_ chunk_idx (chunk :: rest) total_chunks s) as X eqn:HX.
    rewrite upsert_chunks_cons in HX.
    unfold bind at 1 in HX. rewrite uuid4_prefix_run in HX.
    unfold bind at 1 in HX. rewrite (generate_dense_embedding_run _ _ _ Hc) in HX.
    destruct (Hemb (trace (called Uuid4 s)) chunk) as [Hd _].
    destruct (w_embed w (trace (called Uuid4 s)) chunk) as [dense|]; [|congruence].
    unfold bind at 1 in HX. rewrite (generate_sparse_embedding_run _ _ _ Hc) in HX.
    set (s2 := called (EmbedContent chunk) (called Uuid4 s)) in *.
    destruct (Hemb (trace s2) chunk) as [_ Hs].
    destruct (w_sparse w (trace s2) chunk) as [sparse|]; [|congruence].
    set (s3 := called (InferenceEmbed chunk) s2) in *.
    unfold bind at 1 in HX.
    match type of HX with
    | context [pinecone_helper.upsert_hybrid_vector w ?id ?d ?sp ?m s3] =>
        destruct (upsert_hybrid_vector_fallback w id d sp m s3) as [Hok [Htab Hup]];
        destruct (Hindex (trace s3) (mkVectorData id d m sp)) as [m1 Hm1];
        rewrite Hm1 in Hup; destruct Hup as [Htr Hvec];
        destruct (Hindex (IndexUpsert (mkVectorData id d m sp) :: trace s3)
                    (mkVectorData id d m None)) as [m2 Hm2];
        rewrite Hm2 in Hvec;
        destruct (pinecone_helper.upsert_hybrid_vector w id d sp m s3) as [r4 s4]
    end.
    simpl in Hok, Htab, Htr, Hvec. subst r4.
    unfold bind at 1 in HX.
    match type of HX with
    | context [sqlite_helper.insert_metadata w ?a ?b ?c ?d ?e ?f ?g s4] =>
        assert (Hins : sqlite_helper.insert_metadata w a b c d e f g s4
                       = (Ok tt,
                          mkState (SqliteInsert (mkRow a b c d e f g) :: trace s4)
                            (table s4) (vectors s4)
                            (Some (sqlite_helper.insert_or_replace (mkRow a b c d e f g)
                                     (view s4)))))
    end.
    { unfold sqlite_helper.insert_metadata, sqlite_guard, bind, get_trace, log, raise, ret.
      simpl. now rewrite Hsqlite. }
    rewrite Hins in HX. cbv beta iota in HX.
    match type of HX with
    | context [upsert_chunks _ _ _ _ _ _ _ _ rest _ ?s5] =>
        destruct (IH (S chunk_idx) (total_chunks + 1) s5 Hrest) as [Hn [Hv [calls [Hc2 Hi]]]]
    end.
    rewrite HX.
    split; [rewrite Hn; f_equal; simpl; lia|].
    split; [rewrite Hv; simpl; exact Hvec|].
    eexists (calls ++ [_; _; _; _; _; _]). split.
    + rewrite Hc2. simpl. rewrite Htr. unfold s3, s2. simpl.
      rewrite <- app_assoc. reflexivity.
    + rewrite inserts_app, Hi. unfold inserts. simpl. lia.
Qed.

Lemma index_down_records_still_inserted_witness :
  let run := upsert_chunks Sample2.index_down_world "US4" "Prefetcher" ""
               "A stride prefetcher." "1. A prefetcher." "A summary."
               0 ["first chunk"; "second chunk"] 0 Sample.empty_state in
  fst run = Ok (0 + 2) /\
  vectors (snd run) = [] /\
  exists calls, trace (snd run) = calls ++ [] /\ inserts calls = 2.
Proof.
  apply (index_down_records_still_inserted Sample2.index_down_world "US4" "Prefetcher" ""
           "A stride prefetcher." "1. A prefetcher." "A summary."
           ["first chunk"; "second chunk"] 0 0 Sample.empty_state).
  - intros tr v. exists "index unavailable". reflexivity.
  - intro tr. reflexivity.
  - intros tr text. split; discriminate.
  - reflexivity.
Defined.

(** ** backend/followup_helper.py *)

Import followup_helper.

Lemma lower_char_idem (c : ascii) : PyStr.lower_char (PyStr.lower_char c) = PyStr.lower_char c.
Proof. destruct c as [[] [] [] [] [] [] [] []]; reflexivity. Qed.

Lemma lower_idem (s : string) : PyStr.lower (PyStr.lower s) = PyStr.lower s.
Proof.
  induction s as [|c s IH]; [reflexivity|].
  rewrite !lower_cons, lower_char_idem. now rewrite IH.
Qed.

Lemma rstrip_cons_nonspace (c : ascii) (s : string) :
  PyStr.isspace c = false ->
  exists r, PyStr.rstrip (String c s) = String c r.
Proof.
  intro Hc. cbn [PyStr.rstrip]. rewrite Hc.
  destruct (PyStr.rstrip s) as [|c' r]; eexists; reflexivity.
Qed.

Lemma rstrip_idem (s : string) : PyStr.rstrip (PyStr.rstrip s) = PyStr.rstrip s.
Proof.
  induction s as [|c s IH]; [reflexivity|].
  cbn [PyStr.rstrip].
  destruct (PyStr.rstrip s) as [|c' r] eqn:Hr.
  - destruct (PyStr.isspace c) eqn:Hc; [reflexivity|].
    cbn [PyStr.rstrip]. now rewrite Hc.
  - cbn [PyStr.rstrip]. cbn [PyStr.rstrip] in IH.
    destruct (PyStr.rstrip r) as [|c'' r'] eqn:Hr'.
    + destruct (PyStr.isspace c'); [discriminate|]. now rewrite IH.
    + now rewrite IH.
Qed.

Lemma lstrip_head (s : string) :
  PyStr.lstrip s = EmptyString \/
  exists c r, PyStr.lstrip s = String c r /\ PyStr.isspace c = false.
Proof.
  induction s as [|c s IH]; [now left|].
  cbn [PyStr.lstrip]. destruct (PyStr.isspace c) eqn:Hc; [exact IH|].
  right. now exists c, s.
Qed.

Lemma strip_idem (s : string) : PyStr.strip (PyStr.strip s) = PyStr.strip s.
Proof.
  unfold PyStr.strip.
  destruct (lstrip_head s) as [E|[c [r [E Hc]]]]; rewrite E; [reflexivity|].
  destruct (rstrip_cons_nonspace c r Hc) as [r' Hr'].
  rewrite Hr'. cbn [PyStr.lstrip]. rewrite Hc, <- Hr'. apply rstrip_idem.
Qed.

Lemma strip_nonblank (c : ascii) (s : string) :
  PyStr.isspace c = false -> PyStr.truthy (PyStr.strip (String c s)) = true.
Proof.
  intro Hc. unfold PyStr.strip. cbn [PyStr.lstrip]. rewrite Hc.
  destruct (rstrip_cons_nonspace c s Hc) as [r Hr]. now rewrite Hr.
Qed.

Lemma length_take (n : nat) (s : string) : String.length (PyStr2.take n s) <= n.
Proof.
  unfold PyStr2.take. revert s.
  induction n as [|n IH]; intro s.
  - destruct s; simpl; lia.
  - destruct s as [|c s]; simpl; [lia|]. specialize (IH s). lia.
Qed.

Lemma firstn_subset {A} (n : nat) (l : list A) (x : A) : In x (firstn n l) -> In x l.
Proof.
  intro H. rewrite <- (firstn_skipn n l). apply in_or_app. now left.
Qed.

(** X10: [extract_keywords_from_results] sends one prompt, whose content
    has at most 2000 characters, and returns at most 15 keywords, each of
    them lower-case, without white space around it and at least 3 characters
    long; when the provider raises or gives no text it returns no keyword. *)
Theorem extract_keywords_bounds (generate : HelperPrompt -> GenOutcome)
    (results : list (list (string * string))) :
  let out := extract_keywords_from_results generate results in
  (exists content, snd out = [KeywordsPrompt content] /\ String.length content <= 2000 /\
     (generate (KeywordsPrompt content) = GenNoText \/
      (exists msg, generate (KeywordsPrompt content) = GenRaise msg) ->
      fst out = [])) /\
  length (fst out) <= 15 /\
  (forall kw, In kw (fst out) ->
     3 <= String.length kw /\ PyStr.lower kw = kw /\ PyStr.strip kw = kw).
Proof.
  unfold extract_keywords_from_results.
  set (content := PyStr2.take 2000 (keywords_text_of results)).
  destruct (generate (KeywordsPrompt content)) as [msg| |text] eqn:Hgen; cbn [fst snd].
  - split; [|split; [simpl; lia | intros kw []]].
    exists content. split; [reflexivity|]. split; [apply length_take | reflexivity].
  - split; [|split; [simpl; lia | intros kw []]].
    exists content. split; [reflexivity|]. split; [apply length_take | reflexivity].
  - split; [|split].
    + exists content. split; [reflexivity|]. split; [apply length_take|].
      rewrite Hgen. intros [H|[msg H]]; discriminate.
    + rewrite length_firstn. lia.
    + intros kw Hin. apply firstn_subset in Hin. apply filter_In in Hin.
      destruct Hin as [Hin Hlen]. apply andb_true_iff in Hlen. destruct Hlen as [_ Hlen].
      apply Nat.ltb_lt in Hlen. split; [lia|].
      apply in_map_iff in Hin. destruct Hin as [raw [E _]]. subst kw.
      split; [apply lower_idem|].
      now rewrite <- lower_strip, strip_idem.
Qed.

Lemma extract_keywords_bounds_witness :
  let generate := fun _ : HelperPrompt =>
                    GenText " Cache, Prefetcher ,AI, stride detection,, RAM " in
  fst (extract_keywords_from_results generate [row_to_record Sample.row1])
  = ["cache"; "prefetcher"; "stride detection"; "ram"] /\
  forall kw,
    In kw (fst (extract_keywords_from_results generate [row_to_record Sample.row1])) ->
    3 <= String.length kw /\ PyStr.lower kw = kw /\ PyStr.strip kw = kw.
Proof.
  split; [vm_compute; reflexivity|].
  exact (proj2 (proj2 (extract_keywords_bounds
                         (fun _ => GenText " Cache, Prefetcher ,AI, stride detection,, RAM ")
                         [row_to_record Sample.row1]))).
Defined.

Lemma split_ws_from_lower (s acc : string) :
  PyStr2.split_ws_from (PyStr.lower s) (PyStr.lower acc)
  = map PyStr.lower (PyStr2.split_ws_from s acc).
Proof.
  revert acc. induction s as [|c s IH]; intro acc.
  - simpl. destruct acc; reflexivity.
  - rewrite lower_cons. cbn [PyStr2.split_ws_from]. rewrite isspace_lower_char.
    destruct (PyStr.isspace c).
    + destruct acc as [|a acc]; [apply (IH EmptyString)|].
      rewrite lower_cons. cbn [PyStr.truthy map]. rewrite <- lower_cons.
      f_equal. apply (IH EmptyString).
    + rewrite <- IH. f_equal.
      clear. induction acc as [|a acc IHa]; [reflexivity|].
      rewrite lower_cons. simpl. rewrite lower_cons. now rewrite IHa.
Qed.

Lemma split_ws_lower (s : string) :
  PyStr2.split_ws (PyStr.lower s) = map PyStr.lower (PyStr2.split_ws s).
Proof. apply (split_ws_from_lower s EmptyString). Qed.

(** X11: [is_query_completely_irrelevant] asks the provider only when the
    query names none of the listed topics and shares no word with the
    context keywords, and then sends one prompt.  It declares a query
    irrelevant only if the query names a listed topic or the provider was
    asked and its answer contains "yes"; a provider that raises or gives no
    text never makes a query irrelevant. *)
Theorem irrelevance_check_fails_open (generate : HelperPrompt -> GenOutcome)
    (query : string) (context_keywords : list string) :
  let has_topic :=
    existsb (fun topic => PyStr.contains topic (PyStr.lower query)) irrelevant_topics in
  let overlap :=
    existsb (fun kw => PyStr.mem kw (PyStr2.split_ws (PyStr.lower query)))
      context_keywords in
  let prompt := IrrelevancePrompt query (PyStr.join ", " context_keywords) in
  let out := is_query_completely_irrelevant generate query context_keywords in
  (snd out = if has_topic || overlap then [] else [prompt]) /\
  (fst out = true ->
   has_topic = true \/
   (overlap = false /\
    exists text, generate prompt = GenText text /\
                 PyStr.contains "yes" (PyStr.lower (PyStr.strip text)) = true)) /\
  (has_topic = true -> fst out = true) /\
  (has_topic = false -> overlap = true -> fst out = false).
Proof.
  unfold is_query_completely_irrelevant. cbv zeta.
  destruct (existsb (fun topic => PyStr.contains topic (PyStr.lower query))
              irrelevant_topics) eqn:Htopic; cbn [orb fst snd].
  { repeat split; auto. }
  destruct (existsb _ context_keywords) eqn:Hover; cbn [orb fst snd].
  { repeat split; auto; discriminate. }
  destruct (generate _) as [msg| |text] eqn:Hgen; cbn [fst snd];
    repeat split; try discriminate.
  intro Hyes. right. split; [reflexivity|]. now exists text.
Qed.

Lemma irrelevance_check_fails_open_witness :
  let outage := fun _ : HelperPrompt => GenRaise "503 service unavailable" in
  fst (is_query_completely_irrelevant outage "Best GAME console patents" ["console"])
  = true /\
  fst (is_query_completely_irrelevant outage "How is the CACHE flushed?" ["cache"])
  = false.
Proof.
  split.
  - apply (proj1 (proj2 (proj2 (irrelevance_check_fails_open
                                  (fun _ => GenRaise "503 service unavailable")
                                  "Best GAME console patents" ["console"])))).
    reflexivity.
  - apply (proj2 (proj2 (proj2 (irrelevance_check_fails_open
                                  (fun _ => GenRaise "503 service unavailable")
                                  "How is the CACHE flushed?" ["cache"]))));
      reflexivity.
Defined.

(** X12: keywords taken from results by [extract_keywords_from_results]
    match the words of a query whatever their letter case: when one of them
    is, once lower-cased, a word of the query, and the query names no listed
    topic, the query is not irrelevant and the provider is not asked. *)
Theorem extracted_keyword_in_query (generate : HelperPrompt -> GenOutcome)
    (results : list (list (string * string))) (query word : string) :
  existsb (fun topic => PyStr.contains topic (PyStr.lower query)) irrelevant_topics
  = false ->
  In word (PyStr2.split_ws query) ->
  In (PyStr.lower word) (fst (extract_keywords_from_results generate results)) ->
  is_query_completely_irrelevant generate query
    (fst (extract_keywords_from_results generate results))
  = (false, []).
Proof.
  intros Htopic Hword Hkw.
  unfold is_query_completely_irrelevant. cbv zeta. rewrite Htopic.
  replace (existsb _ (fst (extract_keywords_from_results generate results))) with true;
    [reflexivity|].
  symmetry. apply existsb_exists. exists (PyStr.lower word). split; [exact Hkw|].
  apply mem_In. rewrite split_ws_lower. now apply in_map.
Qed.

Lemma extracted_keyword_in_query_witness :
  let generate := fun _ : HelperPrompt => GenText "Cache, Prefetcher" in
  is_query_completely_irrelevant generate "Which PREFETCHER is claimed?"
    (fst (extract_keywords_from_results generate [row_to_record Sample.row1]))
  = (false, []).
Proof.
  apply (extracted_keyword_in_query (fun _ => GenText "Cache, Prefetcher")
           [row_to_record Sample.row1] "Which PREFETCHER is claimed?" "PREFETCHER").
  - reflexivity.
  - vm_compute. tauto.
  - vm_compute. tauto.
Defined.

Lemma string_append_assoc (a b c : string) : ((a ++ b) ++ c = a ++ b ++ c)%string.
Proof. induction a as [|x a IH]; [reflexivity|]. simpl. now rewrite IH. Qed.

Lemma combined_content_grows (rs : list (list (string * string))) (acc : string) :
  exists tail,
    fold_left
      (fun acc result =>
         (acc ++ ("Patent: " ++ get_default "patent_number" result "Unknown" ++ api_server.nl)
              ++ ("Title: " ++ get_default "title" result "No title" ++ api_server.nl)
              ++ ("Summary: " ++ get_default "detailed_summary" result "No summary"
                  ++ api_server.nl ++ api_server.nl))%string) rs acc
    = (acc ++ tail)%string.
Proof.
  revert acc. induction rs as [|r rs IH]; intro acc; cbn [fold_left].
  - exists EmptyString. clear. induction acc as [|c acc IHa]; [reflexivity|].
    simpl. now rewrite <- IHa.
  - destruct (IH (acc ++ ("Patent: " ++ get_default "patent_number" r "Unknown" ++ api_server.nl)
                   ++ ("Title: " ++ get_default "title" r "No title" ++ api_server.nl)
                   ++ ("Summary: " ++ get_default "detailed_summary" r "No summary"
                       ++ api_server.nl ++ api_server.nl))%string) as [tail Ht].
    eexists. rewrite Ht. rewrite string_append_assoc. reflexivity.
Qed.

(** X13: [generate_contextual_response] answers without the provider
    exactly when the list of previous results is empty.  With at least one
    previous result, even one without any field, it sends one prompt, built
    from the template of the follow-up type (the general template for an
    unknown type) and from the text made of all the results. *)
Theorem contextual_response_asks_iff_results (generate : HelperPrompt -> GenOutcome)
    (query : string) (previous_results : list (list (string * string)))
    (followup_type : string) :
  let out := generate_contextual_response generate query previous_results
               followup_type in
  (previous_results = [] ->
   out = ("I don't have enough context from the previous search to answer your follow-up question.",
          [])) /\
  (previous_results <> [] ->
   snd out = [ContextualPrompt (template_of followup_type) query
                (combined_content_of previous_results)]).
Proof.
  split.
  - intro E. subst previous_results. reflexivity.
  - intro Hne. destruct previous_results as [|r rs]; [congruence|].
    unfold generate_contextual_response. cbv zeta.
    assert (Hnb : PyStr.truthy (PyStr.strip (combined_content_of (r :: rs))) = true).
    { unfold combined_content_of. cbn [fold_left].
      match goal with
      | |- context [fold_left ?f rs ?acc] =>
          destruct (combined_content_grows rs acc) as [tail Ht]
      end.
      rewrite Ht. simpl. now apply strip_nonblank. }
    rewrite Hnb. cbn [negb].
    now destruct (generate _).
Qed.

Lemma contextual_response_asks_iff_results_witness :
  snd (generate_contextual_response (fun _ => GenNoText) "and the claims?" [[]] "details")
  = [ContextualPrompt General "and the claims?" (combined_content_of [[]])].
Proof.
  apply (proj2 (contextual_response_asks_iff_results (fun _ => GenNoText)
                  "and the claims?" [[]] "details")).
  discriminate.
Defined.

(** ** frontend/app.py: the history sent to the router *)

Import frontend.

Lemma pair_step_fold_app (h : list Message) (acc : list ConversationTurn)
    (last : option string) :
  exists added last',
    fold_left pair_step h (acc, last) = (acc ++ added, last') /\
    length added <= length (filter is_assistant h) /\
    (forall t, In t added ->
       question t <> "" /\
       exists a, answer t = Some a /\ In (mkMessage "assistant" a) h /\
                 (In (mkMessage "user" (question t)) h \/ last = Some (question t))).
Proof.
  revert acc last. induction h as [|m h IH]; intros acc last.
  - exists [], last. rewrite app_nil_r. split; [reflexivity|].
    split; [simpl; lia | intros t []].
  - cbn [fold_left]. unfold pair_step at 2.
    destruct m as [r c]. cbn [role content].
    destruct (String.eqb_spec r "user") as [Er|Nr].
    + subst r. destruct (IH acc (Some c)) as [added [last' [Hf [Hl Hin]]]].
      exists added, last'. split; [exact Hf|]. split; [simpl; exact Hl|].
      intros t Ht. destruct (Hin t Ht) as [Hq [a [Ha [Hass Hu]]]].
      split; [exact Hq|]. exists a. split; [exact Ha|]. split; [now right|].
      left. destruct Hu as [Hu|Hu]; [now right|]. left. congruence.
    + destruct (String.eqb_spec r "assistant") as [Ea|Na].
      * subst r. destruct last as [q|]; cbn [andb].
        -- destruct q as [|qc q]; cbn [PyStr.truthy or_empty].
           ++ destruct (IH acc (Some EmptyString)) as [added [last' [Hf [Hl Hin]]]].
              exists added, last'. split; [exact Hf|].
              split; [simpl; lia|].
              intros t Ht. destruct (Hin t Ht) as [Hq [a [Ha [Hass Hu]]]].
              split; [exact Hq|]. exists a. split; [exact Ha|]. split; [now right|].
              destruct Hu as [Hu|Hu]; [left; now right|].
              inversion Hu as [E]. symmetry in E. contradiction.
           ++ destruct (IH (acc ++ [mkTurn (String qc q) (Some c)]) None)
                as [added [last' [Hf [Hl Hin]]]].
              exists (mkTurn (String qc q) (Some c) :: added), last'.
              split; [rewrite Hf; now rewrite <- app_assoc|].
              split; [simpl; lia|].
              intros t [Ht|Ht].
              ** subst t. cbn [question answer]. split; [discriminate|].
                 exists c. split; [reflexivity|]. split; [now left | now right].
              ** destruct (Hin t Ht) as [Hq [a [Ha [Hass Hu]]]].
                 split; [exact Hq|]. exists a. split; [exact Ha|]. split; [now right|].
                 destruct Hu as [Hu|Hu]; [left; now right | discriminate].
        -- destruct (IH acc None) as [added [last' [Hf [Hl Hin]]]].
           exists added, last'. split; [exact Hf|]. split; [simpl; lia|].
           intros t Ht. destruct (Hin t Ht) as [Hq [a [Ha [Hass Hu]]]].
           split; [exact Hq|]. exists a. split; [exact Ha|]. split; [now right|].
           destruct Hu as [Hu|Hu]; [left; now right | discriminate].
      * cbn [andb].
        destruct (IH acc last) as [added [last' [Hf [Hl Hin]]]].
        exists added, last'. split; [exact Hf|].
        split.
        { unfold is_assistant at 1. cbn [filter role].
          destruct (String.eqb_spec r "assistant"); [contradiction | exact Hl]. }
        intros t Ht. destruct (Hin t Ht) as [Hq [a [Ha [Hass Hu]]]].
        split; [exact Hq|]. exists a. split; [exact Ha|]. split; [now right|].
        destruct Hu as [Hu|Hu]; [left; now right | now right].
Qed.

Lemma In_removelast {A} (l : list A) (x : A) : In x (removelast l) -> In x l.
Proof.
  induction l as [|a l IH]; [intros []|].
  simpl. destruct l as [|b l]; [intros []|].
  intros [H|H]; [now left | right; now apply IH].
Qed.

(** X14: every turn that the chat client sends as history has a question
    that is not empty and an answer that is present; its question is a user
    message and its answer an assistant message of the session; and there are
    no more turns than assistant messages before the query being asked. *)
Theorem api_history_turns_are_answered (history : list Message) :
  length (api_history_of history) <= length (filter is_assistant (removelast history)) /\
  (forall t, In t (api_history_of history) ->
     question t <> "" /\
     exists a, answer t = Some a /\
               In (mkMessage "assistant" a) history /\
               In (mkMessage "user" (question t)) history).
Proof.
  unfold api_history_of.
  destruct (pair_step_fold_app (removelast history) [] None)
    as [added [last' [Hf [Hl Hin]]]].
  rewrite Hf. cbn [fst app]. split; [exact Hl|].
  intros t Ht. destruct (Hin t Ht) as [Hq [a [Ha [Hass Hu]]]].
  split; [exact Hq|]. exists a. split; [exact Ha|].
  split; [now apply In_removelast|].
  destruct Hu as [Hu|Hu]; [now apply In_removelast | discriminate].
Qed.

Lemma pair_step_exchange (acc : list ConversationTurn) (q a : string) :
  PyStr.truthy q = true ->
  pair_step (pair_step (acc, None) (mkMessage "user" q)) (mkMessage "assistant" a)
  = (acc ++ [mkTurn q (Some a)], None).
Proof. intro Hq. unfold pair_step. simpl. now rewrite Hq. Qed.

Lemma fold_pair_step_exchanges (exchanges : list (string * string))
    (acc : list ConversationTurn) :
  forallb (fun qa => PyStr.truthy (fst qa)) exchanges = true ->
  fold_left pair_step
    (flat_map (fun qa => [mkMessage "user" (fst qa); mkMessage "assistant" (snd qa)])
       exchanges) (acc, None)
  = (acc ++ map (fun qa => mkTurn (fst qa) (Some (snd qa))) exchanges, None).
Proof.
  revert acc. induction exchanges as [|[q a] ex IH]; intros acc Hq.
  - simpl. now rewrite app_nil_r.
  - simpl in Hq. apply andb_true_iff in Hq. destruct Hq as [Hq Hrest].
    cbn [flat_map app fold_left fst snd map].
    rewrite (pair_step_exchange _ _ _ Hq), (IH _ Hrest). now rewrite <- app_assoc.
Qed.

(** X15: for a session in which every question (none of them empty) was
    answered, the client sends exactly the question/answer pairs, in order,
    and leaves the query being asked out of the history. *)
Theorem api_history_of_answered_session (exchanges : list (string * string))
    (current : string) :
  forallb (fun qa => PyStr.truthy (fst qa)) exchanges = true ->
  api_history_of (session_of exchanges current)
  = map (fun qa => mkTurn (fst qa) (Some (snd qa))) exchanges.
Proof.
  intro Hq. unfold api_history_of, session_of.
  rewrite removelast_last. now rewrite (fold_pair_step_exchanges _ [] Hq).
Qed.

Lemma api_history_of_answered_session_witness :
  api_history_of
    (session_of [("What is claimed?", "A prefetcher."); ("And the title?", "Prefetcher")]
       "Who filed it?")
  = [mkTurn "What is claimed?" (Some "A prefetcher.");
     mkTurn "And the title?" (Some "Prefetcher")].
Proof.
  apply (api_history_of_answered_session
           [("What is claimed?", "A prefetcher."); ("And the title?", "Prefetcher")]
           "Who filed it?").
  reflexivity.
Defined.

Lemma api_history_turns_are_answered_witness :
  let history := [mkMessage "user" "first"; mkMessage "user" "second";
                  mkMessage "assistant" "answer"; mkMessage "assistant" "again";
                  mkMessage "user" "third"] in
  api_history_of history = [mkTurn "second" (Some "answer")] /\
  length (api_history_of history) <= 2.
Proof.
  split; [reflexivity|].
  exact (proj1 (api_history_turns_are_answered
                  [mkMessage "user" "first"; mkMessage "user" "second";
                   mkMessage "assistant" "answer"; mkMessage "assistant" "again";
                   mkMessage "user" "third"])).
Defined.

(** ** frontend/app.py: the reply shown for a payload *)

Import chat_reply.

Lemma lower_app (a b : string) :
  PyStr.lower (a ++ b) = (PyStr.lower a ++ PyStr.lower b)%string.
Proof.
  induction a as [|c a IH]; [reflexivity|].
  simpl String.append. rewrite !lower_cons. simpl. now rewrite IH.
Qed.

Lemma prefix_app (k a b : string) :
  String.prefix k a = true -> String.prefix k (a ++ b) = true.
Proof.
  revert a. induction k as [|x k IH]; intros a H; [apply prefix_nil|].
  destruct a as [|c a]; [discriminate|].
  apply prefix_cons in H. destruct H as [E H]. subst x.
  simpl String.append. apply prefix_cons_intro. now apply IH.
Qed.

Lemma contains_app_l (k a b : string) :
  PyStr.contains k a = true -> PyStr.contains k (a ++ b) = true.
Proof.
  induction a as [|c a IH]; intro H.
  - apply contains_empty in H. subst k. simpl.
    destruct b; reflexivity.
  - rewrite contains_cons in H. simpl String.append. rewrite contains_cons.
    apply orb_true_iff in H. destruct H as [H|H].
    + apply (prefix_app _ _ b) in H. simpl String.append in H. now rewrite H.
    + rewrite (IH H). apply orb_true_r.
Qed.

Lemma contains_app_r (k a b : string) :
  PyStr.contains k b = true -> PyStr.contains k (a ++ b) = true.
Proof.
  intro H. induction a as [|c a IH]; [exact H|].
  simpl String.append. rewrite contains_cons, IH. apply orb_true_r.
Qed.

Lemma contains_join (k sep p : string) (parts : list string) :
  In p parts -> PyStr.contains k p = true -> PyStr.contains k (PyStr.join sep parts) = true.
Proof.
  intros Hin Hk. induction parts as [|x parts IH]; [contradiction|].
  destruct Hin as [E|Hin].
  - subst x. destruct parts as [|y parts]; [exact Hk|].
    cbn [PyStr.join]. now apply contains_app_l.
  - specialize (IH Hin). destruct parts as [|y parts]; [contradiction|].
    cbn [PyStr.join]. now apply contains_app_r, contains_app_r.
Qed.

Lemma has_nonspace_app_r (a b : string) :
  has_nonspace b = true -> has_nonspace (a ++ b) = true.
Proof.
  intro H. induction a as [|c a IH]; [exact H|].
  simpl. rewrite IH. apply orb_true_r.
Qed.

Lemma strip_has_nonspace (s : string) :
  has_nonspace s = true -> PyStr.truthy (PyStr.strip s) = true.
Proof.
  induction s as [|c s IH]; [discriminate|].
  simpl has_nonspace. destruct (PyStr.isspace c) eqn:Hc.
  - simpl. intro H. unfold PyStr.strip in *. cbn [PyStr.lstrip]. rewrite Hc. now apply IH.
  - intros _. now apply strip_nonblank.
Qed.

Lemma prefix_trans (k1 k2 s : string) :
  String.prefix k1 k2 = true -> String.prefix k2 s = true -> String.prefix k1 s = true.
Proof.
  revert k2 s. induction k1 as [|x k1 IH]; intros k2 s H1 H2; [apply prefix_nil|].
  destruct k2 as [|y k2]; [discriminate|].
  destruct s as [|c s]; [discriminate|].
  apply prefix_cons in H1. destruct H1 as [E1 H1].
  apply prefix_cons in H2. destruct H2 as [E2 H2]. subst.
  apply prefix_cons_intro. now apply (IH k2).
Qed.

Lemma contains_shorter (k1 k2 s : string) :
  String.prefix k1 k2 = true -> PyStr.contains k2 s = true -> PyStr.contains k1 s = true.
Proof.
  intros Hk. induction s as [|c s IH]; intro H.
  - apply contains_empty in H. subst k2. apply prefix_empty in Hk. now subst k1.
  - rewrite contains_cons in *. apply orb_true_iff in H. destruct H as [H|H].
    + now rewrite (prefix_trans _ _ _ Hk H).
    + rewrite (IH H). apply orb_true_r.
Qed.

(** X16: a query that the router rejects never becomes context.  Whatever
    else the payload holds, when its message contains "not relevant to
    patents" (in any letter case), the reply that the client shows and stores
    as the answer of the turn contains the marker, so the router leaves the
    turn out of the relevant turns of every later request. *)
Theorem rejected_query_is_not_context (pic : Pictographs) (has_history summary : bool)
    (data : Payload) (message query : string) :
  pl_message data = Some message ->
  PyStr.contains not_relevant_marker (PyStr.lower message) = true ->
  is_relevant (mkTurn query (Some (reply_text pic has_history summary data))) = false.
Proof.
  intros Hm Hmarker.
  assert (Hshort : PyStr.contains "not relevant" (PyStr.lower message) = true).
  { now apply (contains_shorter "not relevant" not_relevant_marker). }
  set (part := (pic_prohibited pic ++ " **Query Not Relevant:** " ++ message)%string).
  assert (Hin : In part (filter (fun p => PyStr.truthy (PyStr.strip p))
                           (reply_parts pic has_history summary data))).
  { apply filter_In. split.
    - unfold reply_parts. rewrite Hm, Hshort. cbn [or_empty].
      apply in_or_app. right. apply in_or_app. right. now left.
    - apply strip_has_nonspace. unfold part.
      apply has_nonspace_app_r. reflexivity. }
  unfold is_relevant. cbn [answer].
  replace (PyStr.contains not_relevant_marker
             (PyStr.lower (reply_text pic has_history summary data))) with true.
  { now rewrite andb_false_r. }
  symmetry. unfold reply_text.
  assert (Hpart : PyStr.contains not_relevant_marker (PyStr.lower part) = true).
  { unfold part. rewrite !lower_app. now apply contains_app_r, contains_app_r. }
  revert Hin. generalize (filter (fun p => PyStr.truthy (PyStr.strip p))
                            (reply_parts pic has_history summary data)).
  intros parts Hin.
  induction parts as [|x parts IH]; [contradiction|].
  destruct Hin as [E|Hin].
  - subst x. destruct parts as [|y parts]; [exact Hpart|].
    cbn [PyStr.join]. rewrite lower_app. now apply contains_app_l.
  - specialize (IH Hin). destruct parts as [|y parts]; [contradiction|].
    cbn [PyStr.join]. rewrite !lower_app. now apply contains_app_r, contains_app_r.
Qed.

Lemma rejected_query_is_not_context_witness :
  let pic := mkPictographs "" "" "" "" "" "" "" "" in
  payload_of [("results", VRecords []); ("message", VStr rejection_message);
              ("related", VBool false)]
  = Some (mkPayload (Some false) None (Some rejection_message) None None (Some [])) /\
  is_relevant
    (mkTurn "Who won the match?"
       (Some (reply_text pic true true
                (mkPayload (Some false) None (Some rejection_message) None None
                   (Some []))))) = false.
Proof.
  split; [reflexivity|].
  apply (rejected_query_is_not_context (mkPictographs "" "" "" "" "" "" "" "") true true
           (mkPayload (Some false) None (Some rejection_message) None None (Some []))
           rejection_message); reflexivity.
Defined.

(** X17: the client does not read the key [error].  For an error payload
    of the router the reply is the text for an empty result list, whatever
    the error message says, and so the message never reaches the user. *)
Theorem error_payload_shown_as_no_results (pic : Pictographs)
    (has_history summary : bool) (msg : string) :
  exists data,
    payload_of [("error", VStr msg)] = Some data /\
    reply_text pic has_history summary data
    = (pic_thinking pic ++ " **No Results Found:** No relevant patents were found for your query. Try rephrasing or using different keywords.")%string.
Proof.
  eexists. split; [reflexivity|].
  unfold reply_text, reply_parts. cbn [pl_related pl_note pl_message pl_generic_answer
    pl_live_summary pl_results andb app].
  destruct has_history; cbn [app]; rewrite andb_false_r; cbn [filter].
  all: rewrite strip_has_nonspace; [reflexivity|];
    apply has_nonspace_app_r; reflexivity.
Qed.

(** ** Running the router symbolically *)

Lemma spent_refl (s : State) : spent s s [].
Proof. unfold spent. auto. Qed.

Lemma spent_called (e : Event) (s0 s : State) (calls : list Event) :
  spent s0 s calls -> spent s0 (called e s) (e :: calls).
Proof. unfold spent, called. simpl. intros [H1 [H2 H3]]. now rewrite H1. Qed.

Lemma spent_step (s0 s s' : State) (c1 c2 : list Event) :
  trace s' = c2 ++ trace s -> table s' = table s -> vectors s' = vectors s ->
  spent s0 s c1 -> spent s0 s' (c2 ++ c1).
Proof.
  unfold spent. intros Htr Ht Hv [H1 [H2 H3]].
  rewrite Htr, H1, Ht, Hv, <- app_assoc. auto.
Qed.

Ltac spent_solve :=
  repeat first
    [ apply spent_refl
    | apply spent_called
    | eapply spent_step; [eassumption | eassumption | eassumption |] ].

Lemma generate_generic_answer_run (w : World) (q : string) (s : State) :
  gemini_helper.generate_generic_answer w q s
  = (Ok (generic_of (w_generate w (trace s) (GenericAnswerPrompt q))),
     called (GenerateContent (GenericAnswerPrompt q)) s).
Proof.
  unfold gemini_helper.generate_generic_answer, generate_content, bind, get_trace, log, ret.
  simpl. now destruct (w_generate w (trace s) (GenericAnswerPrompt q)).
Qed.

Lemma wp_run {A} (m : M A) (r : Result A) (s s' : State)
    (Q : Result A -> State -> Prop) :
  m s = (r, s') -> Q r s' -> wp m Q s.
Proof. unfold wp. intros E H. now rewrite E. Qed.

Lemma wp_classify (w : World) (q : string) (Q : Result string -> State -> Prop)
    (s : State) :
  Q (Ok (label_of (w_generate w (trace s) (ClassifyPrompt q))))
    (called (GenerateContent (ClassifyPrompt q)) s) ->
  wp (gemini_helper.classify_query_type w q) Q s.
Proof. apply wp_run, classify_query_type_run. Qed.

Lemma wp_generate_summary (w : World) (q r : string)
    (Q : Result string -> State -> Prop) (s : State) :
  Q (Ok (summary_of (w_generate w (trace s) (SummaryPrompt q r))))
    (called (GenerateContent (SummaryPrompt q r)) s) ->
  wp (gemini_helper.generate_summary w q r) Q s.
Proof. apply wp_run, generate_summary_run. Qed.

Lemma wp_generate_generic_answer (w : World) (q : string)
    (Q : Result string -> State -> Prop) (s : State) :
  Q (Ok (generic_of (w_generate w (trace s) (GenericAnswerPrompt q))))
    (called (GenerateContent (GenericAnswerPrompt q)) s) ->
  wp (gemini_helper.generate_generic_answer w q) Q s.
Proof. apply wp_run, generate_generic_answer_run. Qed.

Lemma blank_test (text : string) :
  negb (PyStr.truthy text) || negb (PyStr.truthy (PyStr.strip text))
  = negb (not_blank text).
Proof. unfold not_blank. now destruct text. Qed.

Lemma wp_dense (w : World) (text : string)
    (Q : Result (option (list Z)) -> State -> Prop) (s : State) :
  (not_blank text = false -> Q (Ok None) s) ->
  (not_blank text = true ->
   Q (Ok (w_embed w (trace s) text)) (called (EmbedContent text) s)) ->
  wp (gemini_helper.generate_dense_embedding w text) Q s.
Proof.
  intros Hb Hn. destruct (not_blank text) eqn:E.
  - eapply wp_run; [now apply generate_dense_embedding_run | now apply Hn].
  - unfold wp, gemini_helper.generate_dense_embedding. rewrite blank_test, E.
    now apply Hb.
Qed.

Lemma wp_sparse (w : World) (text : string)
    (Q : Result (option SparseEmbedding) -> State -> Prop) (s : State) :
  (not_blank text = false -> Q (Ok None) s) ->
  (not_blank text = true ->
   Q (Ok (w_sparse w (trace s) text)) (called (InferenceEmbed text) s)) ->
  wp (pinecone_helper.generate_sparse_embedding w text) Q s.
Proof.
  intros Hb Hn. destruct (not_blank text) eqn:E.
  - eapply wp_run; [now apply generate_sparse_embedding_run | now apply Hn].
  - unfold wp, pinecone_helper.generate_sparse_embedding. rewrite blank_test, E.
    now apply Hb.
Qed.

Lemma wp_index_query (w : World) (v : list Z) (sp : option (option SparseEmbedding))
    (k : Z) (Q : Result (list string) -> State -> Prop) (s : State) :
  (forall msg, w_query w (trace s) v sp k = inl msg ->
               Q (Raise msg) (called (IndexQuery v sp k) s)) ->
  (forall ids, w_query w (trace s) v sp k = inr ids ->
               Q (Ok ids) (called (IndexQuery v sp k) s)) ->
  wp (index_query w v sp k) Q s.
Proof.
  intros Hl Hr. unfold wp, index_query, bind, get_trace, log, raise, ret. simpl.
  destruct (w_query w (trace s) v sp k) as [msg|ids] eqn:E; simpl.
  - now apply Hl.
  - now apply Hr.
Qed.

Lemma wp_fetch_run (w : World) (ids : list string)
    (Q : Result (list Record_) -> State -> Prop) (s : State) :
  (forall msg, w_sqlite_error w (SqliteSelect ids :: trace s) = Some msg ->
               Q (Raise msg) (called (SqliteSelect ids) s)) ->
  (w_sqlite_error w (SqliteSelect ids :: trace s) = None ->
   Q (Ok (map row_to_record (select_in (table s) ids))) (called (SqliteSelect ids) s)) ->
  wp (fetch_metadata_from_sqlite w ids) Q s.
Proof.
  intros Hr Ho. unfold wp, fetch_metadata_from_sqlite, bind, log, sqlite_guard,
    get_trace, bind, ret, raise. simpl.
  destruct (w_sqlite_error w _) as [msg|] eqn:E; simpl.
  - now apply Hr.
  - now apply Ho.
Qed.

Lemma declined_calls (w : World) (q : string) (tr : Trace)
    (turns : list ConversationTurn) (tr' : Trace) :
  declined w q tr turns tr' ->
  exists calls, tr' = calls ++ tr /\ length calls = length turns /\
                forallb is_followup_call calls = true.
Proof.
  intro H. induction H as [tr|tr turn rest tr' Hno Hd [calls [E [Hl Hf]]]].
  - exists []. auto.
  - exists (calls ++ [GenerateContent (followup_prompt turn q)]).
    split; [rewrite E; now rewrite <- app_assoc|].
    split; [rewrite length_app; simpl; lia|].
    rewrite forallb_app, Hf. reflexivity.
Qed.

Lemma wp_check_followup (w : World) (turns : list ConversationTurn) (q : string)
    (Q : Result FollowupRelevance -> State -> Prop) (s : State) :
  (forall r s' calls,
     trace s' = calls ++ trace s -> table s' = table s -> vectors s' = vectors s ->
     scan_facts turns r calls -> Q (Ok r) s') ->
  wp (check_followup_relevance_multi w turns q) Q s.
Proof.
  intro HQ. unfold wp, check_followup_relevance_multi.
  destruct (followup_scan_spec w q (length turns) (rev turns) 0 s)
    as [r [s' [Hrun [Ht [Hv Hcases]]]]].
  rewrite Hrun. simpl.
  destruct Hcases as [[earlier [turn [later [tr1 [Hs [Hd [Ha [Htr Hr]]]]]]]]|[Hd Hr]].
  - destruct (declined_calls _ _ _ _ _ Hd) as [calls [E [Hl Hf]]].
    apply (HQ r s' (GenerateContent (followup_prompt turn q) :: calls));
      [rewrite Htr, E; reflexivity | exact Ht | exact Hv |].
    assert (Hlen : length turns = length earlier + S (length later)).
    { rewrite <- (length_rev turns), Hs, length_app. reflexivity. }
    subst r. unfold scan_facts. cbn [is_related related_turn related_to_index].
    split; [simpl; exact Hf|].
    split; [simpl; lia|].
    split; [|discriminate].
    intros _. exists turn, (length turns - 1 - (0 + length earlier)).
    split; [reflexivity|]. split; [reflexivity|].
    assert (Hturns : turns = rev later ++ turn :: rev earlier).
    { rewrite <- (rev_involutive turns), Hs, rev_app_distr. simpl.
      now rewrite <- app_assoc. }
    replace (length turns - 1 - (0 + length earlier)) with (length (rev later))
      by (rewrite length_rev; lia).
    rewrite Hturns, nth_error_app2 by lia. now rewrite Nat.sub_diag.
  - destruct (declined_calls _ _ _ _ _ Hd) as [calls [E [Hl Hf]]].
    apply (HQ r s' calls); [exact E | exact Ht | exact Hv |].
    subst r. unfold scan_facts. cbn [is_related related_turn related_to_index].
    rewrite length_rev in Hl.
    split; [exact Hf|]. split; [lia|]. split; [discriminate|]. auto.
Qed.

Ltac wp_exec_step :=
  first
    [ wp_step
    | apply wp_classify
    | apply wp_generate_summary
    | apply wp_generate_generic_answer
    | apply wp_dense; intro
    | apply wp_sparse; intro
    | apply wp_index_query; intros ? ?
    | apply wp_fetch_run; [intros ? ? | intro]
    | apply wp_check_followup; intros ? ? ? ? ? ? ?
    | match goal with
      | |- wp (retrieve _ _ _ _ _ _) _ _ => unfold retrieve
      | |- wp (let _ := _ in _) _ _ => cbv zeta
      end ].

Ltac wp_exec := repeat (wp_exec_step; cbv beta iota).


Lemma forallb_weaken {A} (p q : A -> bool) (l : list A) :
  (forall x, p x = true -> q x = true) -> forallb p l = true -> forallb q l = true.
Proof.
  intros Hpq. induction l as [|x l IH]; [reflexivity|].
  simpl. intro H. apply andb_true_iff in H. destruct H as [Hx Hl].
  now rewrite (Hpq _ Hx), IH.
Qed.

Lemma no_write_nil : no_write [].
Proof. reflexivity. Qed.

Lemma no_write_cons (e : Event) (calls : list Event) :
  is_write e = false -> no_write calls -> no_write (e :: calls).
Proof. unfold no_write. simpl. intros He H. now rewrite He, H. Qed.

Lemma no_write_scan (turns : list ConversationTurn) (r : FollowupRelevance)
    (c calls : list Event) :
  scan_facts turns r c -> no_write calls -> no_write (c ++ calls).
Proof.
  unfold no_write. intros [Hf _] H. rewrite forallb_app, H, andb_true_r.
  apply (forallb_weaken is_followup_call); [|exact Hf].
  intros [[]| | | | | | | | |]; simpl; congruence.
Qed.

Ltac no_write_solve :=
  repeat first
    [ apply no_write_nil
    | apply no_write_cons; [reflexivity|]
    | eapply no_write_scan; [eassumption|] ].

(** X18: the router only reads.  Whatever the request and whatever the
    services answer, [search_patents] leaves the metadata store and the
    vector index as they were and makes no upsert and no insert. *)
Theorem search_patents_never_writes (w : World) (request : SearchRequest) (s : State) :
  exists calls,
    spent s (snd (search_patents w request s)) calls /\ no_write calls.
Proof.
  change (wp (search_patents w request)
            (fun _ s' => exists calls, spent s s' calls /\ no_write calls) s).
  unfold search_patents. apply wp_try_except.
  unfold search_patents_body. cbv zeta.
  destruct (relevant_turns_of _) as [|first_turn more_turns]; wp_exec.
  all: eexists; (split; [spent_solve | no_write_solve]).
Qed.

(** X19: the payloads of the router have one of two shapes.  An error
    payload has the key [error] and no [results]; every other payload has
    [results] and no [error].  Every key that the chat client reads holds a
    value of the type the client expects.  A request without relevant turns
    never gets [related] or [note]; a request with relevant turns gets
    [related] in every payload that is not an error. *)
Theorem search_patents_payload_shape (w : World) (request : SearchRequest) (s : State) :
  exists resp,
    fst (search_patents w request s) = Ok resp /\
    chat_reply.payload_of resp <> None /\
    has_key "error" resp = negb (has_key "results" resp) /\
    match relevant_turns_of (request_history request) with
    | [] => has_key "related" resp = false /\ has_key "note" resp = false
    | _ :: _ => has_key "error" resp = false -> has_key "related" resp = true
    end.
Proof.
  assert (H : wp (search_patents w request)
                (fun r _ => match r with
                            | Ok resp =>
                                payload_shape
                                  (match relevant_turns_of (request_history request) with
                                   | [] => true
                                   | _ => false
                                   end) resp = true
                            | Raise _ => False
                            end) s).
  { unfold search_patents. apply wp_try_except.
    unfold search_patents_body. cbv zeta. fold (request_history request).
    destruct (relevant_turns_of _) as [|first_turn more_turns]; wp_exec.
    all: reflexivity. }
  unfold wp in H.
  destruct (fst (search_patents w request s)) as [resp|msg]; [|contradiction].
  exists resp. split; [reflexivity|].
  unfold payload_shape in H.
  destruct (relevant_turns_of (request_history request)) as [|t ts];
    destruct (chat_reply.payload_of resp); destruct (has_key "error" resp);
    destruct (has_key "results" resp); destruct (has_key "related" resp);
    destruct (has_key "note" resp); simpl in H; try discriminate;
    repeat split; try discriminate; auto.
Qed.

Lemma reads_follow_matches_scan (w : World) (c : list Event) (tr : Trace) :
  forallb is_followup_call c = true ->
  reads_follow_matches w tr -> reads_follow_matches w (c ++ tr).
Proof.
  intros Hf H. induction c as [|e c IH]; [exact H|].
  simpl in Hf. apply andb_true_iff in Hf. destruct Hf as [He Hc].
  destruct e as [[]| | | | | | | | |]; try discriminate. simpl. now apply IH.
Qed.

Ltac protocol_solve :=
  repeat match goal with
         | H : scan_facts _ _ _ |- _ => destruct H as [H _]
         | H : trace ?s' = _ ++ _ |- context [trace ?s'] => rewrite H
         | |- reads_follow_matches _ (_ ++ _) =>
             apply reads_follow_matches_scan; [assumption|]
         | |- reads_follow_matches _ (trace (called _ _)) =>
             unfold called at 1; cbn [trace]
         | |- reads_follow_matches _ (_ :: _) => cbn [reads_follow_matches]
         | |- _ /\ _ => split
         | |- _ :: _ <> [] => discriminate
         | |- _ => assumption
         end.

(** X20: the router reads the metadata store only for matches of the
    vector index.  In the calls of a request, every read of the store comes
    right after a query of the index, asks for exactly the identifiers that
    this query returned, and these are at least one. *)
Theorem search_patents_reads_only_matches (w : World) (request : SearchRequest)
    (s : State) :
  reads_follow_matches w (trace s) ->
  reads_follow_matches w (trace (snd (search_patents w request s))).
Proof.
  intro Hs.
  change (wp (search_patents w request)
            (fun _ s' => reads_follow_matches w (trace s')) s).
  unfold search_patents. apply wp_try_except.
  unfold search_patents_body. cbv zeta.
  destruct (relevant_turns_of _) as [|first_turn more_turns]; wp_exec.
  all: protocol_solve.
Qed.

Lemma search_patents_reads_only_matches_witness :
  reads_follow_matches Sample.specific_world
    (trace (snd (search_patents Sample.specific_world Sample.request0 Sample.state0))).
Proof.
  apply (search_patents_reads_only_matches Sample.specific_world Sample.request0
           Sample.state0).
  simpl. exact I.
Defined.

Lemma count_calls_cons (p : Event -> bool) (e : Event) (calls : list Event) :
  count_calls p (e :: calls) = (if p e then 1 else 0) + count_calls p calls.
Proof. unfold count_calls. simpl. now destruct (p e). Qed.

Lemma count_calls_app (p : Event -> bool) (a b : list Event) :
  count_calls p (a ++ b) = count_calls p a + count_calls p b.
Proof. unfold count_calls. now rewrite filter_app, length_app. Qed.

Lemma count_calls_le (p : Event -> bool) (calls : list Event) :
  count_calls p calls <= length calls.
Proof. apply filter_length_le. Qed.

Lemma count_calls_scan (p : Event -> bool) (c : list Event) :
  (forall e, is_followup_call e = true -> p e = false) ->
  forallb is_followup_call c = true -> count_calls p c = 0.
Proof.
  intros Hp. induction c as [|e c IH]; [reflexivity|].
  simpl. intro H. apply andb_true_iff in H. destruct H as [He Hc].
  rewrite count_calls_cons, (Hp _ He), (IH Hc). reflexivity.
Qed.

Ltac budget_solve :=
  repeat match goal with
         | H : scan_facts _ _ ?c |- _ =>
             let Hf := fresh "Hf" in
             let Hl := fresh "Hl" in
             destruct H as [Hf [Hl _]];
             pose proof (count_calls_le is_generation c);
             pose proof (count_calls_scan is_dense_call c
                           ltac:(intros [[]| | | | | | | | |]; simpl; congruence) Hf);
             pose proof (count_calls_scan is_sparse_call c
                           ltac:(intros [[]| | | | | | | | |]; simpl; congruence) Hf);
             pose proof (count_calls_scan is_index_query c
                           ltac:(intros [[]| | | | | | | | |]; simpl; congruence) Hf);
             pose proof (count_calls_scan is_store_read c
                           ltac:(intros [[]| | | | | | | | |]; simpl; congruence) Hf)
         end;
  rewrite ?count_calls_cons, ?count_calls_app; cbn [is_generation is_dense_call
    is_sparse_call is_index_query is_store_read count_calls filter length];
  simpl length in *; repeat split; lia.

(** X21: the calls of one request are bounded.  The router asks the text
    generation provider at most three times more than there are relevant
    turns in the history, and it makes at most one dense embedding, one
    sparse embedding, one query of the vector index and one read of the
    metadata store. *)
Theorem search_patents_call_budget (w : World) (request : SearchRequest) (s : State) :
  exists calls,
    spent s (snd (search_patents w request s)) calls /\
    count_calls is_generation calls
    <= length (relevant_turns_of (request_history request)) + 3 /\
    count_calls is_dense_call calls <= 1 /\
    count_calls is_sparse_call calls <= 1 /\
    count_calls is_index_query calls <= 1 /\
    count_calls is_store_read calls <= 1.
Proof.
  change (wp (search_patents w request)
            (fun _ s' =>
               exists calls,
                 spent s s' calls /\
                 count_calls is_generation calls
                 <= length (relevant_turns_of (request_history request)) + 3 /\
                 count_calls is_dense_call calls <= 1 /\
                 count_calls is_sparse_call calls <= 1 /\
                 count_calls is_index_query calls <= 1 /\
                 count_calls is_store_read calls <= 1) s).
  unfold search_patents. apply wp_try_except.
  unfold search_patents_body. cbv zeta. fold (request_history request).
  destruct (relevant_turns_of (request_history request)) as [|first_turn more_turns];
    wp_exec.
  all: eexists; (split; [spent_solve|]).
  all: budget_solve.
Qed.

Lemma technical_terms_are_words :
  forallb (fun term => is_word (PyStr.lower term)) technical_terms = true.
Proof. reflexivity. Qed.

Lemma force_specific_not_blank (text : string) :
  force_specific_of text = true -> not_blank text = true.
Proof.
  unfold force_specific_of, not_blank. intro H.
  apply existsb_exists in H. destruct H as [term [Hin Hc]].
  assert (Hw : is_word (PyStr.lower term) = true).
  { assert (Hall := technical_terms_are_words).
    rewrite forallb_forall in Hall. now apply Hall. }
  apply (contains_lower_strip _ _ Hw) in Hc.
  destruct (PyStr.strip text) as [|c r]; [|reflexivity].
  apply contains_empty in Hc. rewrite Hc in Hw. discriminate.
Qed.

(** X22: a query that contains one of the technical terms (in any letter
    case, as a substring) is never rejected, whatever the classifier answers
    and whatever the history is; and in a conversation without relevant
    turns the router goes on to retrieval: it asks for the dense embedding of
    the query text. *)
Theorem technical_query_never_rejected (w : World) (request : SearchRequest)
    (s : State) :
  force_specific_of (query_text_of request) = true ->
  (forall resp, fst (search_patents w request s) = Ok resp ->
                dict_get "message" resp <> Some (VStr rejection_message)) /\
  (relevant_turns_of (request_history request) = [] ->
   In (EmbedContent (query_text_of request))
     (trace (snd (search_patents w request s)))).
Proof.
  intro Hforce.
  assert (Hnb := force_specific_not_blank _ Hforce).
  assert (H : wp (search_patents w request)
                (fun r s' =>
                   match r with
                   | Ok resp => dict_get "message" resp <> Some (VStr rejection_message)
                   | Raise _ => True
                   end /\
                   (relevant_turns_of (request_history request) = [] ->
                    In (EmbedContent (query_text_of request)) (trace s'))) s).
  { unfold search_patents. apply wp_try_except.
    unfold search_patents_body. cbv zeta.
    fold (request_history request). fold (query_text_of request).
    rewrite Hforce. cbn [negb].
    destruct (relevant_turns_of (request_history request)) as [|first_turn more_turns];
      repeat (rewrite ?andb_false_r; wp_exec_step; cbv beta iota).
    all: try congruence.
    all: split; [unfold dict_get; simpl; discriminate|].
    all: try (intro Hnil; discriminate Hnil).
    all: intros _; simpl; tauto. }
  unfold wp in H. destruct H as [Hmsg Hemb]. split; [|exact Hemb].
  intros resp Hrun. now rewrite Hrun in Hmsg.
Qed.

Lemma technical_query_never_rejected_witness :
  let w := Sample.scripted (fun _ => GenText "irrelevant") (Some [1%Z]) (inr []) in
  let request := mkRequest "Is RAIN covered?" (Some []) 5 false false in
  In (EmbedContent "Is RAIN covered?") (trace (snd (search_patents w request Sample.state0))).
Proof.
  apply (technical_query_never_rejected
           (Sample.scripted (fun _ => GenText "irrelevant") (Some [1%Z]) (inr []))
           (mkRequest "Is RAIN covered?" (Some []) 5 false false) Sample.state0);
    reflexivity.
Defined.

(** X23: an empty query in a fresh conversation never reaches retrieval.
    When the query is empty or white space only and the history has no
    relevant turn, the router asks the classifier about the empty text and
    then rejects, answers generically, or, for any other label, returns the
    error payload of a failed dense embedding; it makes no embedding call, no
    query of the index and no read of the store. *)
Theorem blank_fresh_query (w : World) (request : SearchRequest) (s : State) :
  not_blank (query request) = false ->
  relevant_turns_of (request_history request) = [] ->
  let label := label_of (w_generate w (trace s) (ClassifyPrompt "")) in
  let s1 := called (GenerateContent (ClassifyPrompt "")) s in
  search_patents w request s
  = if String.eqb label "irrelevant"
    then (Ok [("results", VRecords []); ("message", VStr rejection_message)], s1)
    else if String.eqb label "generic"
    then (Ok [("results", VRecords []);
              ("message",
               VStr "Your query is patent-related but too general; here's a direct answer.");
              ("generic_answer",
               VStr (generic_of (w_generate w (trace s1) (GenericAnswerPrompt ""))))],
          called (GenerateContent (GenericAnswerPrompt "")) s1)
    else (Ok [("error", VStr "Failed to generate dense embedding.")], s1).
Proof.
  intros Hblank Hrel label s1.
  assert (Hq : PyStr.strip (query request) = "").
  { unfold not_blank in Hblank. now destruct (PyStr.strip (query request)). }
  unfold search_patents, try_except, search_patents_body.
  fold (request_history request). rewrite Hrel, Hq. cbv zeta.
  unfold bind at 1. rewrite classify_query_type_run. fold label. fold s1.
  change (force_specific_of "") with false. cbn [negb]. rewrite !andb_true_r.
  destruct (String.eqb label "irrelevant"); [reflexivity|].
  destruct (String.eqb label "generic").
  - unfold bind. now rewrite generate_generic_answer_run.
  - reflexivity.
Qed.

Lemma blank_fresh_query_witness :
  search_patents Sample.specific_world (mkRequest "   " None 5 true true) Sample.state0
  = (Ok [("error", VStr "Failed to generate dense embedding.")],
     called (GenerateContent (ClassifyPrompt "")) Sample.state0).
Proof.
  apply (blank_fresh_query Sample.specific_world (mkRequest "   " None 5 true true)
           Sample.state0); reflexivity.
Defined.

Ltac wp_exec_facts_step :=
  first
    [ match goal with
      | |- wp (if negb ?b then _ else _) _ _ => is_var b; destruct b; cbn [negb]
      | |- wp (match ?x with _ => _ end) _ _ => is_var x; destruct x
      end
    | match goal with
      | |- wp (check_followup_relevance_multi _ _ _) _ _ =>
          apply wp_check_followup; intros [? ? ?] ? ? ? ? ? ?;
          unfold scan_facts in *;
          cbn [is_related related_turn related_to_index] in *
      end
    | wp_exec_step ].

Ltac wp_exec_facts := repeat (wp_exec_facts_step; cbv beta iota).

Lemma embedded_scan (P : string -> Prop) (c calls : list Event) :
  forallb is_followup_call c = true ->
  (forall e text, In e calls -> embedded_text e = Some text -> P text) ->
  forall e text, In e (c ++ calls) -> embedded_text e = Some text -> P text.
Proof.
  intros Hf H e text Hin He. apply in_app_or in Hin. destruct Hin as [Hin|Hin].
  - rewrite forallb_forall in Hf. specialize (Hf e Hin).
    destruct e as [[]| | | | | | | | |]; discriminate.
  - now apply (H e).
Qed.

Lemma embedded_cons (P : string -> Prop) (e0 : Event) (calls : list Event) :
  (forall text, embedded_text e0 = Some text -> P text) ->
  (forall e text, In e calls -> embedded_text e = Some text -> P text) ->
  forall e text, In e (e0 :: calls) -> embedded_text e = Some text -> P text.
Proof.
  intros H0 H e text [E|Hin] He; [subst e; now apply H0 | now apply (H e)].
Qed.

Lemma embedded_nil (P : string -> Prop) :
  forall e text, In e (@nil Event) -> embedded_text e = Some text -> P text.
Proof. intros e text []. Qed.

(** X24: what a request searches with.  Every text that the router has
    embedded, densely or sparsely, for a request is the trimmed query or the
    trimmed query augmented with the question and the answer of one of the
    relevant turns of the history; no other text reaches the embedding
    providers. *)
Theorem search_patents_embeds_query_or_augmented (w : World) (request : SearchRequest)
    (s : State) :
  exists calls,
    spent s (snd (search_patents w request s)) calls /\
    forall e text, In e calls -> embedded_text e = Some text ->
                   search_text_of request text.
Proof.
  change (wp (search_patents w request)
            (fun _ s' =>
               exists calls,
                 spent s s' calls /\
                 forall e text, In e calls -> embedded_text e = Some text ->
                                search_text_of request text) s).
  unfold search_patents. apply wp_try_except.
  unfold search_patents_body. cbv zeta.
  fold (request_history request). fold (query_text_of request).
  destruct (relevant_turns_of (request_history request)) as [|first_turn more_turns]
    eqn:Hrel; wp_exec_facts.
  all: eexists; (split; [spent_solve|]).
  all: assert (Hq : search_text_of request (query_text_of request))
         by (left; reflexivity).
  all: try match goal with
           | H : _ /\ _ /\ (true = true -> _) /\ _ |- _ =>
               let Hyes := fresh "Hyes" in
               destruct H as [? [_ [Hyes _]]];
               destruct (Hyes eq_refl) as [turn0 [idx0 [Ht0 [Hi0 Hn0]]]];
               injection Ht0 as Ht0;
               match type of Ht0 with
               | ?c0 = _ =>
                   assert (Haug : search_text_of request
                                    (augmented_query_of c0 (query_text_of request)))
                     by (right; exists c0; split;
                         [rewrite Hrel, Ht0; eapply nth_error_In; exact Hn0
                         | reflexivity])
               end
           | H : forallb is_followup_call _ = true /\ _ |- _ => destruct H as [? _]
           end.
  all: repeat first
         [ apply embedded_nil
         | apply embedded_scan; [assumption|]
         | apply embedded_cons;
           [ cbn [embedded_text]; intros text0 Htext0;
             first [ discriminate Htext0 | injection Htext0 as <-; assumption ]
           | ] ].
Qed.


(** ** backend/analyze_patent_files.py *)

Import analyze_patent_files.

Section Analysis.
Variable split_text : string -> list string.

Lemma analyze_file_counts (file_idx : nat) (file_name : string) (loaded : option Patent)
    (c : Counters) :
  let c' := analyze_file split_text file_idx file_name loaded c in
  let file := (file_name, loaded) in
  total_files c' = total_files c + (if loads file then 1 else 0) /\
  total_chunks c' = total_chunks c + (if has_text file then chunks_of split_text file else 0) /\
  length (content_length_analysis c')
  = length (content_length_analysis c) + (if has_text file then 1 else 0) /\
  length (files_with_no_chunks c') + length (content_length_analysis c')
  <= length (files_with_no_chunks c) + length (content_length_analysis c)
     + (if loads file then 1 else 0) /\
  (Forall (fun item => 1 <= ci_chunks_created item) (content_length_analysis c) ->
   (forall text, text <> "" -> split_text text <> []) ->
   Forall (fun item => 1 <= ci_chunks_created item) (content_length_analysis c')).
Proof.
  unfold analyze_file, has_text, loads, chunks_of, patent_combined_text. cbn [snd fst].
  destruct loaded as [patent|]; cbn [snd].
  { destruct (claims_data_of patent) as [claims_data|msg]; cbv zeta.
    - destruct (PyStr.truthy (combined_text_of _ _)) eqn:Ht; cbn [negb];
        cbn [total_files total_chunks content_length_analysis files_with_no_chunks].
      + rewrite !length_app. simpl length. repeat split; try lia.
        intros Hall Hsplit. apply Forall_app. split; [exact Hall|].
        constructor; [|constructor]. cbn [ci_chunks_created].
        match goal with
        | |- 1 <= length (split_text ?t) =>
            assert (Hne : t <> "") by (intro E; rewrite E in Ht; discriminate);
            specialize (Hsplit t Hne); destruct (split_text t); [congruence | simpl; lia]
        end.
      + rewrite !length_app. simpl length. repeat split; try lia. auto.
    - cbn [total_files total_chunks content_length_analysis files_with_no_chunks].
      repeat split; try lia. auto. }
  repeat split; try lia. auto.
Qed.

Lemma analyze_files_counts (files : list (string * option Patent)) (file_idx : nat)
    (c : Counters) :
  let c' := analyze_files split_text file_idx files c in
  total_files c' = total_files c + length (filter loads files) /\
  total_chunks c' = total_chunks c + list_sum (map (chunks_of split_text) (filter has_text files)) /\
  length (content_length_analysis c')
  = length (content_length_analysis c) + length (filter has_text files) /\
  length (files_with_no_chunks c') + length (content_length_analysis c')
  <= length (files_with_no_chunks c) + length (content_length_analysis c)
     + length (filter loads files) /\
  (Forall (fun item => 1 <= ci_chunks_created item) (content_length_analysis c) ->
   (forall text, text <> "" -> split_text text <> []) ->
   Forall (fun item => 1 <= ci_chunks_created item) (content_length_analysis c')).
Proof.
  revert file_idx c. induction files as [|[file_name loaded] files IH]; intros file_idx c.
  - simpl. repeat split; try lia. auto.
  - cbn [analyze_files].
    destruct (analyze_file_counts file_idx file_name loaded c)
      as [H1 [H2 [H3 [H4 H5]]]].
    destruct (IH (S file_idx) (analyze_file split_text file_idx file_name loaded c))
      as [I1 [I2 [I3 [I4 I5]]]].
    cbv zeta in *.
    cbn [filter].
    destruct (loads (file_name, loaded)); destruct (has_text (file_name, loaded));
      unfold list_sum in *; cbn [length map fold_right]; repeat split; try lia;
      try (intros Hall Hsplit; (apply I5; [now apply H5 | exact Hsplit])).
Qed.

Lemma insert_by_length_not_nil (x : ContentItem) (l : list ContentItem) :
  insert_by_length x l <> [].
Proof. destruct l as [|y l]; simpl; [discriminate|]. now destruct (_ <? _). Qed.

Lemma insert_by_length_In (x y : ContentItem) (l : list ContentItem) :
  In y (insert_by_length x l) -> y = x \/ In y l.
Proof.
  induction l as [|z l IH]; simpl.
  - intros [E|[]]. now left.
  - destruct (_ <? _); simpl.
    + intros [E|[E|H]]; auto.
    + intros [E|H]; auto. destruct (IH H); auto.
Qed.

Lemma sort_by_length_spec (items acc : list ContentItem) :
  (fold_left (fun sorted x => insert_by_length x sorted) items acc = [] ->
   items = [] /\ acc = []) /\
  (forall y, In y (fold_left (fun sorted x => insert_by_length x sorted) items acc) ->
             In y items \/ In y acc).
Proof.
  revert acc. induction items as [|x items IH]; intro acc; simpl.
  - split; auto.
  - destruct (IH (insert_by_length x acc)) as [Hnil Hin]. split.
    + intro H. destruct (Hnil H) as [_ Hx]. now apply insert_by_length_not_nil in Hx.
    + intros y Hy. destruct (Hin y Hy) as [H|H]; auto.
      destruct (insert_by_length_In _ _ _ H); auto.
Qed.

(** X25: [analyze_chunking_process] raises when no file of the folder has
    text (an empty folder, or files that do not load or have an empty
    combined text): after the loop it reads the first element of an empty
    list.  With at least one file with text it returns its report. *)
Theorem analysis_raises_without_text (files : list (string * option Patent)) :
  (forallb (fun file => negb (has_text file)) files = true ->
   analyze_chunking_process split_text files = Raise "list index out of range") /\
  (existsb has_text files = true ->
   exists report, analyze_chunking_process split_text files = Ok report).
Proof.
  unfold analyze_chunking_process. cbv zeta.
  destruct (analyze_files_counts files 0 (mkCounters 0 0 [] [] []))
    as [_ [_ [Hlen _]]].
  cbv zeta in Hlen. cbn [content_length_analysis length] in Hlen.
  split.
  - intro Hnone.
    assert (Hf : filter has_text files = []).
    { clear Hlen. induction files as [|f files IH]; [reflexivity|].
      simpl in Hnone. apply andb_true_iff in Hnone. destruct Hnone as [Hf Hrest].
      apply negb_true_iff in Hf. simpl. rewrite Hf. now apply IH. }
    rewrite Hf in Hlen. simpl in Hlen.
    destruct (content_length_analysis _); [reflexivity | discriminate].
  - intro Hsome.
    destruct (sort_by_length _) eqn:Hs; [|eexists; reflexivity].
    exfalso. unfold sort_by_length in Hs.
    apply (proj1 (sort_by_length_spec _ _)) in Hs. destruct Hs as [Hs _].
    rewrite Hs in Hlen. simpl in Hlen.
    apply existsb_exists in Hsome. destruct Hsome as [f [Hin Hf]].
    assert (Hin' : In f (filter has_text files)) by (apply filter_In; now split).
    destruct (filter has_text files); [contradiction | discriminate].
Qed.

Lemma no_mystery_when_chunked (l : list ContentItem) :
  (forall y, In y l -> 1 <= ci_chunks_created y) ->
  filter (fun item => (ci_chunks_created item =? 0) && (0 <? ci_content_length item)) l = [].
Proof.
  induction l as [|y l IH]; intro Hall; [reflexivity|].
  cbn [filter].
  assert (Hy := Hall y (or_introl eq_refl)).
  destruct (ci_chunks_created y =? 0) eqn:E.
  { apply Nat.eqb_eq in E. lia. }
  cbn [andb]. apply IH. intros z Hz. apply Hall. now right.
Qed.

(** X26: the report of [analyze_chunking_process] counts what the loop saw:
    [total_files] is the number of files that load, [total_chunks] the sum
    of the chunks that the splitter makes of the files with text, and the
    files without chunks are at most the loaded files without text.  When the
    splitter makes at least one chunk of every text that is not empty, the
    report names no "mystery" file. *)
Theorem analysis_report_counts (files : list (string * option Patent))
    (report : Report) :
  analyze_chunking_process split_text files = Ok report ->
  r_total_files report = length (filter loads files) /\
  r_total_chunks report = list_sum (map (chunks_of split_text) (filter has_text files)) /\
  length (r_files_with_no_chunks report) + length (filter has_text files)
  <= length (filter loads files) /\
  ((forall text, text <> "" -> split_text text <> []) -> r_mystery_files report = []).
Proof.
  unfold analyze_chunking_process. cbv zeta.
  destruct (analyze_files_counts files 0 (mkCounters 0 0 [] [] []))
    as [H1 [H2 [H3 [H4 H5]]]].
  cbv zeta in *. cbn [total_files total_chunks content_length_analysis
    files_with_no_chunks length] in *.
  destruct (sort_by_length _) as [|item sorted] eqn:Hs; [discriminate|].
  intro Hr. injection Hr as <-.
  cbn [r_total_files r_total_chunks r_files_with_no_chunks r_mystery_files].
  repeat split; try lia.
  intro Hsplit. destruct (_ <? _); [|reflexivity].
  specialize (H5 (Forall_nil _) Hsplit).
  assert (Hall : forall y, In y (item :: sorted) -> 1 <= ci_chunks_created y).
  { intros y Hy. rewrite <- Hs in Hy. unfold sort_by_length in Hy.
    destruct (proj2 (sort_by_length_spec _ _) y Hy) as [H|[]].
    rewrite Forall_forall in H5. now apply H5. }
  exact (no_mystery_when_chunked (item :: sorted) Hall).
Qed.

End Analysis.

Lemma analysis_raises_without_text_witness :
  analyze_chunking_process (fun text => [text])
    [("a.json", None); ("b.json", Some Sample.patent_without_text)]
  = Raise "list index out of range".
Proof.
  apply (proj1 (analysis_raises_without_text (fun text => [text])
                  [("a.json", None); ("b.json", Some Sample.patent_without_text)])).
  reflexivity.
Defined.

Lemma analysis_report_counts_witness :
  let files := [("a.json", None); ("b.json", Some Sample.patent_without_text);
                ("c.json", Some Sample.patent_with_text)] in
  let report := mkReport 2 1 [(1, 1)] [mkNoChunks "b.json" "US3"] [] in
  analyze_chunking_process (fun text => [text]) files = Ok report /\
  r_total_files report = length (filter loads files).
Proof.
  split; [vm_compute; reflexivity|].
  apply (analysis_report_counts (fun text => [text])
           [("a.json", None); ("b.json", Some Sample.patent_without_text);
            ("c.json", Some Sample.patent_with_text)]
           (mkReport 2 1 [(1, 1)] [mkNoChunks "b.json" "US3"] [])).
  vm_compute. reflexivity.
Defined.
